(** * piptracker: the HyperEVM NFT tracker of [main.py]

    A shallow embedding of [HyperEVMNFTTracker] (the block poller, the
    receipt classifier, the two log decoders and the three notification
    builders) together with the Python and web3 primitives they rely on.

    Conventions of the embedding.
    - A Python [str] is a [string]; its characters are code points below 256.
    - A Python [int] is a [Z].
    - [HexBytes] (transaction hashes, topics, [log.data], [tx.input]: what
      the web3 releases that have [from_wei] and [is_connected] deliver) is
      a list of bytes.  Its [.hex()] carries the [0x] prefix, which is what
      the literal topic constants and the [[26:]] slices of the source rely
      on; slicing it gives bytes, [len] counts bytes, [int(b, 16)] reads
      the bytes as ASCII text, and it equals no [str].
    - A raised exception is a [Raise] result; every handler of the source
      is [except Exception], so a handler discards the error and keeps the
      calls made so far.
    - The calls to the ledger endpoint and to the bot are recorded in a
      trace; console output is not modelled. *)

From Stdlib Require Import ZArith Ascii String Lia.
From Stdlib Require Import DecimalString DecimalZ DecimalPos.
From Stdlib.Strings Require Import Byte.
From stdpp Require Import gmap strings list fin_maps sorting.

Open Scope Z_scope.

(** ** Python primitives *)

Module Py.

(** Exceptions, by class. *)
Inductive exn : Type :=
| TypeError
| KeyError
| IndexError
| ValueError
| ConnectionError.

(** The outcome of evaluating an expression that may raise. *)
Inductive res (A : Type) : Type :=
| Ok (a : A)
| Raise (e : exn).
Arguments Ok {A} a.
Arguments Raise {A} e.

Definition bind {A B : Type} (m : res A) (f : A -> res B) : res B :=
  match m with
  | Ok a => f a
  | Raise e => Raise e
  end.

(** [try: body / except Exception: pass], for a body computing an optional
    value: an exception leaves the default [None]. *)
Definition try_or_none {A : Type} (m : res (option A)) : option A :=
  match m with
  | Ok r => r
  | Raise _ => None
  end.

(** [l[i]] on a list. *)
Definition index {A : Type} (l : list A) (i : nat) : res A :=
  match l !! i with
  | Some x => Ok x
  | None => Raise IndexError
  end.

(** [range(a, b)]. *)
Definition range (a b : Z) : list Z := seqZ a (b - a).

(** *** Strings *)

Definition nl : string := String (ascii_of_nat 10) EmptyString.

Definition lower_char (c : ascii) : ascii :=
  let n := nat_of_ascii c in
  if ((65 <=? n)%nat && (n <=? 90)%nat)
     || ((192 <=? n)%nat && (n <=? 222)%nat && negb (n =? 215)%nat)
  then ascii_of_nat (n + 32)
  else c.

(** [s.lower()]. *)
Fixpoint lower (s : string) : string :=
  match s with
  | EmptyString => EmptyString
  | String c r => String (lower_char c) (lower r)
  end.

(** [s[n:]]. *)
Fixpoint skip (n : nat) (s : string) : string :=
  match n, s with
  | O, _ => s
  | S _, EmptyString => EmptyString
  | S k, String _ r => skip k r
  end.

(** [sep.join(parts)]. *)
Fixpoint join (sep : string) (parts : list string) : string :=
  match parts with
  | [] => EmptyString
  | [p] => p
  | p :: rest => p +:+ sep +:+ join sep rest
  end.

(** [str(n)] for an int. *)
Definition str_of_int (n : Z) : string := NilZero.string_of_int (Z.to_int n).

(** *** Bytes *)

(** [[data[i:i + 64] for i in range(0, len(data), 64)]] on a bytes object:
    [data[a:b]] is [take (b - a) (drop a data)]. *)
Definition chunks (data : list byte) : list (list byte) :=
  map (fun k : nat => take 64 (drop (64 * k) data))
      (seq 0 ((length data + 63) / 64)).

(** [b == s] for a bytes object and a str: objects of the two types are
    never equal. *)
Definition bytes_eq_str (b : list byte) (s : string) : bool := false.

(** [b in [s1, s2]] for a bytes object and a list of str. *)
Definition bytes_in (b : list byte) (l : list string) : bool :=
  existsb (bytes_eq_str b) l.

(** *** [int(s, 16)] *)

(** The value of a digit in base 16, for the characters that have one. *)
Definition hexval (c : ascii) : option Z :=
  let n := Z.of_nat (nat_of_ascii c) in
  if (48 <=? n) && (n <=? 57) then Some (n - 48)
  else if (97 <=? n) && (n <=? 102) then Some (n - 87)
  else if (65 <=? n) && (n <=? 70) then Some (n - 55)
  else None.

(** The characters that the integer parser skips around a numeral: the
    ASCII white space and, when the argument is a [str] ([text]), the two
    other white-space code points below 256. *)
Definition is_space (text : bool) (c : ascii) : bool :=
  let n := nat_of_ascii c in
  ((9 <=? n)%nat && (n <=? 13)%nat) || (n =? 32)%nat
  || (text && ((n =? 133)%nat || (n =? 160)%nat)).

Fixpoint lstrip (text : bool) (s : string) : string :=
  match s with
  | EmptyString => EmptyString
  | String c r => if is_space text c then lstrip text r else s
  end.

(** The digit loop of the integer parser: digits with single underscores
    between them.  [prev] tells that the previous character was an
    underscore; the result is the value read and the unread rest. *)
Fixpoint scan_digits (prev : bool) (acc : Z) (s : string)
  : option (Z * string) :=
  match s with
  | EmptyString => if prev then None else Some (acc, s)
  | String c r =>
      if Ascii.eqb c "_"
      then (if prev then None else scan_digits true acc r)
      else match hexval c with
           | Some d => scan_digits false (16 * acc + d) r
           | None => if prev then None else Some (acc, s)
           end
  end.

Definition strip_sign (s : string) : bool * string :=
  match s with
  | String "-" r => (true, r)
  | String "+" r => (false, r)
  | _ => (false, s)
  end.

Definition strip_0x (s : string) : string :=
  match s with
  | String "0" (String "x" r) | String "0" (String "X" r) =>
      match r with
      | String "_" r' => r'
      | _ => r
      end
  | _ => s
  end.

(** What is left after the sign and the prefix: no leading underscore, at
    least one digit, nothing but white space after the digits. *)
Definition int16_digits (text neg : bool) (s : string) : res Z :=
  match s with
  | EmptyString => Raise ValueError
  | String c _ =>
      match hexval c with
      | None => Raise ValueError
      | Some _ =>
          match scan_digits false 0 s with
          | Some (v, rest) =>
              match lstrip text rest with
              | EmptyString => Ok (if neg then - v else v)
              | String _ _ => Raise ValueError
              end
          | None => Raise ValueError
          end
      end
  end.

(** The integer parser in base 16: surrounding white space, an optional
    sign, an optional [0x] prefix, then hexadecimal digits. *)
Definition parse_int16 (text : bool) (s : string) : res Z :=
  let (neg, s1) := strip_sign (lstrip text s) in
  int16_digits text neg (strip_0x s1).

(** [int(s, 16)] for a str. *)
Definition int16 (s : string) : res Z := parse_int16 true s.

(** [int(b, 16)] for a bytes object: its bytes are read as ASCII text. *)
Definition int16_bytes (b : list byte) : res Z :=
  parse_int16 false (string_of_list_byte b).

(** *** HexBytes *)

(** The digit of a nibble, out of the table of lower-case digits. *)
Definition hexchar (n : Z) : ascii :=
  match String.get (Z.to_nat n) "0123456789abcdef" with
  | Some c => c
  | None => "f"
  end.

Definition byte_val (b : byte) : Z := Z.of_N (Byte.to_N b).

Fixpoint hex_digits (bs : list byte) : string :=
  match bs with
  | [] => EmptyString
  | b :: r =>
      String (hexchar (byte_val b / 16))
             (String (hexchar (byte_val b mod 16)) (hex_digits r))
  end.

(** [HexBytes.hex()]. *)
Definition hex (bs : list byte) : string := "0x" +:+ hex_digits bs.

(** *** Numbers and their display *)

(** A [decimal.Decimal], by value: [dec_coef / 10 ^ dec_places]. *)
Record decimal : Type := mkDecimal { dec_coef : Z; dec_places : nat }.

(** What [web3.from_wei] returns: the int [0] or a [Decimal]. *)
Inductive number : Type :=
| NInt (z : Z)
| NDec (d : decimal).

Definition MIN_WEI : Z := 0.
Definition MAX_WEI : Z := 2 ^ 256 - 1.

(** [web3.from_wei(n, 'ether')]: the division by [10 ** 18] is carried out
    with 999 significant digits, so it is exact on the accepted range. *)
Definition from_wei (n : Z) : res number :=
  if n =? 0 then Ok (NInt 0)
  else if (n <? MIN_WEI) || (MAX_WEI <? n) then Raise ValueError
  else Ok (NDec (mkDecimal n 18)).

(** [a / b] rounded to the nearest integer, ties to even (the rounding of
    the default decimal context). *)
Definition round_half_even (a b : Z) : Z :=
  let q := a / b in
  let r := a mod b in
  if 2 * r <? b then q
  else if b <? 2 * r then q + 1
  else if Z.even q then q else q + 1.

(** The value rescaled to [p] fractional digits, as an integer number of
    units of [10 ^ -p]. *)
Definition quantize (p : nat) (d : decimal) : Z :=
  if (p <=? dec_places d)%nat
  then round_half_even (dec_coef d) (10 ^ Z.of_nat (dec_places d - p))
  else dec_coef d * 10 ^ Z.of_nat (p - dec_places d).

Definition digit_char (d : Z) : ascii :=
  match String.get (Z.to_nat d) "0123456789" with
  | Some c => c
  | None => "9"
  end.

(** The [n] low decimal digits of [z], most significant first. *)
Fixpoint fixed_digits (n : nat) (z : Z) : string :=
  match n with
  | O => EmptyString
  | S k => String (digit_char (z / 10 ^ Z.of_nat k mod 10)) (fixed_digits k z)
  end.

(** [format(x, '.<p>f')].  An int is formatted through its float, which is
    exact below [2 ** 53]; the only int that reaches a format here is [0]. *)
Definition format_f (p : nat) (x : number) : string :=
  match x with
  | NInt z => str_of_int z +:+ "." +:+ fixed_digits p 0
  | NDec d =>
      let q := Z.abs (quantize p d) in
      (if dec_coef d <? 0 then "-" else EmptyString)
      +:+ str_of_int (q / 10 ^ Z.of_nat p) +:+ "."
      +:+ fixed_digits p (q mod 10 ^ Z.of_nat p)
  end.

(** *** Values held in the event dictionaries *)

Inductive value : Type :=
| VInt (z : Z)
| VStr (s : string).

(** [bool(v)]. *)
Definition truthy (v : value) : bool :=
  match v with
  | VInt z => negb (z =? 0)
  | VStr s => negb (String.length s =? 0)%nat
  end.

(** [str(v)]. *)
Definition str (v : value) : string :=
  match v with
  | VInt z => str_of_int z
  | VStr s => s
  end.

(** [iter(v)], as [map(str, v)] needs it: an int is not iterable. *)
Definition iter (v : value) : res (list value) :=
  match v with
  | VInt _ => Raise TypeError
  | VStr s =>
      Ok (map (fun c : ascii => VStr (String c EmptyString))
              (list_ascii_of_string s))
  end.

(** [d[k]] on a dict. *)
Definition getitem (d : gmap string value) (k : string) : res value :=
  match d !! k with
  | Some v => Ok v
  | None => Raise KeyError
  end.

(** [web3.from_wei(v, 'ether')] on a dictionary value: the range
    comparison of a str with an int is a [TypeError]. *)
Definition from_wei_value (v : value) : res number :=
  match v with
  | VInt z => from_wei z
  | VStr _ => Raise TypeError
  end.

End Py.

Import Py.

Notation "x <- m ;; k" := (Py.bind m (fun x => k))
  (at level 100, m at next level, right associativity, only parsing).

(** ** Data model *)

(** An event log of a receipt. *)
Record Log : Type := mkLog {
  log_address : string;
  log_topics : list (list byte);
  log_data : list byte
}.

Record Receipt : Type := mkReceipt {
  receipt_status : Z;
  receipt_gasUsed : Z;
  receipt_logs : list Log
}.

Record Transaction : Type := mkTransaction {
  tx_hash : list byte;
  tx_from : string;
  tx_to : option string;
  tx_input : list byte;
  tx_value : Z;
  tx_gasPrice : Z
}.

(** The collaborators: the ledger endpoint as one poll cycle sees it, the
    bot, and the configured destination. *)
Record Env : Type := mkEnv {
  block_number : res Z;
  get_block : Z -> res (list Transaction);
  get_transaction_receipt : list byte -> res Receipt;
  keccak_text : string -> list byte;
  send_message : string -> string -> res unit;
  CHAT_ID : string
}.

(** The calls made to the collaborators, in order. *)
Inductive call : Type :=
| BlockNumber
| GetBlock (n : Z)
| GetReceipt (h : list byte)
| SendMessage (chat_id text parse_mode : string)
| Sleep (seconds : Z).

(** A computation that makes calls and may raise. *)
Definition eff (A : Type) : Type := (list call * res A)%type.

Definition eret {A : Type} (a : A) : eff A := ([], Ok a).

Definition ebind {A B : Type} (m : eff A) (f : A -> eff B) : eff B :=
  match m with
  | (t, Ok a) => let (t', r) := f a in (t ++ t', r)
  | (t, Raise e) => (t, Raise e)
  end.

Notation "x <~ m ;; k" := (ebind m (fun x => k))
  (at level 100, m at next level, right associativity, only parsing).

(** A pure expression inside an effectful body. *)
Definition lift {A : Type} (r : res A) : eff A := ([], r).

(** One call and its outcome. *)
Definition perform {A : Type} (c : call) (r : res A) : eff A := ([c], r).

(** Awaiting a coroutine that handles its own exceptions. *)
Definition await (t : list call) : eff unit := (t, Ok tt).

(** [try: body / except Exception as e: print(...)]. *)
Definition attempt (m : eff unit) : list call := fst m.

(** [for x in l: body]. *)
Fixpoint for_each {A : Type} (l : list A) (body : A -> eff unit) : eff unit :=
  match l with
  | [] => eret tt
  | x :: r => _ <~ body x ;; for_each r body
  end.

Definition CONTRACT_ADDRESS : string :=
  "0xb6c73F6c09f850651DCb6D62a4D3A7F25e0016C4".

Record HyperEVMNFTTracker : Type := mkTracker {
  contract_address : string;
  last_processed_block : Z
}.

(** [HyperEVMNFTTracker.__init__], given the head read at startup. *)
Definition init (head : Z) : HyperEVMNFTTracker :=
  {| contract_address := lower CONTRACT_ADDRESS;
     last_processed_block := head |}.

(** ** Log Decoder *)

Definition bid_accepted_topic : string :=
  "0xf6b2b7813b1815a0e2e32964b4f22ec24862322d9c9c0e0eefac425dfc455ab1".

Definition item_sold_topic : string :=
  "0x72d3f914473a393354e6fcd9c3cb7d2eee53924b9b856f9da274e024566292a5".

(** ["0x" + topic.hex()[26:]  # Remove padding]. *)
Definition unpad (topic : list byte) : string := "0x" +:+ skip 26 (hex topic).

Definition decode_bid_accepted_event (log : Log)
  : option (gmap string value) :=
  try_or_none (
    let data := drop 2 (log_data log) in
    let chunks := Py.chunks data in
    if (8 <=? length chunks)%nat then
      c0 <- index chunks 0 ;; bid_type <- int16_bytes c0 ;;
      c2 <- index chunks 2 ;; price_per_item <- int16_bytes c2 ;;
      c3 <- index chunks 3 ;; quantity <- int16_bytes c3 ;;
      c7 <- index chunks 7 ;; token_id <- int16_bytes c7 ;;
      t1 <- index (log_topics log) 1 ;;
      let bidder := unpad t1 in
      t2 <- index (log_topics log) 2 ;;
      let nft_address := unpad t2 in
      seller <- (if (3 <? length (log_topics log))%nat
                 then t3 <- index (log_topics log) 3 ;; Ok (unpad t3)
                 else Ok "Unknown") ;;
      Ok (Some (<["tokenId" := VInt token_id]>
               (<["bidType" := VInt bid_type]>
               (<["bidder" := VStr bidder]>
               (<["nftAddress" := VStr nft_address]>
               (<["pricePerItem" := VInt price_per_item]>
               (<["quantity" := VInt quantity]>
               (<["seller" := VStr seller]>
               (<["paymentToken" := VStr "WHYPE"]> ∅)))))))))
    else Ok None).

Definition decode_item_sold_event (log : Log)
  : option (gmap string value) :=
  try_or_none (
    let data := drop 2 (log_data log) in
    let chunks := Py.chunks data in
    if (6 <=? length chunks)%nat then
      buyer <- (if (1 <? length (log_topics log))%nat
                then t1 <- index (log_topics log) 1 ;; Ok (unpad t1)
                else Ok "Unknown") ;;
      nft_address <- (if (2 <? length (log_topics log))%nat
                      then t2 <- index (log_topics log) 2 ;; Ok (unpad t2)
                      else Ok "Unknown") ;;
      seller <- (if (3 <? length (log_topics log))%nat
                 then t3 <- index (log_topics log) 3 ;; Ok (unpad t3)
                 else Ok "Unknown") ;;
      c0 <- index chunks 0 ;; price_per_item <- int16_bytes c0 ;;
      c1 <- index chunks 1 ;; quantity <- int16_bytes c1 ;;
      c2 <- index chunks 2 ;; token_id <- int16_bytes c2 ;;
      Ok (Some (<["tokenId" := VInt token_id]>
               (<["buyer" := VStr buyer]>
               (<["seller" := VStr seller]>
               (<["nftAddress" := VStr nft_address]>
               (<["pricePerItem" := VInt price_per_item]>
               (<["quantity" := VInt quantity]>
               (<["paymentToken" := VStr "WHYPE"]> ∅))))))))
    else Ok None).

(** ** Transaction Classifier *)

(** [transfer_topic = web3.keccak(text="Transfer(address,address,uint256)").hex()]. *)
Definition transfer_topic (env : Env) : string :=
  hex (keccak_text env "Transfer(address,address,uint256)").

(** [data and 'tokenId' in data], for what a decoder returned. *)
Definition has_token_id (r : option (gmap string value)) : bool :=
  match r with
  | Some d => negb (bool_decide (d = ∅)) && bool_decide (is_Some (d !! "tokenId"))
  | None => false
  end.

(** What a decoded event appends to [token_ids] and [event_details]. *)
Definition record_event (name : string) (r : option (gmap string value))
  : res (list value * list (string * gmap string value)) :=
  match r with
  | Some d =>
      if has_token_id r
      then token_id <- getitem d "tokenId" ;; Ok ([token_id], [(name, d)])
      else Ok ([], [])
  | None => Ok ([], [])
  end.

(** The [elif] branches of the loop body. *)
Definition classify_event (log : Log)
  : res (list value * list (string * gmap string value)) :=
  t0 <- index (log_topics log) 0 ;;
  if String.eqb (hex t0) bid_accepted_topic
  then record_event "BidAccepted" (decode_bid_accepted_event log)
  else
    t0' <- index (log_topics log) 0 ;;
    if String.eqb (hex t0') item_sold_topic
    then record_event "ItemSold" (decode_item_sold_event log)
    else Ok ([], []).

(** The test of the first [if] of the loop body. *)
Definition is_transfer (env : Env) (self : HyperEVMNFTTracker) (log : Log)
  : res bool :=
  if (4 <=? length (log_topics log))%nat
  then
    t0 <- index (log_topics log) 0 ;;
    if String.eqb (hex t0) (transfer_topic env)
    then Ok (String.eqb (lower (log_address log)) (contract_address self))
    else Ok false
  else Ok false.

(** One pass of the loop body: what it appends to the two lists. *)
Definition classify_log (env : Env) (self : HyperEVMNFTTracker) (log : Log)
  : res (list value * list (string * gmap string value)) :=
  transfer <- is_transfer env self log ;;
  if transfer : bool
  then
    t3 <- index (log_topics log) 3 ;;
    token_id <- int16 (hex t3) ;;
    Ok ([VInt token_id], [])
  else classify_event log.

(** The [for log in logs] loop inside its [try]: an exception ends the loop
    and the lists built so far are returned. *)
Fixpoint extract_loop (env : Env) (self : HyperEVMNFTTracker)
    (logs : list Log) (token_ids : list value)
    (event_details : list (string * gmap string value))
  : list value * list (string * gmap string value) :=
  match logs with
  | [] => (token_ids, event_details)
  | log :: rest =>
      match classify_log env self log with
      | Ok (ids, events) =>
          extract_loop env self rest (token_ids ++ ids) (event_details ++ events)
      | Raise _ => (token_ids, event_details)
      end
  end.

Definition extract_token_ids_from_logs (env : Env) (self : HyperEVMNFTTracker)
    (logs : list Log) : list value * list (string * gmap string value) :=
  extract_loop env self logs [] [].

(** ** Notification assembly *)

(** The text of the three f-strings, which differ only in their holes. *)
Definition message_text (ids price seller buyer : string) : string :=
  nl +:+ "PiP & Friends " +:+ ids +:+ " was bought for " +:+ price +:+ " HYPE"
  +:+ nl +:+ nl +:+ "from: '" +:+ seller +:+ "'"
  +:+ nl +:+ "to: '" +:+ buyer +:+ "'"
  +:+ nl +:+ "            ".

(** [bot.send_message(chat_id=CHAT_ID, text=message, parse_mode='Markdown')]. *)
Definition bot_send (env : Env) (message : string) : eff unit :=
  perform (SendMessage (CHAT_ID env) message "Markdown")
          (send_message env (CHAT_ID env) message).

(** [', '.join(map(str, d['tokenId'])) if d['tokenId'] else 'Unknown']. *)
Definition token_id_field (d : gmap string value) : res string :=
  c <- getitem d "tokenId" ;;
  if truthy c
  then v <- getitem d "tokenId" ;; items <- iter v ;;
       Ok (join ", " (map str items))
  else Ok "Unknown".

Definition send_item_sold_notification (env : Env)
    (item_data : gmap string value) (tx_hash : string)
    (gas_used : Z) (gas_cost_hype : number) (block_number : Z) : list call :=
  attempt (
    p <~ lift (getitem item_data "pricePerItem") ;;
    price_hype <~ lift (from_wei_value p) ;;
    ids <~ lift (token_id_field item_data) ;;
    seller <~ lift (getitem item_data "seller") ;;
    bidder <~ lift (getitem item_data "bidder") ;;
    let message :=
      message_text ids (format_f 6 price_hype) (str seller) (str bidder) in
    bot_send env message).

Definition send_bid_accepted_notification (env : Env)
    (bid_data : gmap string value) (tx_hash : string)
    (gas_used : Z) (gas_cost_hype : number) (block_number : Z) : list call :=
  attempt (
    p <~ lift (getitem bid_data "pricePerItem") ;;
    price_hype <~ lift (from_wei_value p) ;;
    ids <~ lift (token_id_field bid_data) ;;
    seller <~ lift (getitem bid_data "seller") ;;
    bidder <~ lift (getitem bid_data "bidder") ;;
    let message :=
      message_text ids (format_f 6 price_hype) (str seller) (str bidder) in
    bot_send env message).

(** [str(x)] for an address that may be [None]. *)
Definition str_opt (a : option string) : string :=
  match a with
  | Some s => s
  | None => "None"
  end.

Definition send_generic_notification (env : Env)
    (token_ids : list value) (buyer : option string) (seller : string)
    (tx_value_hype : number) (tx_hash : string)
    (gas_used : Z) (gas_cost_hype : number) (block_number : Z) : list call :=
  attempt (
    let ids := match token_ids with
               | [] => "Unknown"
               | _ :: _ => join ", " (map str token_ids)
               end in
    let message :=
      message_text ids (format_f 6 tx_value_hype) seller (str_opt buyer) in
    bot_send env message).

Definition handle_nft_transaction (env : Env) (self : HyperEVMNFTTracker)
    (tx : Transaction) (receipt : Receipt) (block_number : Z) : list call :=
  attempt (
    let tx_hash := hex (tx_hash tx) in
    let buyer := tx_to tx in
    let seller := tx_from tx in
    let gas_used := receipt_gasUsed receipt in
    let gas_price := tx_gasPrice tx in
    let gas_cost_wei := gas_used * gas_price in
    gas_cost_hype <~ lift (from_wei gas_cost_wei) ;;
    let (token_ids, event_details) :=
      extract_token_ids_from_logs env self (receipt_logs receipt) in
    tx_value_hype <~ lift (if 0 <? tx_value tx
                           then from_wei (tx_value tx)
                           else Ok (NInt 0)) ;;
    _ <~ for_each event_details (fun ev =>
           let (event_type, event_data) := ev : string * gmap string value in
           if String.eqb event_type "ItemSold"
           then await (send_item_sold_notification env event_data tx_hash
                         gas_used gas_cost_hype block_number)
           else if String.eqb event_type "BidAccepted"
           then await (send_bid_accepted_notification env event_data tx_hash
                         gas_used gas_cost_hype block_number)
           else eret tt) ;;
    match event_details, token_ids with
    | [], _ :: _ =>
        await (send_generic_notification env token_ids buyer seller
                 tx_value_hype tx_hash gas_used gas_cost_hype block_number)
    | _, _ => eret tt
    end).

(** ** Poller *)

Definition analyze_transaction (env : Env) (self : HyperEVMNFTTracker)
    (tx : Transaction) (block_number : Z) : list call :=
  attempt (
    receipt <~ perform (GetReceipt (tx_hash tx))
                       (get_transaction_receipt env (tx_hash tx)) ;;
    if negb (receipt_status receipt =? 1) then eret tt
    else if negb (length (tx_input tx) =? 0)%nat
            && (10 <=? length (tx_input tx))%nat
    then await (handle_nft_transaction env self tx receipt block_number)
    else eret tt).

(** [tx.to and tx.to.lower() == self.contract_address]. *)
Definition addressed_to_contract (self : HyperEVMNFTTracker) (tx : Transaction)
  : bool :=
  match tx_to tx with
  | None => false
  | Some a =>
      negb (String.length a =? 0)%nat
      && String.eqb (lower a) (contract_address self)
  end.

Definition process_block (env : Env) (self : HyperEVMNFTTracker)
    (block_number : Z) : list call :=
  attempt (
    transactions <~ perform (GetBlock block_number)
                            (get_block env block_number) ;;
    for_each transactions (fun tx =>
      if addressed_to_contract self tx
      then await (analyze_transaction env self tx block_number)
      else eret tt)).

(** One iteration of the [while True] loop of [track_transactions]: the
    calls it makes and the tracker it leaves. *)
Definition poll_cycle (env : Env) (self : HyperEVMNFTTracker)
  : list call * HyperEVMNFTTracker :=
  match perform BlockNumber (block_number env) with
  | (t, Ok current_block) =>
      let (t', _) :=
        for_each (range (last_processed_block self + 1) (current_block + 1))
                 (fun block_num => await (process_block env self block_num)) in
      (t ++ t' ++ [Sleep 5],
       {| contract_address := contract_address self;
          last_processed_block := current_block |})
  | (t, Raise _) => (t ++ [Sleep 15], self)
  end.

(** [track_transactions], for as many iterations as there are views of the
    ledger: the loop itself never ends. *)
Fixpoint track_transactions (envs : list Env) (self : HyperEVMNFTTracker)
  : list call * HyperEVMNFTTracker :=
  match envs with
  | [] => ([], self)
  | env :: rest =>
      let (t, self') := poll_cycle env self in
      let (t', self'') := track_transactions rest self' in
      (t ++ t', self'')
  end.

(** The heights on which [process_block] read a block, in call order. *)
Definition heights (t : list call) : list Z :=
  omap (fun c => match c with GetBlock n => Some n | _ => None end) t.

(** The notifications handed to the bot, in call order. *)
Definition notifications (t : list call) : list (string * string) :=
  omap (fun c => match c with
                 | SendMessage chat_id text _ => Some (chat_id, text)
                 | _ => None
                 end) t.

(** The receipts fetched, that is the transactions analyzed. *)
Definition analyzed (t : list call) : list (list byte) :=
  omap (fun c => match c with GetReceipt h => Some h | _ => None end) t.

(** ** Well-formed inputs, for stating the properties *)

(** The byte of value [z mod 256]. *)
Definition byte_of (z : Z) : byte :=
  default x00 (Byte.of_N (Z.to_N (z mod 256))).

(** The [n]-byte big-endian encoding of [z]. *)
Fixpoint be_bytes (n : nat) (z : Z) : list byte :=
  match n with
  | O => []
  | S k => be_bytes k (z / 256) ++ [byte_of z]
  end.

(** A 32-byte word of a log payload or a topic. *)
Definition word (z : Z) : list byte := be_bytes 32 z.

(** The unsigned integer that a byte string holds, big-endian. *)
Definition be_int (bs : list byte) : Z :=
  fold_left (fun acc b => 256 * acc + byte_val b) bs 0.

(** The [log.data] of a payload made of the given words, 32 bytes each. *)
Definition abi_data (ws : list Z) : list byte := concat (map word ws).

(** The same payload written out as text, [0x] and 64 digits per word, and
    delivered as the bytes of that text. *)
Definition text_data (ws : list Z) : list byte :=
  list_byte_of_string (hex (abi_data ws)).

(** The 64 ASCII digits of a word. *)
Definition numeral (w : Z) : list byte :=
  list_byte_of_string (hex_digits (word w)).

(** The topic that carries a 20-byte address: left-padded to 32 bytes. *)
Definition address_topic (a : list byte) : list byte := repeat x00 12 ++ a.

(** The number of chunks, whole or partial, that a decoder cuts out of
    the payload. *)
Definition payload_chunks (log : Log) : nat :=
  length (Py.chunks (drop 2 (log_data log))).

(** A value that fits a 32-byte word. *)
Definition uint256 (z : Z) : Prop := 0 <= z < 2 ^ 256.

(** *** Reading a displayed price back *)

Definition digit_val (c : ascii) : option Z :=
  let n := Z.of_nat (nat_of_ascii c) in
  if (48 <=? n) && (n <=? 57) then Some (n - 48) else None.

(** The text before and after the first decimal point. *)
Fixpoint split_point (s : string) : option (string * string) :=
  match s with
  | EmptyString => None
  | String c r =>
      if Ascii.eqb c "."
      then Some (EmptyString, r)
      else match split_point r with
           | Some (a, b) => Some (String c a, b)
           | None => None
           end
  end.

Fixpoint read_digits (acc : Z) (s : string) : option Z :=
  match s with
  | EmptyString => Some acc
  | String c r =>
      match digit_val c with
      | Some d => read_digits (10 * acc + d) r
      | None => None
      end
  end.

(** The decimal value that the text [<digits>.<digits>] denotes. *)
Definition decimal_of_string (s : string) : option decimal :=
  match split_point s with
  | Some (i, f) =>
      match NilZero.uint_of_string i, read_digits 0 f with
      | Some d, Some fz =>
          Some (mkDecimal (Z.of_uint d * 10 ^ Z.of_nat (String.length f) + fz)
                          (String.length f))
      | _, _ => None
      end
  | None => None
  end.

(** Every successfully observed head is at or above the cursor it meets. *)
Fixpoint heads_ascend (envs : list Env) (cursor : Z) : Prop :=
  match envs with
  | [] => True
  | env :: rest =>
      match block_number env with
      | Ok h => cursor <= h /\ heads_ascend rest h
      | Raise _ => heads_ascend rest cursor
      end
  end.

(** The address that a decoder reports for an indexed parameter: the
    digits of the topic after its first 12 bytes, or the sentinel. *)
Definition topic_address (topic : option (list byte)) : string :=
  match topic with
  | Some t => hex (drop 12 t)
  | None => "Unknown"
  end.

(** The log reaches one of the two decoders, and the decoder fails. *)
Definition decode_fails (env : Env) (self : HyperEVMNFTTracker) (log : Log)
  : Prop :=
  is_transfer env self log = Ok false
  /\ exists t0 : list byte,
       log_topics log !! 0%nat = Some t0
       /\ ((hex t0 = bid_accepted_topic
            /\ decode_bid_accepted_event log = None)
           \/ (hex t0 = item_sold_topic
               /\ decode_item_sold_event log = None)).

(** A call that hands a message to the bot. *)
Definition is_notification (c : call) : Prop :=
  match c with
  | SendMessage _ _ _ => True
  | _ => False
  end.

(** ** Sample ledger contents *)

Module Sample.

Definition transfer_digest : list byte :=
  word 0xddf252ad1be2c89b69c2b068fc378daa952ba7f163c4a11628f55a4df523b3ef.

Definition bid_accepted_digest : list byte :=
  word 0xf6b2b7813b1815a0e2e32964b4f22ec24862322d9c9c0e0eefac425dfc455ab1.

Definition item_sold_digest : list byte :=
  word 0x72d3f914473a393354e6fcd9c3cb7d2eee53924b9b856f9da274e024566292a5.

(** The only text that the tracker hashes. *)
Definition keccak (text : string) : list byte :=
  if String.eqb text "Transfer(address,address,uint256)"
  then transfer_digest
  else [].

Definition buyer : list byte := repeat xaa 20.
Definition nft : list byte := repeat xbb 20.
Definition seller : list byte := repeat xcc 20.

Definition sale_topics : list (list byte) :=
  [item_sold_digest; address_topic buyer; address_topic nft;
   address_topic seller].

Definition bid_topics : list (list byte) :=
  [bid_accepted_digest; address_topic buyer; address_topic nft;
   address_topic seller].

(** An ItemSold log whose payload is the three words
    [{pricePerItem, quantity, tokenId}]. *)
Definition item_sold_3 : Log :=
  mkLog CONTRACT_ADDRESS sale_topics (abi_data [2000000000000000000; 1; 42]).

(** The same sale with nine more words after the three. *)
Definition item_sold_12 : Log :=
  mkLog CONTRACT_ADDRESS sale_topics
        (abi_data [2000000000000000000; 1; 42; 0; 0; 0; 0; 0; 0; 0; 0; 0]).

Definition sale_words : list Z := [2000000000000000000; 1; 42; 0; 0; 0].

(** An ItemSold log whose payload is the text of six words. *)
Definition item_sold_text : Log :=
  mkLog CONTRACT_ADDRESS sale_topics (text_data sale_words).

Definition bid_words : list Z := [1; 0; 1500000000000000000; 1; 0; 0; 0; 7].

(** A BidAccepted log whose payload is the eight words. *)
Definition bid_accepted_8 : Log :=
  mkLog CONTRACT_ADDRESS bid_topics (abi_data bid_words).

(** A BidAccepted log with one word missing. *)
Definition bid_accepted_7 : Log :=
  mkLog CONTRACT_ADDRESS bid_topics (abi_data (take 7 bid_words)).

(** A BidAccepted log whose payload is the text of the eight words. *)
Definition bid_accepted_text : Log :=
  mkLog CONTRACT_ADDRESS bid_topics (text_data bid_words).

(** A Transfer of token 7 emitted by the tracked contract. *)
Definition transfer_7 : Log :=
  mkLog CONTRACT_ADDRESS
        [transfer_digest; address_topic seller; address_topic buyer; word 7]
        [].

Definition sender : string := "0x1111111111111111111111111111111111111111".

(** The input of a call [transferFrom(seller, buyer, 7)]. *)
Definition calldata : list byte :=
  [x23; xb8; x72; xdd] ++ address_topic seller ++ address_topic buyer
  ++ word 7.

Definition tx_transfer : Transaction :=
  mkTransaction (word 1) sender (Some CONTRACT_ADDRESS) calldata
                1500000000000000000 1000000000.

Definition receipt_transfer : Receipt := mkReceipt 1 21000 [transfer_7].

Definition tx_sales : Transaction :=
  mkTransaction (word 2) sender (Some CONTRACT_ADDRESS) calldata
                0 1000000000.

Definition receipt_sales : Receipt :=
  mkReceipt 1 90000 [item_sold_text; bid_accepted_text].

Definition tx_failed : Transaction :=
  mkTransaction (word 3) sender (Some CONTRACT_ADDRESS) calldata
                0 1000000000.

Definition receipt_failed : Receipt := mkReceipt 0 21000 [transfer_7].

(** A plain value transfer to the contract: no input. *)
Definition tx_short : Transaction :=
  mkTransaction (word 4) sender (Some CONTRACT_ADDRESS) []
                1500000000000000000 1000000000.

Definition tx_other : Transaction :=
  mkTransaction (word 5) sender
                (Some "0x000000000000000000000000000000000000dEaD")
                calldata 0 1000000000.

Definition receipts (h : list byte) : res Receipt :=
  match be_int h with
  | 1 => Ok receipt_transfer
  | 2 => Ok receipt_sales
  | 3 => Ok receipt_failed
  | 4 => Ok receipt_transfer
  | 5 => Ok receipt_transfer
  | _ => Raise ConnectionError
  end.

Definition blocks (n : Z) : res (list Transaction) :=
  if n =? 11 then Ok [tx_other; tx_failed; tx_short; tx_transfer]
  else if n =? 12 then Raise ConnectionError
  else Ok [].

(** The collaborators, with the given reading of the chain head. *)
Definition env_at (head : res Z) : Env :=
  mkEnv head blocks receipts keccak (fun _ _ => Ok tt) "-1001234567890".

Definition env : Env := env_at (Ok 12).

Definition self : HyperEVMNFTTracker := init 10.

End Sample.

(** ** The remaining functions of [main.py] *)

(** The first [for] loop of [determine_transaction_type]: the kind that the
    first ItemSold or BidAccepted entry decides. *)
Fixpoint kind_of_events (event_details : list (string * gmap string value))
  : option string :=
  match event_details with
  | [] => None
  | (event_type, _) :: rest =>
      if String.eqb event_type "ItemSold" then Some "buyItems"
      else if String.eqb event_type "BidAccepted" then Some "acceptBids"
      else kind_of_events rest
  end.

(** The selector fallback of [determine_transaction_type]. *)
Definition kind_of_selector (tx : Transaction) : option string :=
  if negb (length (tx_input tx) =? 0)%nat
     && (10 <=? length (tx_input tx))%nat
  then
    let function_selector := take 10 (tx_input tx) in
    if bytes_in function_selector ["0x8b3f8b2a"; "0x12345678"]
    then Some "buyItems"
    else if bytes_in function_selector ["0x9b3f8b2a"; "0x87654321"]
    then Some "acceptBids"
    else None
  else None.

(** [determine_transaction_type(tx, receipt, event_details=None)]: the
    events first, then the selector, then the value; the handler of the
    [try] leaves the default ["unknown"]. *)
Definition determine_transaction_type (tx : Transaction) (receipt : Receipt)
    (event_details : option (list (string * gmap string value))) : string :=
  let body : res string :=
    match match event_details with
          | Some (e :: l) => kind_of_events (e :: l)
          | _ => None
          end with
    | Some kind => Ok kind
    | None =>
        match kind_of_selector tx with
        | Some kind => Ok kind
        | None => if 0 <? tx_value tx then Ok "buyItems" else Ok "acceptBids"
        end
    end in
  match body with
  | Ok kind => kind
  | Raise _ => "unknown"
  end.

(** The node as the startup code sees it: the probe of
    [verify_hyperevm_connection] and the head read by [__init__]. *)
Record Node : Type := mkNode {
  is_connected : res bool;
  chain_id : res Z;
  latest_block : res Z;
  startup_block : res Z
}.

Definition verify_hyperevm_connection (node : Node) : bool :=
  let body : res bool :=
    connected <- is_connected node ;;
    if connected : bool
    then _ <- chain_id node ;; _ <- latest_block node ;; Ok true
    else Ok false in
  match body with
  | Ok b => b
  | Raise _ => false
  end.

(** How [main] ends: it returns after a failed probe, the constructor of
    the tracker raises, or the tracker runs. *)
Inductive outcome : Type :=
| Returned
| Raised (e : exn)
| Tracking (t : list call) (self : HyperEVMNFTTracker).

(** [main], with the tracking loop run for as many iterations as there are
    views of the ledger. *)
Definition main (node : Node) (envs : list Env) : outcome :=
  if negb (verify_hyperevm_connection node) then Returned
  else
    match startup_block node with
    | Raise e => Raised e
    | Ok head =>
        let (t, self) := track_transactions envs (init head) in
        Tracking t self
    end.

(** ** Further notions for stating properties *)

(** A Transfer log of the tracked contract that carries a token id. *)
Definition is_contract_transfer (env : Env) (self : HyperEVMNFTTracker)
    (log : Log) : Prop :=
  exists t0 t3 : list byte,
    log_topics log !! 0%nat = Some t0
    /\ hex t0 = transfer_topic env
    /\ log_topics log !! 3%nat = Some t3
    /\ t3 <> []
    /\ lower (log_address log) = contract_address self.

(** The integer that the fourth topic holds. *)
Definition transfer_token_id (log : Log) : Z :=
  be_int (default [] (log_topics log !! 3%nat)).

(** The same log as emitted by another address. *)
Definition emitted_by (a : string) (log : Log) : Log :=
  mkLog a (log_topics log) (log_data log).

(** The pauses of a trace, in seconds. *)
Definition sleeps (t : list call) : list Z :=
  omap (fun c => match c with Sleep s => Some s | _ => None end) t.

(** A call that, if it hands a message to the bot, hands it to
    [chat_id] as Markdown. *)
Definition sent_to (chat_id : string) (c : call) : Prop :=
  match c with
  | SendMessage dest _ mode => dest = chat_id /\ mode = "Markdown"
  | _ => True
  end.

(** What a typed event of the classifier always satisfies: its name, the
    integer token id it shares with [token_ids], and the keys it lacks. *)
Definition typed_event (ids : list value)
    (ev : string * gmap string value) : Prop :=
  (fst ev = "ItemSold" /\ snd ev !! "bidder" = None
   \/ fst ev = "BidAccepted")
  /\ exists z : Z, snd ev !! "tokenId" = Some (VInt z) /\ VInt z ∈ ids.

(** The log reaches the decoder of the event [name], which returns the
    dictionary [d]. *)
Definition decoded_as (env : Env) (self : HyperEVMNFTTracker) (log : Log)
    (name : string) (d : gmap string value) : Prop :=
  is_transfer env self log = Ok false
  /\ exists t0 : list byte,
       log_topics log !! 0%nat = Some t0
       /\ ((hex t0 = bid_accepted_topic /\ name = "BidAccepted"
            /\ decode_bid_accepted_event log = Some d)
           \/ (hex t0 = item_sold_topic /\ name = "ItemSold"
               /\ decode_item_sold_event log = Some d)).

(** What a log of a receipt is expected to add to [token_ids] and to
    [event_details]: a Transfer of the tracked contract the integer of its
    fourth topic; a typed log the token id and the dictionary of its
    decoder; a typed log whose decoder fails, nothing; a log with another
    first topic, nothing. *)
Inductive contribution (env : Env) (self : HyperEVMNFTTracker) (log : Log)
  : list value * list (string * gmap string value) -> Prop :=
| contributes_transfer :
    is_contract_transfer env self log ->
    contribution env self log ([VInt (transfer_token_id log)], [])
| contributes_event (name : string) (d : gmap string value) (z : Z) :
    decoded_as env self log name d ->
    d !! "tokenId" = Some (VInt z) ->
    contribution env self log ([VInt z], [(name, d)])
| contributes_nothing :
    decode_fails env self log ->
    contribution env self log ([], [])
| contributes_ignored (t0 : list byte) :
    is_transfer env self log = Ok false ->
    log_topics log !! 0%nat = Some t0 ->
    hex t0 <> bid_accepted_topic -> hex t0 <> item_sold_topic ->
    contribution env self log ([], []).

(** The keys of the two event dictionaries. *)
Definition bid_accepted_keys : gset string :=
  {[ "tokenId"; "bidType"; "bidder"; "nftAddress"; "pricePerItem";
     "quantity"; "seller"; "paymentToken" ]}.

Definition item_sold_keys : gset string :=
  {[ "tokenId"; "buyer"; "seller"; "nftAddress"; "pricePerItem";
     "quantity"; "paymentToken" ]}.

(** ** More sample ledger contents *)

Module More.

(** A Transfer of token 9 emitted by the tracked contract, written in
    upper case. *)
Definition transfer_9 : Log :=
  mkLog "0XB6C73F6C09F850651DCB6D62A4D3A7F25E0016C4"
        [Sample.transfer_digest; address_topic Sample.seller;
         address_topic Sample.buyer; word 9]
        [].

(** A Transfer of token 7 emitted by another contract. *)
Definition foreign_transfer : Log :=
  mkLog "0x000000000000000000000000000000000000dEaD"
        [Sample.transfer_digest; address_topic Sample.seller;
         address_topic Sample.buyer; word 7]
        [].

(** An anonymous log: no topic at all. *)
Definition anonymous : Log := mkLog CONTRACT_ADDRESS [] [].

(** A BidAccepted log for token id 0, its payload as text. *)
Definition bid_words_0 : list Z := [1; 0; 1500000000000000000; 1; 0; 0; 0; 0].

Definition bid_accepted_0 : Log :=
  mkLog CONTRACT_ADDRESS Sample.bid_topics (text_data bid_words_0).

(** A BidAccepted payload that is the text of 7 words and one byte. *)
Definition bid_accepted_partial : Log :=
  mkLog CONTRACT_ADDRESS Sample.bid_topics
        (text_data (take 7 Sample.bid_words) ++ list_byte_of_string "2a").

(** 64 characters that are not a hexadecimal numeral. *)
Definition not_hex : string :=
  "000000000000000000000000000000000000000000000000000000000000zzzz".

(** A BidAccepted payload of 8 chunks of text whose third chunk is not a
    numeral. *)
Definition bid_accepted_not_hex : Log :=
  mkLog CONTRACT_ADDRESS Sample.bid_topics
        (list_byte_of_string "0x" ++ numeral 1 ++ numeral 0
         ++ list_byte_of_string not_hex
         ++ concat (map numeral [1; 0; 0; 0; 7])).

(** A BidAccepted payload of 16 words: 8 chunks of 64 bytes are cut out of
    it, none of them a numeral. *)
Definition bid_accepted_16 : Log :=
  mkLog CONTRACT_ADDRESS Sample.bid_topics
        (abi_data (Sample.bid_words ++ Sample.bid_words)).

Definition tx_two_transfers : Transaction :=
  mkTransaction (word 6) Sample.sender (Some CONTRACT_ADDRESS)
                Sample.calldata 2500000000000000000 1000000000.

Definition receipt_two_transfers : Receipt :=
  mkReceipt 1 42000 [Sample.transfer_7; transfer_9].

(** A transaction addressed to the contract in upper case. *)
Definition tx_upper : Transaction :=
  mkTransaction (word 7) Sample.sender
                (Some "0XB6C73F6C09F850651DCB6D62A4D3A7F25E0016C4")
                Sample.calldata 0 1000000000.

Definition node : Node := mkNode (Ok true) (Ok 999) (Ok 10) (Ok 10).

Definition node_down : Node :=
  mkNode (Ok true) (Raise ConnectionError) (Ok 10) (Ok 10).

End More.

(** * Properties *)

(** ** Hexadecimal text *)

Section HexFacts.

(** A property of the numbers below [k], checked one number at a time. *)
Lemma below_forall (P : Z -> Prop) (k : Z) :
  Forall P (seqZ 0 k) -> forall n : Z, 0 <= n < k -> P n.
Proof.
  intros H n Hn. rewrite Forall_forall in H.
  apply H, elem_of_seqZ. lia.
Qed.

Local Ltac each_below k :=
  match goal with
  | |- forall n : Z, 0 <= n < _ -> @?P n => apply (below_forall P k)
  end;
  let l := eval vm_compute in (seqZ 0 k) in
  change (seqZ 0 k) with l;
  repeat apply Forall_cons_2; [.. | apply Forall_nil_2]; cbv beta.

Lemma hexval_hexchar (n : Z) : 0 <= n < 16 -> hexval (hexchar n) = Some n.
Proof. revert n. each_below 16; reflexivity. Qed.

Lemma hexchar_not_underscore (n : Z) :
  0 <= n < 16 -> Ascii.eqb (hexchar n) "_" = false.
Proof. revert n. each_below 16; reflexivity. Qed.

Lemma byte_val_range (b : byte) : 0 <= byte_val b < 256.
Proof.
  unfold byte_val. pose proof (Byte.to_N_bounded b). lia.
Qed.

Lemma nibbles_range (b : byte) :
  0 <= byte_val b / 16 < 16 /\ 0 <= byte_val b mod 16 < 16.
Proof.
  pose proof (byte_val_range b). split.
  - split; [apply Z.div_pos; lia | apply Z.div_lt_upper_bound; lia].
  - apply Z.mod_pos_bound; lia.
Qed.

(** The digit loop reads the two digits of every byte. *)
Lemma scan_hex_digits (bs : list byte) (acc : Z) :
  scan_digits false acc (hex_digits bs)
  = Some (fold_left (fun a b => 256 * a + byte_val b) bs acc, EmptyString).
Proof.
  revert acc. induction bs as [| b r IH]; intros acc; [reflexivity |].
  destruct (nibbles_range b) as [Hh Hl].
  cbn [hex_digits scan_digits fold_left].
  rewrite (hexchar_not_underscore _ Hh), (hexchar_not_underscore _ Hl).
  rewrite (hexval_hexchar _ Hh), (hexval_hexchar _ Hl).
  rewrite IH. do 3 f_equal.
  pose proof (Z.div_mod (byte_val b) 16). lia.
Qed.

Lemma int16_digits_hex (text : bool) (bs : list byte) :
  bs <> [] -> int16_digits text false (hex_digits bs) = Ok (be_int bs).
Proof.
  intros Hne. unfold int16_digits.
  rewrite scan_hex_digits.
  destruct bs as [| b r]; [done |].
  destruct (nibbles_range b) as [Hh _].
  cbn [hex_digits]. rewrite (hexval_hexchar _ Hh). reflexivity.
Qed.

(** Hexadecimal digits carry no space, sign or prefix to strip. *)
Lemma parse_int16_prefix_hex (text : bool) (n1 n2 : Z) (rest : string) :
  0 <= n1 < 16 -> 0 <= n2 < 16 ->
  parse_int16 text (String (hexchar n1) (String (hexchar n2) rest))
  = int16_digits text false (String (hexchar n1) (String (hexchar n2) rest)).
Proof.
  intros H1 H2. revert n2 H2 rest. revert n1 H1.
  destruct text; each_below 16; each_below 16; reflexivity.
Qed.

(** The digits of a byte string, read in base 16, give its big-endian
    value. *)
Lemma parse_int16_hex_digits (text : bool) (bs : list byte) :
  bs <> [] -> parse_int16 text (hex_digits bs) = Ok (be_int bs).
Proof.
  intros Hne. rewrite <- (int16_digits_hex text bs Hne).
  destruct bs as [| b r]; [done |].
  destruct (nibbles_range b) as [Hh Hl].
  cbn [hex_digits]. by apply parse_int16_prefix_hex.
Qed.

(** [int(chunk, 16)] of a chunk that holds the ASCII digits of a byte
    string. *)
Lemma int16_bytes_digits (bs : list byte) :
  bs <> [] ->
  int16_bytes (list_byte_of_string (hex_digits bs)) = Ok (be_int bs).
Proof.
  intros Hne. unfold int16_bytes. rewrite string_of_list_byte_of_string.
  by apply parse_int16_hex_digits.
Qed.

(** [int(topic.hex(), 16)]: the prefix is accepted; an empty byte string
    leaves no digit. *)
Lemma int16_hex (bs : list byte) :
  int16 (hex bs)
  = match bs with [] => Raise ValueError | _ :: _ => Ok (be_int bs) end.
Proof.
  destruct bs as [| b r]; [reflexivity |].
  rewrite <- (int16_digits_hex true (b :: r)) by done.
  destruct (nibbles_range b) as [Hh _].
  unfold hex. cbn [hex_digits String.append].
  generalize (String (hexchar (byte_val b mod 16)) (hex_digits r)) as rest.
  generalize (byte_val b / 16) Hh. clear.
  each_below 16; reflexivity.
Qed.

(** A chunk that starts with a zero byte is no numeral. *)
Lemma int16_bytes_nul (r : list byte) :
  int16_bytes (x00 :: r) = Raise ValueError.
Proof. reflexivity. Qed.

Lemma hex_digits_app (a b : list byte) :
  hex_digits (a ++ b) = hex_digits a +:+ hex_digits b.
Proof.
  induction a as [| x a IH]; [reflexivity |].
  cbn [app hex_digits String.append]. by rewrite IH.
Qed.

Lemma hex_digits_length (bs : list byte) :
  String.length (hex_digits bs) = (2 * length bs)%nat.
Proof.
  induction bs as [| b r IH]; [reflexivity |].
  cbn [hex_digits String.length length]. lia.
Qed.

(** Dropping [2 * n] digits drops [n] bytes: the slice [[26:]] of a topic's
    [hex()] keeps the digits after the prefix and 12 bytes. *)
Lemma skip_hex_digits (n : nat) (bs : list byte) :
  skip (2 * n) (hex_digits bs) = hex_digits (drop n bs).
Proof.
  revert bs. induction n as [| n IH]; intros bs; [reflexivity |].
  destruct bs as [| b r]; [reflexivity |].
  replace (2 * S n)%nat with (S (S (2 * n))) by lia.
  cbn [hex_digits skip drop]. apply IH.
Qed.

Lemma unpad_drop (topic : list byte) :
  unpad topic = hex (drop 12 topic).
Proof.
  unfold unpad, hex. f_equal.
  change (skip 26 ("0x" +:+ hex_digits topic))
    with (skip (2 * 12) (hex_digits topic)).
  apply skip_hex_digits.
Qed.

Lemma unpad_address_topic (a : list byte) : unpad (address_topic a) = hex a.
Proof. by rewrite unpad_drop. Qed.

End HexFacts.

(** ** Words of a payload *)

Section WordFacts.

Lemma byte_val_byte_of (z : Z) : byte_val (byte_of z) = z mod 256.
Proof.
  unfold byte_val, byte_of.
  pose proof (Z.mod_pos_bound z 256 ltac:(lia)) as Hm.
  pose proof (Byte.to_of_N_option_map (Z.to_N (z mod 256))) as Ho.
  destruct (Z.to_N (z mod 256) <=? 255)%N eqn:Hle.
  - destruct (Byte.of_N (Z.to_N (z mod 256))) as [y |]; [| done].
    cbn in Ho. injection Ho as Ho.
    change (default x00 (Some y)) with y. rewrite Ho. lia.
  - apply N.leb_gt in Hle. lia.
Qed.

Lemma be_bytes_length (n : nat) (z : Z) : length (be_bytes n z) = n.
Proof.
  revert z. induction n as [| n IH]; intros z; [reflexivity |].
  cbn [be_bytes]. rewrite length_app, IH. cbn. lia.
Qed.

Lemma be_int_snoc (bs : list byte) (b : byte) :
  be_int (bs ++ [b]) = 256 * be_int bs + byte_val b.
Proof. unfold be_int. by rewrite fold_left_app. Qed.

(** Reading back an [n]-byte big-endian encoding gives the value modulo
    [256 ^ n]. *)
Lemma be_int_be_bytes (n : nat) (z : Z) :
  be_int (be_bytes n z) = z mod 256 ^ Z.of_nat n.
Proof.
  revert z. induction n as [| n IH]; intros z.
  - cbn. by rewrite Z.mod_1_r.
  - cbn [be_bytes]. rewrite be_int_snoc, IH, byte_val_byte_of.
    rewrite Nat2Z.inj_succ, Z.pow_succ_r by lia.
    rewrite Z.rem_mul_r by lia. lia.
Qed.

Lemma word_length (z : Z) : length (word z) = 32%nat.
Proof. apply be_bytes_length. Qed.

Lemma be_int_word (z : Z) : uint256 z -> be_int (word z) = z.
Proof.
  intros H. unfold word. rewrite be_int_be_bytes.
  change (256 ^ Z.of_nat 32) with (2 ^ 256). by apply Z.mod_small.
Qed.

Lemma word_nonempty (z : Z) : word z <> [].
Proof.
  intros H. pose proof (word_length z) as Hl. by rewrite H in Hl.
Qed.

(** The leading bytes of the encoding of a small number are zero. *)
Lemma be_bytes_zero (n : nat) : be_bytes n 0 = repeat x00 n.
Proof.
  induction n as [| n IH]; [reflexivity |].
  cbn [be_bytes]. change (0 / 256) with 0. rewrite IH.
  change [byte_of 0] with (repeat x00 1).
  rewrite <- repeat_app. f_equal. lia.
Qed.

Lemma be_bytes_small (n m : nat) (z : Z) :
  0 <= z < 256 ^ Z.of_nat m ->
  be_bytes (n + m) z = repeat x00 n ++ be_bytes m z.
Proof.
  revert z. induction m as [| m IH]; intros z Hz.
  - replace z with 0 by (cbn in Hz; lia).
    rewrite Nat.add_0_r, be_bytes_zero. cbn [be_bytes]. by rewrite app_nil_r.
  - replace (n + S m)%nat with (S (n + m)) by lia. cbn [be_bytes].
    rewrite IH, app_assoc; [reflexivity |].
    rewrite Nat2Z.inj_succ, Z.pow_succ_r in Hz by lia.
    split; [apply Z.div_pos; lia | apply Z.div_lt_upper_bound; lia].
Qed.

(** A word below [2 ^ 232] starts with three zero bytes. *)
Lemma word_small (p : Z) :
  0 <= p < 2 ^ 232 -> word p = x00 :: x00 :: x00 :: be_bytes 29 p.
Proof.
  intros Hp. unfold word. change 32%nat with (3 + 29)%nat.
  by rewrite be_bytes_small.
Qed.

(** *** Bytes of a text *)

Lemma bytes_of_append (a b : string) :
  list_byte_of_string (a +:+ b)
  = list_byte_of_string a ++ list_byte_of_string b.
Proof.
  induction a as [| c a IH]; [reflexivity |].
  change (String c a +:+ b) with (String c (a +:+ b)).
  change (list_byte_of_string (String c (a +:+ b)))
    with (byte_of_ascii c :: list_byte_of_string (a +:+ b)).
  by rewrite IH.
Qed.

Lemma bytes_of_length (s : string) :
  length (list_byte_of_string s) = String.length s.
Proof.
  induction s as [| c s IH]; [reflexivity |].
  change (list_byte_of_string (String c s))
    with (byte_of_ascii c :: list_byte_of_string s).
  cbn [length String.length]. by rewrite IH.
Qed.

Lemma numeral_length (w : Z) : length (numeral w) = 64%nat.
Proof.
  unfold numeral. by rewrite bytes_of_length, hex_digits_length, word_length.
Qed.

(** [int(chunk, 16)] of the 64 ASCII digits of a word is the word. *)
Lemma int16_bytes_numeral (w : Z) :
  uint256 w -> int16_bytes (numeral w) = Ok w.
Proof.
  intros H. unfold numeral.
  rewrite int16_bytes_digits by apply word_nonempty.
  by rewrite be_int_word.
Qed.

Lemma bytes_of_words (ws : list Z) :
  list_byte_of_string (hex_digits (abi_data ws)) = concat (map numeral ws).
Proof.
  unfold abi_data. induction ws as [| w ws IH]; [reflexivity |].
  cbn [map concat]. by rewrite hex_digits_app, bytes_of_append, IH.
Qed.

(** A payload as text is two bytes of prefix and one numeral per word. *)
Lemma text_data_numerals (ws : list Z) :
  text_data ws = list_byte_of_string "0x" ++ concat (map numeral ws).
Proof.
  unfold text_data, hex. by rewrite bytes_of_append, bytes_of_words.
Qed.

(** *** The chunks of a payload *)

Lemma chunks_cons (c rest : list byte) :
  length c = 64%nat -> Py.chunks (c ++ rest) = c :: Py.chunks rest.
Proof.
  intros Hc. unfold Py.chunks. rewrite length_app, Hc.
  replace ((64 + length rest + 63) / 64)%nat
    with (S ((length rest + 63) / 64)).
  - cbn [seq map]. f_equal.
    + change (drop (64 * 0) ?l) with l.
      by rewrite take_app_length' by done.
    + rewrite <- seq_shift, map_map. apply map_ext. intros k.
      replace (64 * S k)%nat with (64 + 64 * k)%nat by lia.
      by rewrite <- drop_drop, drop_app_length' by done.
  - pose proof (Nat.div_mod_eq (length rest + 63) 64) as Hd.
    pose proof (Nat.mod_upper_bound (length rest + 63) 64 ltac:(lia)) as Hm.
    apply Nat.div_unique with ((length rest + 63) mod 64)%nat; lia.
Qed.

Lemma chunks_last (tail : list byte) :
  (length tail <= 64)%nat ->
  Py.chunks tail = match tail with [] => [] | _ :: _ => [tail] end.
Proof.
  intros Hl. unfold Py.chunks. destruct tail as [| b tail]; [reflexivity |].
  replace ((length (b :: tail) + 63) / 64)%nat with 1%nat.
  - cbn [seq map]. change (drop (64 * 0) ?l) with l.
    by rewrite take_ge by lia.
  - cbn [length] in *.
    apply Nat.div_unique with (length tail)%nat; lia.
Qed.

(** Whole chunks followed by at most 64 more bytes: the rest, when there
    is one, is a chunk of its own. *)
Lemma chunks_concat (cs : list (list byte)) (tail : list byte) :
  Forall (fun c => length c = 64%nat) cs -> (length tail <= 64)%nat ->
  Py.chunks (concat cs ++ tail)
  = cs ++ match tail with [] => [] | _ :: _ => [tail] end.
Proof.
  intros Hcs Hl. induction Hcs as [| c cs Hc _ IH].
  - by apply chunks_last.
  - cbn [concat]. rewrite <- !app_assoc, (chunks_cons _ _ Hc), IH.
    reflexivity.
Qed.

(** The chunks of a payload as text are the numerals of its words. *)
Lemma chunks_text_data (ws : list Z) :
  Py.chunks (drop 2 (text_data ws)) = map numeral ws.
Proof.
  rewrite text_data_numerals.
  change (drop 2 (list_byte_of_string "0x" ++ ?l)) with l.
  rewrite <- (app_nil_r (concat _)), chunks_concat, app_nil_r;
    [reflexivity | | cbn; lia].
  apply Forall_forall. intros c Hc.
  apply list_elem_of_fmap in Hc as (w & -> & _). apply numeral_length.
Qed.

Lemma payload_chunks_text_data (log : Log) (ws : list Z) :
  log_data log = text_data ws -> payload_chunks log = length ws.
Proof.
  intros H. unfold payload_chunks. by rewrite H, chunks_text_data, length_map.
Qed.

(** The first chunk of a payload that has one. *)
Lemma chunks_first (data : list byte) :
  Py.chunks data <> [] -> index (Py.chunks data) 0 = Ok (take 64 data).
Proof.
  unfold Py.chunks. destruct ((length data + 63) / 64)%nat as [| n]; [done |].
  intros _. reflexivity.
Qed.

End WordFacts.

(** ** Log Decoder *)

Section DecoderFacts.

Lemma index_lookup {A : Type} (l : list A) (i : nat) (x : A) :
  l !! i = Some x -> index l i = Ok x.
Proof. intros H. unfold index. by rewrite H. Qed.

Lemma index_ge {A : Type} (l : list A) (i : nat) :
  (length l <= i)%nat -> index l i = Raise IndexError.
Proof.
  intros H. unfold index. by rewrite (proj2 (lookup_ge_None l i) H).
Qed.

(** An optional indexed parameter: the topic when the log has more than
    [i] topics, the sentinel otherwise. *)
Lemma optional_topic (topics : list (list byte)) (i : nat) :
  (if (i <? length topics)%nat
   then t <- index topics i ;; Ok (unpad t)
   else Ok "Unknown")
  = Ok (topic_address (topics !! i)).
Proof.
  destruct (topics !! i) as [t |] eqn:Ht.
  - pose proof (lookup_lt_Some _ _ _ Ht) as Hlt.
    rewrite (proj2 (Nat.ltb_lt _ _) Hlt), (index_lookup _ _ _ Ht).
    cbn. by rewrite unpad_drop.
  - apply lookup_ge_None in Ht.
    by rewrite (proj2 (Nat.ltb_ge _ _) Ht).
Qed.

Local Ltac read_chunk H Hi :=
  rewrite (index_lookup _ _ _ H); cbn [Py.bind];
  rewrite Hi; cbn [Py.bind].

Local Ltac map_lookup :=
  repeat (rewrite lookup_insert_ne by done); by rewrite lookup_insert_eq.

(** The layout that [decode_bid_accepted_event] reads: chunks 0, 2, 3 and
    7 as numerals, topics 1 to 3. *)
Lemma decode_bid_accepted_chunks (log : Log) (c0 c2 c3 c7 : list byte)
    (w0 w2 w3 w7 : Z) (t1 t2 : list byte) :
  Py.chunks (drop 2 (log_data log)) !! 0%nat = Some c0 ->
  Py.chunks (drop 2 (log_data log)) !! 2%nat = Some c2 ->
  Py.chunks (drop 2 (log_data log)) !! 3%nat = Some c3 ->
  Py.chunks (drop 2 (log_data log)) !! 7%nat = Some c7 ->
  int16_bytes c0 = Ok w0 -> int16_bytes c2 = Ok w2 ->
  int16_bytes c3 = Ok w3 -> int16_bytes c7 = Ok w7 ->
  log_topics log !! 1%nat = Some t1 -> log_topics log !! 2%nat = Some t2 ->
  exists d : gmap string value,
    decode_bid_accepted_event log = Some d
    /\ d !! "bidType" = Some (VInt w0)
    /\ d !! "pricePerItem" = Some (VInt w2)
    /\ d !! "quantity" = Some (VInt w3)
    /\ d !! "tokenId" = Some (VInt w7)
    /\ d !! "bidder" = Some (VStr (hex (drop 12 t1)))
    /\ d !! "nftAddress" = Some (VStr (hex (drop 12 t2)))
    /\ d !! "seller" = Some (VStr (topic_address (log_topics log !! 3%nat))).
Proof.
  intros H0 H2 H3 H7 I0 I2 I3 I7 Ht1 Ht2.
  unfold decode_bid_accepted_event.
  assert (Hlen : (8 <=? length (Py.chunks (drop 2 (log_data log))))%nat
                 = true).
  { apply Nat.leb_le. apply lookup_lt_Some in H7. lia. }
  rewrite Hlen.
  read_chunk H0 I0. read_chunk H2 I2. read_chunk H3 I3. read_chunk H7 I7.
  rewrite (index_lookup _ _ _ Ht1), (index_lookup _ _ _ Ht2). cbn [Py.bind].
  rewrite optional_topic. cbn [Py.bind try_or_none].
  rewrite !unpad_drop.
  eexists. split; [reflexivity |].
  repeat split; map_lookup.
Qed.

(** The same on a payload delivered as text. *)
Lemma decode_bid_accepted_text (log : Log) (ws : list Z)
    (w0 w2 w3 w7 : Z) (t1 t2 : list byte) :
  log_data log = text_data ws ->
  ws !! 0%nat = Some w0 -> ws !! 2%nat = Some w2 ->
  ws !! 3%nat = Some w3 -> ws !! 7%nat = Some w7 ->
  uint256 w0 -> uint256 w2 -> uint256 w3 -> uint256 w7 ->
  log_topics log !! 1%nat = Some t1 -> log_topics log !! 2%nat = Some t2 ->
  exists d : gmap string value,
    decode_bid_accepted_event log = Some d
    /\ d !! "bidType" = Some (VInt w0)
    /\ d !! "pricePerItem" = Some (VInt w2)
    /\ d !! "quantity" = Some (VInt w3)
    /\ d !! "tokenId" = Some (VInt w7)
    /\ d !! "bidder" = Some (VStr (hex (drop 12 t1)))
    /\ d !! "nftAddress" = Some (VStr (hex (drop 12 t2)))
    /\ d !! "seller" = Some (VStr (topic_address (log_topics log !! 3%nat))).
Proof.
  intros Hd H0 H2 H3 H7 U0 U2 U3 U7 Ht1 Ht2.
  apply (decode_bid_accepted_chunks log (numeral w0) (numeral w2)
           (numeral w3) (numeral w7));
    try (by apply int16_bytes_numeral); try done;
    rewrite Hd, chunks_text_data, list_lookup_fmap;
    by match goal with H : _ !! _ = Some _ |- _ => rewrite H end.
Qed.

Lemma decode_bid_accepted_short (log : Log) :
  (payload_chunks log < 8)%nat \/ (length (log_topics log) < 3)%nat ->
  decode_bid_accepted_event log = None.
Proof.
  unfold decode_bid_accepted_event, payload_chunks. intros [Hw | Ht].
  - by rewrite (proj2 (Nat.leb_gt _ _) Hw).
  - destruct (8 <=? _)%nat; [| reflexivity].
    repeat match goal with
           | |- context [Py.bind (index (Py.chunks ?c) ?i) _] =>
               destruct (index (Py.chunks c) i); cbn [Py.bind try_or_none];
               [| reflexivity]
           | |- context [Py.bind (int16_bytes ?s) _] =>
               destruct (int16_bytes s); cbn [Py.bind try_or_none];
               [| reflexivity]
           end.
    destruct (index (log_topics log) 1); cbn [Py.bind try_or_none];
      [| reflexivity].
    by rewrite (index_ge (log_topics log) 2) by lia.
Qed.

(** What a dictionary returned by [decode_bid_accepted_event] holds. *)
Lemma decode_bid_accepted_inv (log : Log) (d : gmap string value) :
  decode_bid_accepted_event log = Some d ->
  exists (w2 w7 : Z) (t1 : list byte),
    log_topics log !! 1%nat = Some t1
    /\ d !! "pricePerItem" = Some (VInt w2)
    /\ d !! "tokenId" = Some (VInt w7)
    /\ d !! "bidder" = Some (VStr (hex (drop 12 t1)))
    /\ d !! "seller" = Some (VStr (topic_address (log_topics log !! 3%nat))).
Proof.
  unfold decode_bid_accepted_event.
  destruct (8 <=? _)%nat; [| done].
  destruct (index (Py.chunks _) 0); cbn [Py.bind try_or_none]; [| done].
  destruct (int16_bytes _) as [w0 |]; cbn [Py.bind try_or_none]; [| done].
  destruct (index (Py.chunks _) 2); cbn [Py.bind try_or_none]; [| done].
  destruct (int16_bytes _) as [w2 |]; cbn [Py.bind try_or_none]; [| done].
  destruct (index (Py.chunks _) 3); cbn [Py.bind try_or_none]; [| done].
  destruct (int16_bytes _) as [w3 |]; cbn [Py.bind try_or_none]; [| done].
  destruct (index (Py.chunks _) 7); cbn [Py.bind try_or_none]; [| done].
  destruct (int16_bytes _) as [w7 |]; cbn [Py.bind try_or_none]; [| done].
  unfold index at 1.
  destruct (log_topics log !! 1%nat) as [t1 |] eqn:Ht1;
    cbn [Py.bind try_or_none]; [| done].
  destruct (index (log_topics log) 2) as [t2 |];
    cbn [Py.bind try_or_none]; [| done].
  rewrite optional_topic. cbn [Py.bind try_or_none]. rewrite !unpad_drop.
  intros [= <-]. exists w2, w7, t1. split; [reflexivity |].
  repeat split; map_lookup.
Qed.

(** The layout that [decode_item_sold_event] reads: chunks 0 to 2 as
    numerals out of at least 6 chunks, topics 1 to 3 when present. *)
Lemma decode_item_sold_chunks (log : Log) (c0 c1 c2 : list byte)
    (p q t : Z) :
  (6 <= payload_chunks log)%nat ->
  Py.chunks (drop 2 (log_data log)) !! 0%nat = Some c0 ->
  Py.chunks (drop 2 (log_data log)) !! 1%nat = Some c1 ->
  Py.chunks (drop 2 (log_data log)) !! 2%nat = Some c2 ->
  int16_bytes c0 = Ok p -> int16_bytes c1 = Ok q -> int16_bytes c2 = Ok t ->
  exists d : gmap string value,
    decode_item_sold_event log = Some d
    /\ d !! "pricePerItem" = Some (VInt p)
    /\ d !! "quantity" = Some (VInt q)
    /\ d !! "tokenId" = Some (VInt t)
    /\ d !! "buyer" = Some (VStr (topic_address (log_topics log !! 1%nat)))
    /\ d !! "nftAddress" = Some (VStr (topic_address (log_topics log !! 2%nat)))
    /\ d !! "seller" = Some (VStr (topic_address (log_topics log !! 3%nat)))
    /\ d !! "bidder" = None.
Proof.
  intros Hlen H0 H1 H2 I0 I1 I2.
  unfold decode_item_sold_event. unfold payload_chunks in Hlen.
  rewrite (proj2 (Nat.leb_le _ _) Hlen), !optional_topic. cbn [Py.bind].
  read_chunk H0 I0. read_chunk H1 I1. read_chunk H2 I2.
  cbn [try_or_none].
  eexists. split; [reflexivity |].
  repeat split; map_lookup || done.
Qed.

Lemma decode_item_sold_text (log : Log) (ws : list Z) (p q t : Z) :
  log_data log = text_data ws ->
  (6 <= length ws)%nat ->
  ws !! 0%nat = Some p -> ws !! 1%nat = Some q -> ws !! 2%nat = Some t ->
  uint256 p -> uint256 q -> uint256 t ->
  exists d : gmap string value,
    decode_item_sold_event log = Some d
    /\ d !! "pricePerItem" = Some (VInt p)
    /\ d !! "quantity" = Some (VInt q)
    /\ d !! "tokenId" = Some (VInt t)
    /\ d !! "buyer" = Some (VStr (topic_address (log_topics log !! 1%nat)))
    /\ d !! "nftAddress" = Some (VStr (topic_address (log_topics log !! 2%nat)))
    /\ d !! "seller" = Some (VStr (topic_address (log_topics log !! 3%nat)))
    /\ d !! "bidder" = None.
Proof.
  intros Hd Hlen H0 H1 H2 U0 U1 U2.
  apply (decode_item_sold_chunks log (numeral p) (numeral q) (numeral t));
    try (by apply int16_bytes_numeral);
    [by rewrite (payload_chunks_text_data log ws Hd) | ..];
    rewrite Hd, chunks_text_data, list_lookup_fmap;
    by match goal with H : _ !! _ = Some _ |- _ => rewrite H end.
Qed.

Lemma decode_item_sold_short (log : Log) :
  (payload_chunks log < 6)%nat -> decode_item_sold_event log = None.
Proof.
  unfold decode_item_sold_event, payload_chunks. intros Hw.
  by rewrite (proj2 (Nat.leb_gt _ _) Hw).
Qed.

(** *** Payloads of words *)

(** The first chunk cut out of a payload of words starts with the third
    byte of the first word, which is zero for a word below [2 ^ 232]. *)
Lemma first_chunk_of_words (ws : list Z) :
  (forall p : Z, ws !! 0%nat = Some p -> 0 <= p < 2 ^ 232) ->
  Py.chunks (drop 2 (abi_data ws)) <> [] ->
  exists r : list byte,
    index (Py.chunks (drop 2 (abi_data ws))) 0 = Ok (x00 :: r).
Proof.
  intros Hp Hne. rewrite (chunks_first _ Hne).
  destruct ws as [| p ws]; [done |].
  unfold abi_data. cbn [map concat].
  rewrite (word_small p (Hp p eq_refl)).
  cbn [app drop take]. eauto.
Qed.

Lemma abi_data_length (ws : list Z) :
  length (abi_data ws) = (32 * length ws)%nat.
Proof.
  unfold abi_data. induction ws as [| w ws IH]; [reflexivity |].
  cbn [map concat]. rewrite length_app, word_length. cbn [length]. lia.
Qed.

(** The number of chunks cut out of a payload of at most [n] words. *)
Lemma payload_chunks_words (log : Log) (ws : list Z) (n k : nat) :
  log_data log = abi_data ws -> (length ws <= n)%nat ->
  (32 * n + 61 < 64 * k)%nat ->
  (payload_chunks log < k)%nat.
Proof.
  intros Hd Hn Hk. unfold payload_chunks, Py.chunks.
  rewrite length_map, length_seq, length_drop, Hd, abi_data_length.
  apply Nat.Div0.div_lt_upper_bound. lia.
Qed.

Lemma decode_bid_accepted_words (log : Log) (ws : list Z) :
  log_data log = abi_data ws ->
  (length ws <= 14)%nat
  \/ (forall w : Z, ws !! 0%nat = Some w -> 0 <= w < 2 ^ 232) ->
  decode_bid_accepted_event log = None.
Proof.
  intros Hd [Hn | Hw].
  - apply decode_bid_accepted_short. left.
    apply (payload_chunks_words log ws 14 8 Hd Hn). lia.
  - unfold decode_bid_accepted_event. rewrite Hd.
    destruct (8 <=? _)%nat eqn:Hlen; [| reflexivity].
    destruct (first_chunk_of_words ws Hw) as [r ->];
      [intros H; by rewrite H in Hlen |].
    cbn [Py.bind]. by rewrite int16_bytes_nul.
Qed.

Lemma decode_item_sold_words (log : Log) (ws : list Z) :
  log_data log = abi_data ws ->
  (length ws <= 10)%nat
  \/ (forall p : Z, ws !! 0%nat = Some p -> 0 <= p < 2 ^ 232) ->
  decode_item_sold_event log = None.
Proof.
  intros Hd [Hn | Hw].
  - apply decode_item_sold_short.
    apply (payload_chunks_words log ws 10 6 Hd Hn). lia.
  - unfold decode_item_sold_event. rewrite Hd.
    destruct (6 <=? _)%nat eqn:Hlen; [| reflexivity].
    rewrite !optional_topic. cbn [Py.bind].
    destruct (first_chunk_of_words ws Hw) as [r ->];
      [intros H; by rewrite H in Hlen |].
    cbn [Py.bind]. by rewrite int16_bytes_nul.
Qed.

End DecoderFacts.

(** ** Transaction Classifier *)

Section ClassifierFacts.

Variable env : Env.
Variable self : HyperEVMNFTTracker.

Lemma record_event_none (name : string) :
  record_event name None = Ok ([], []).
Proof. reflexivity. Qed.

(** A log whose decoder fails appends nothing and raises nothing. *)
Lemma classify_decode_fails (log : Log) :
  decode_fails env self log -> classify_log env self log = Ok ([], []).
Proof.
  intros (Htr & t0 & Ht0 & Hdec).
  unfold classify_log. rewrite Htr. cbn [Py.bind].
  unfold classify_event. rewrite (index_lookup _ _ _ Ht0). cbn [Py.bind].
  destruct Hdec as [[Hb Hd] | [Hi Hd]].
  - by rewrite Hb, String.eqb_refl, Hd.
  - rewrite Hi.
    change (String.eqb item_sold_topic bid_accepted_topic) with false.
    cbn iota. by rewrite String.eqb_refl, Hd.
Qed.

Lemma extract_loop_skip (pre post : list Log) (bad : Log)
    (ids : list value) (events : list (string * gmap string value)) :
  classify_log env self bad = Ok ([], []) ->
  extract_loop env self (pre ++ bad :: post) ids events
  = extract_loop env self (pre ++ post) ids events.
Proof.
  intros Hbad. revert ids events.
  induction pre as [| l pre IH]; intros ids events.
  - cbn [app extract_loop]. by rewrite Hbad, !app_nil_r.
  - cbn [app extract_loop].
    destruct (classify_log env self l) as [[i e] |]; [apply IH | reflexivity].
Qed.

(** A log with no topic at all is not a decode failure: the test of the
    first [elif] raises and ends the loop, so the logs after it are not
    looked at. *)
Lemma extract_loop_no_topics (log : Log) (post : list Log)
    (ids : list value) (events : list (string * gmap string value)) :
  log_topics log = [] ->
  extract_loop env self (log :: post) ids events = (ids, events).
Proof.
  intros H. cbn [extract_loop].
  unfold classify_log, is_transfer, classify_event.
  rewrite H. reflexivity.
Qed.

(** The test of the Transfer branch. *)
Lemma is_transfer_true (log : Log) :
  is_transfer env self log = Ok true
  <-> (4 <= length (log_topics log))%nat
      /\ (exists t0, log_topics log !! 0%nat = Some t0
                     /\ hex t0 = transfer_topic env)
      /\ lower (log_address log) = contract_address self.
Proof.
  unfold is_transfer. split.
  - destruct (4 <=? length (log_topics log))%nat eqn:Hlen; [| done].
    apply Nat.leb_le in Hlen. unfold index.
    destruct (log_topics log !! 0%nat) as [t0 |] eqn:Ht0; [| done].
    cbn [Py.bind].
    destruct (String.eqb (hex t0) (transfer_topic env)) eqn:Heq; [| done].
    apply String.eqb_eq in Heq. intros [= Ha%String.eqb_eq]. eauto.
  - intros (Hlen & (t0 & Ht0 & Heq) & Ha).
    rewrite (proj2 (Nat.leb_le _ _) Hlen), (index_lookup _ _ _ Ht0).
    cbn [Py.bind]. rewrite Heq, Ha, !String.eqb_refl. reflexivity.
Qed.

(** A Transfer log of the tracked contract contributes the integer held by
    its fourth topic and no event record. *)
Lemma classify_transfer (log : Log) (t3 : list byte) :
  is_transfer env self log = Ok true ->
  log_topics log !! 3%nat = Some t3 -> t3 <> [] ->
  classify_log env self log = Ok ([VInt (be_int t3)], []).
Proof.
  intros Htr Ht3 Hne. unfold classify_log.
  rewrite Htr. cbn [Py.bind].
  rewrite (index_lookup _ _ _ Ht3). cbn [Py.bind].
  rewrite int16_hex. by destruct t3.
Qed.

End ClassifierFacts.

(** ** Notification assembly *)

Section NotifierFacts.

Variable env : Env.

(** The calls of a body that starts with a pure expression. *)
Lemma attempt_lift {A B : Type} (r : res A) (f : A -> eff B) :
  fst (ebind (lift r) f)
  = match r with Ok a => fst (f a) | Raise _ => [] end.
Proof.
  destruct r as [a | e]; cbn; [| reflexivity]. by destruct (f a).
Qed.

Lemma ebind_calls {A B : Type} (m : eff A) (f : A -> eff B) :
  fst (ebind m f)
  = fst m ++ match snd m with Ok a => fst (f a) | Raise _ => [] end.
Proof.
  destruct m as [t [a | e]]; cbn.
  - by destruct (f a).
  - by rewrite app_nil_r.
Qed.

Lemma for_each_await {A : Type} (l : list A) (f : A -> list call) :
  for_each l (fun x => await (f x)) = (concat (map f l), Ok tt).
Proof.
  induction l as [| x l IH]; [reflexivity |].
  cbn [for_each map concat]. rewrite IH. reflexivity.
Qed.

(** [token_id_field] on the integer token id that the decoders store: the
    [map(str, ...)] over an int raises unless the id is [0], which counts
    as absent. *)
Lemma token_id_field_int (d : gmap string value) (z : Z) :
  d !! "tokenId" = Some (VInt z) ->
  token_id_field d = if z =? 0 then Ok "Unknown" else Raise TypeError.
Proof.
  intros H. unfold token_id_field, getitem. rewrite H. cbn.
  by destruct (z =? 0).
Qed.

(** [send_item_sold_notification] reads the key [bidder], which the
    ItemSold dictionary does not have. *)
Lemma send_item_sold_silent (d : gmap string value) (h : string)
    (g : Z) (c : number) (b : Z) :
  d !! "bidder" = None -> send_item_sold_notification env d h g c b = [].
Proof.
  intros H. unfold send_item_sold_notification, attempt.
  do 4 (rewrite attempt_lift;
        match goal with
        | |- match ?r with Ok _ => _ | Raise _ => _ end = _ =>
            destruct r; [| reflexivity]
        end).
  rewrite attempt_lift. unfold getitem. by rewrite H.
Qed.

Lemma decode_item_sold_no_bidder (log : Log) (d : gmap string value) :
  decode_item_sold_event log = Some d -> d !! "bidder" = None.
Proof.
  unfold decode_item_sold_event.
  destruct (6 <=? _)%nat; [| done].
  rewrite !optional_topic. cbn [Py.bind].
  repeat match goal with
         | |- context [Py.bind ?m _] =>
             destruct m; cbn [Py.bind try_or_none]; [| done]
         end.
  intros [= <-]. done.
Qed.

(** No decoded ItemSold event reaches the bot. *)
Lemma item_sold_never_notified (log : Log) (d : gmap string value)
    (h : string) (g : Z) (c : number) (b : Z) :
  decode_item_sold_event log = Some d ->
  send_item_sold_notification env d h g c b = [].
Proof.
  intros H. by apply send_item_sold_silent, (decode_item_sold_no_bidder log).
Qed.

Lemma decode_bid_accepted_token_id (log : Log) (d : gmap string value) :
  decode_bid_accepted_event log = Some d ->
  exists z : Z, d !! "tokenId" = Some (VInt z).
Proof.
  unfold decode_bid_accepted_event.
  destruct (8 <=? _)%nat; [| done].
  repeat match goal with
         | |- context [Py.bind ?m _] =>
             destruct m; cbn [Py.bind try_or_none]; [| done]
         end.
  intros [= <-]. eexists. apply lookup_insert_eq.
Qed.

(** [send_bid_accepted_notification] hands nothing to the bot for a
    non-zero token id. *)
Lemma send_bid_accepted_silent (d : gmap string value) (z : Z) (h : string)
    (g : Z) (c : number) (b : Z) :
  d !! "tokenId" = Some (VInt z) -> z <> 0 ->
  send_bid_accepted_notification env d h g c b = [].
Proof.
  intros H Hz. unfold send_bid_accepted_notification, attempt.
  do 2 (rewrite attempt_lift;
        match goal with
        | |- match ?r with Ok _ => _ | Raise _ => _ end = _ =>
            destruct r; [| reflexivity]
        end).
  rewrite attempt_lift, (token_id_field_int d z H).
  apply Z.eqb_neq in Hz. by rewrite Hz.
Qed.

Lemma send_generic_notification_calls (ids : list value)
    (buyer : option string) (seller : string) (price : number)
    (h : string) (g : Z) (c : number) (b : Z) :
  send_generic_notification env ids buyer seller price h g c b
  = [SendMessage (CHAT_ID env)
       (message_text
          (match ids with [] => "Unknown" | _ :: _ => join ", " (map str ids) end)
          (format_f 6 price) seller (str_opt buyer))
       "Markdown"].
Proof. reflexivity. Qed.

(** On the accepted range [from_wei] returns the amount over [10 ^ 18]. *)
Lemma from_wei_range (n : Z) :
  0 <= n <= MAX_WEI ->
  exists x : number,
    from_wei n = Ok x
    /\ format_f 6 x = format_f 6 (NDec (mkDecimal n 18)).
Proof.
  intros H. unfold from_wei.
  destruct (n =? 0) eqn:H0.
  - apply Z.eqb_eq in H0. subst n. eexists. split; reflexivity.
  - replace ((n <? MIN_WEI) || (MAX_WEI <? n)) with false; [eauto |].
    symmetry. apply orb_false_iff. unfold MIN_WEI.
    split; [apply Z.ltb_ge | apply Z.ltb_ge]; lia.
Qed.

(** The senders and the handler call nothing but the bot. *)
Lemma Forall_ebind (P : call -> Prop) {A B : Type} (m : eff A)
    (f : A -> eff B) :
  Forall P (fst m) -> (forall a, Forall P (fst (f a))) ->
  Forall P (fst (ebind m f)).
Proof.
  intros Hm Hf. rewrite ebind_calls. apply Forall_app. split; [done |].
  destruct (snd m); [apply Hf | constructor].
Qed.

Lemma Forall_for_each (P : call -> Prop) {A : Type} (l : list A)
    (body : A -> eff unit) :
  (forall x, Forall P (fst (body x))) -> Forall P (fst (for_each l body)).
Proof.
  intros Hb. induction l as [| x l IH]; [constructor |].
  cbn [for_each]. apply Forall_ebind; [apply Hb | intros _; apply IH].
Qed.

Local Ltac only_notifications :=
  repeat first
    [ apply Forall_ebind; [| intros ?]
    | apply Forall_for_each; intros ?
    | apply Forall_nil_2
    | progress cbn [lift eret fst] ];
  try (repeat constructor; done).

Lemma send_item_sold_only_notifies d h g c b :
  Forall is_notification (send_item_sold_notification env d h g c b).
Proof.
  unfold send_item_sold_notification, attempt, bot_send, perform.
  only_notifications.
Qed.

Lemma send_bid_accepted_only_notifies d h g c b :
  Forall is_notification (send_bid_accepted_notification env d h g c b).
Proof.
  unfold send_bid_accepted_notification, attempt, bot_send, perform.
  only_notifications.
Qed.

Lemma handle_only_notifies (self : HyperEVMNFTTracker) (tx : Transaction)
    (receipt : Receipt) (b : Z) :
  Forall is_notification (handle_nft_transaction env self tx receipt b).
Proof.
  unfold handle_nft_transaction, attempt.
  apply Forall_ebind; [constructor | intros gas].
  destruct (extract_token_ids_from_logs env self (receipt_logs receipt))
    as [ids events].
  apply Forall_ebind; [constructor | intros price].
  apply Forall_ebind.
  - apply Forall_for_each. intros [name d].
    destruct (String.eqb name "ItemSold");
      [apply send_item_sold_only_notifies |].
    destruct (String.eqb name "BidAccepted");
      [apply send_bid_accepted_only_notifies | constructor].
  - intros _. destruct events; [| constructor].
    destruct ids; [constructor |].
    cbn [await fst]. rewrite send_generic_notification_calls.
    repeat constructor.
Qed.

End NotifierFacts.

(** ** Classifying one transaction *)

Section TransactionFacts.

Variable env : Env.
Variable self : HyperEVMNFTTracker.

(** The fallback: no typed event, some bare token id, one notification
    built from the transaction itself. *)
Lemma handle_generic (tx : Transaction) (receipt : Receipt) (b : Z)
    (ids : list value) :
  extract_token_ids_from_logs env self (receipt_logs receipt) = (ids, []) ->
  ids <> [] ->
  0 <= receipt_gasUsed receipt * tx_gasPrice tx <= MAX_WEI ->
  0 <= tx_value tx <= MAX_WEI ->
  handle_nft_transaction env self tx receipt b
  = [SendMessage (CHAT_ID env)
       (message_text (join ", " (map str ids))
          (format_f 6 (NDec (mkDecimal (tx_value tx) 18)))
          (tx_from tx) (str_opt (tx_to tx)))
       "Markdown"].
Proof.
  intros Hex Hne Hgas Hval. unfold handle_nft_transaction, attempt.
  destruct (from_wei_range _ Hgas) as (g & Hg & _).
  rewrite attempt_lift, Hg, Hex, attempt_lift.
  assert (exists v : number,
             (if 0 <? tx_value tx then from_wei (tx_value tx) else Ok (NInt 0))
             = Ok v
             /\ format_f 6 v = format_f 6 (NDec (mkDecimal (tx_value tx) 18)))
    as (v & -> & Hv).
  { destruct (0 <? tx_value tx) eqn:Hpos; [by apply from_wei_range |].
    apply Z.ltb_ge in Hpos. replace (tx_value tx) with 0 by lia. eauto. }
  destruct ids as [| i ids]; [done |].
  cbn [for_each eret ebind await fst app].
  rewrite send_generic_notification_calls, Hv. reflexivity.
Qed.

Lemma analyze_calls (tx : Transaction) (b : Z) :
  exists rest : list call,
    analyze_transaction env self tx b = GetReceipt (tx_hash tx) :: rest
    /\ Forall is_notification rest.
Proof.
  unfold analyze_transaction, attempt, perform.
  destruct (get_transaction_receipt env (tx_hash tx)) as [r | e]; cbn [ebind].
  - destruct (negb (receipt_status r =? 1)); [by eexists |].
    destruct (_ && _); [| by eexists].
    cbn [await fst app]. eexists. split; [reflexivity |].
    apply handle_only_notifies.
  - by eexists.
Qed.

(** A failed receipt: the transaction is fetched and nothing more. *)
Lemma analyze_not_success (tx : Transaction) (b : Z) :
  (forall r, get_transaction_receipt env (tx_hash tx) = Ok r ->
             receipt_status r <> 1) ->
  analyze_transaction env self tx b = [GetReceipt (tx_hash tx)].
Proof.
  intros H. unfold analyze_transaction, attempt, perform.
  destruct (get_transaction_receipt env (tx_hash tx)) as [r | e];
    [| reflexivity].
  cbn [ebind]. specialize (H r eq_refl). apply Z.eqb_neq in H.
  by rewrite H.
Qed.

(** An input shorter than a selector: nothing is classified. *)
Lemma analyze_short_input (tx : Transaction) (b : Z) :
  (length (tx_input tx) < 10)%nat ->
  analyze_transaction env self tx b = [GetReceipt (tx_hash tx)].
Proof.
  intros H. unfold analyze_transaction, attempt, perform.
  destruct (get_transaction_receipt env (tx_hash tx)) as [r | e];
    [| reflexivity].
  cbn [ebind]. destruct (negb (receipt_status r =? 1)); [reflexivity |].
  by rewrite (proj2 (Nat.leb_gt _ _) H), andb_false_r.
Qed.

Lemma analyze_success (tx : Transaction) (b : Z) (r : Receipt) :
  get_transaction_receipt env (tx_hash tx) = Ok r ->
  receipt_status r = 1 ->
  (10 <= length (tx_input tx))%nat ->
  analyze_transaction env self tx b
  = GetReceipt (tx_hash tx) :: handle_nft_transaction env self tx r b.
Proof.
  intros Hr Hs Hi. unfold analyze_transaction, attempt, perform.
  rewrite Hr. cbn [ebind]. rewrite Hs. cbn [Z.eqb Pos.eqb negb].
  rewrite (proj2 (Nat.leb_le _ _) Hi).
  destruct (length (tx_input tx)) as [| n]; [lia |].
  reflexivity.
Qed.

Lemma addressed_to_contract_true (tx : Transaction) :
  addressed_to_contract self tx = true ->
  exists a : string,
    tx_to tx = Some a /\ lower a = contract_address self.
Proof.
  unfold addressed_to_contract. destruct (tx_to tx) as [a |]; [| done].
  intros [_ H%String.eqb_eq]%andb_true_iff. eauto.
Qed.

Lemma process_block_calls (b : Z) (txs : list Transaction) :
  get_block env b = Ok txs ->
  process_block env self b
  = GetBlock b
    :: concat (map (fun tx => analyze_transaction env self tx b)
                   (List.filter (addressed_to_contract self) txs)).
Proof.
  intros H. unfold process_block, attempt, perform. rewrite H.
  cbn [ebind].
  match goal with
  | |- (let (t', r) := ?m in _).1 = _ =>
      assert (m = (concat (map (fun tx => analyze_transaction env self tx b)
                     (List.filter (addressed_to_contract self) txs)), Ok tt))
        as ->
  end; [| reflexivity].
  clear H. induction txs as [| tx txs IH]; [reflexivity |].
  cbn [for_each List.filter]. rewrite IH.
  by destruct (addressed_to_contract self tx).
Qed.

Lemma process_block_error (b : Z) (e : exn) :
  get_block env b = Raise e -> process_block env self b = [GetBlock b].
Proof.
  intros H. unfold process_block, attempt, perform. by rewrite H.
Qed.

Lemma heights_app (t t' : list call) :
  heights (t ++ t') = heights t ++ heights t'.
Proof. apply omap_app. Qed.

Lemma heights_notifications (t : list call) :
  Forall is_notification t -> heights t = [].
Proof.
  induction 1 as [| c t Hc _ IH]; [reflexivity |].
  destruct c; done.
Qed.

Lemma heights_analyze (tx : Transaction) (b : Z) :
  heights (analyze_transaction env self tx b) = [].
Proof.
  destruct (analyze_calls tx b) as (rest & -> & Hrest).
  cbn. by apply heights_notifications.
Qed.

(** [process_block] reads exactly the block it is given. *)
Lemma heights_process_block (b : Z) : heights (process_block env self b) = [b].
Proof.
  destruct (get_block env b) as [txs | e] eqn:Hb.
  - rewrite (process_block_calls _ _ Hb).
    change (heights (GetBlock b :: ?t)) with (b :: heights t). f_equal.
    induction (List.filter (addressed_to_contract self) txs) as [| tx l IH];
      [reflexivity |].
    cbn [map concat]. by rewrite heights_app, IH, (heights_analyze tx b).
  - by rewrite (process_block_error _ _ Hb).
Qed.

Lemma poll_cycle_ok (h : Z) :
  block_number env = Ok h ->
  poll_cycle env self
  = (BlockNumber
       :: concat (map (process_block env self)
                      (range (last_processed_block self + 1) (h + 1)))
       ++ [Sleep 5],
     {| contract_address := contract_address self;
        last_processed_block := h |}).
Proof.
  intros H. unfold poll_cycle, perform. rewrite H.
  by rewrite for_each_await.
Qed.

Lemma poll_cycle_error (e : exn) :
  block_number env = Raise e ->
  poll_cycle env self = ([BlockNumber; Sleep 15], self).
Proof.
  intros H. unfold poll_cycle, perform. by rewrite H.
Qed.

Lemma heights_blocks (l : list Z) :
  heights (concat (map (process_block env self) l)) = l.
Proof.
  induction l as [| b l IH]; [reflexivity |].
  cbn [map concat]. by rewrite heights_app, IH, (heights_process_block b).
Qed.

Lemma heights_poll_cycle :
  heights (fst (poll_cycle env self))
  = match block_number env with
    | Ok h => range (last_processed_block self + 1) (h + 1)
    | Raise _ => []
    end.
Proof.
  destruct (block_number env) as [h | e] eqn:H.
  - rewrite (poll_cycle_ok _ H). cbn [fst].
    change (heights (BlockNumber :: ?t)) with (heights t).
    rewrite heights_app, heights_blocks. cbn. by rewrite app_nil_r.
  - by rewrite (poll_cycle_error _ H).
Qed.

End TransactionFacts.

(** ** Ranges of heights *)

Lemma elem_of_range (a b h : Z) : h ∈ range a b <-> a <= h < b.
Proof. unfold range. rewrite elem_of_seqZ. lia. Qed.

Lemma range_sorted (a b : Z) : StronglySorted Z.lt (range a b).
Proof.
  unfold range, seqZ. generalize (Z.to_nat (b - a)) as n. intros n.
  generalize 0%nat as j. induction n as [| n IH]; intros j; [constructor |].
  cbn [seq fmap list_fmap]. constructor; [apply IH |].
  apply Forall_forall. intros x Hx.
  apply list_elem_of_fmap in Hx as (i & -> & Hi).
  apply elem_of_seq in Hi. lia.
Qed.

(** ** The polling loop over several cycles *)

Lemma track_ascending (envs : list Env) (self : HyperEVMNFTTracker) :
  heads_ascend envs (last_processed_block self) ->
  let r := track_transactions envs self in
  StronglySorted Z.lt (heights (fst r))
  /\ Forall (fun h => last_processed_block self < h
                      <= last_processed_block (snd r)) (heights (fst r))
  /\ last_processed_block self <= last_processed_block (snd r).
Proof.
  revert self. induction envs as [| env envs IH]; intros self Hasc.
  - cbn. repeat split; [constructor | constructor | lia].
  - cbn [track_transactions heads_ascend] in *.
    pose proof (heights_poll_cycle env self) as Hh.
    destruct (block_number env) as [h | e] eqn:Hb.
    + destruct Hasc as [Hle Hasc].
      rewrite (poll_cycle_ok env self h Hb) in *. cbn [fst] in Hh.
      set (self' := {| contract_address := contract_address self;
                       last_processed_block := h |}) in *.
      specialize (IH self' Hasc).
      destruct (track_transactions envs self') as [t' s'].
      subst self'. cbn [fst snd last_processed_block] in *.
      destruct IH as (Hs & Hb' & Hc).
      rewrite heights_app, Hh.
      repeat split.
      * apply StronglySorted_app. repeat split; [| apply range_sorted | done].
        intros x1 x2 H1%elem_of_range H2.
        rewrite Forall_forall in Hb'. specialize (Hb' _ H2). lia.
      * apply Forall_app. split.
        -- apply Forall_forall. intros x Hx%elem_of_range. lia.
        -- eapply Forall_impl; [exact Hb' |]. cbn. intros x Hx. lia.
      * lia.
    + rewrite (poll_cycle_error env self e Hb) in *. cbn [fst] in Hh.
      specialize (IH self Hasc).
      destruct (track_transactions envs self) as [t' s'].
      cbn [fst snd] in *. exact IH.
Qed.

(** ** Displayed prices *)

Section PriceFacts.

Lemma digit_val_digit_char (d : Z) :
  0 <= d < 10 -> digit_val (digit_char d) = Some d.
Proof.
  revert d. apply (below_forall _ 10). vm_compute seqZ.
  repeat apply Forall_cons_2; reflexivity || apply Forall_nil_2.
Qed.

Lemma fixed_digits_length (n : nat) (z : Z) :
  String.length (fixed_digits n z) = n.
Proof.
  induction n as [| n IH]; [reflexivity |].
  cbn [fixed_digits String.length]. by rewrite IH.
Qed.

(** Reading [n] fixed digits back gives the value modulo [10 ^ n]. *)
Lemma read_fixed_digits (n : nat) (z acc : Z) :
  read_digits acc (fixed_digits n z)
  = Some (acc * 10 ^ Z.of_nat n + z mod 10 ^ Z.of_nat n).
Proof.
  revert acc. induction n as [| n IH]; intros acc.
  - cbn. rewrite Z.mod_1_r. f_equal. lia.
  - cbn [fixed_digits read_digits].
    rewrite digit_val_digit_char by (apply Z.mod_pos_bound; lia).
    rewrite IH. f_equal.
    rewrite Nat2Z.inj_succ, Z.pow_succ_r by lia.
    rewrite (Z.mul_comm 10 (10 ^ _)), (Z.rem_mul_r z) by lia. lia.
Qed.

(** The digits of an unsigned integer hold no decimal point. *)
Lemma split_point_digits (d : Decimal.uint) (f : string) :
  split_point (NilEmpty.string_of_uint d +:+ String "." f)
  = Some (NilEmpty.string_of_uint d, f).
Proof.
  induction d as [| d IH | d IH | d IH | d IH | d IH | d IH | d IH | d IH
                 | d IH | d IH];
    [reflexivity | ..];
    cbn [NilEmpty.string_of_uint];
    match goal with
    | |- split_point (String ?c ?a +:+ ?b) = _ =>
        change (String c a +:+ b) with (String c (a +:+ b))
    end;
    cbn [split_point Ascii.eqb Bool.eqb]; by rewrite IH.
Qed.

(** [str(q)] of a natural number reads back as [q]. *)
Lemma str_of_int_read (q : Z) :
  0 <= q ->
  exists d : Decimal.uint,
    str_of_int q = NilEmpty.string_of_uint d
    /\ NilZero.uint_of_string (str_of_int q) = Some d
    /\ Z.of_uint d = q.
Proof.
  intros H. unfold str_of_int. destruct q as [| p | p]; [| | lia].
  - exists (Decimal.D0 Decimal.Nil). by repeat split.
  - exists (Pos.to_uint p). cbn [Z.to_int NilZero.string_of_int].
    pose proof (Unsigned.to_uint_nonnil p) as Hnn.
    repeat split.
    + unfold NilZero.string_of_uint. by destruct (Pos.to_uint p).
    + by apply NilZero.usu.
    + unfold Z.of_uint. by rewrite Unsigned.of_to.
Qed.

Lemma decimal_of_fixed (q r : Z) (n : nat) :
  0 <= q ->
  decimal_of_string (str_of_int q +:+ "." +:+ fixed_digits n r)
  = Some (mkDecimal (q * 10 ^ Z.of_nat n + r mod 10 ^ Z.of_nat n) n).
Proof.
  intros Hq. destruct (str_of_int_read q Hq) as (d & Hs & Hr & Hd).
  unfold decimal_of_string.
  change ("." +:+ fixed_digits n r) with (String "." (fixed_digits n r)).
  rewrite Hs at 1. rewrite split_point_digits, <- Hs, Hr.
  rewrite read_fixed_digits, fixed_digits_length, Hd.
  f_equal.
Qed.

Lemma round_half_even_nearest (a b : Z) :
  0 < b -> 2 * Z.abs (a - round_half_even a b * b) <= b.
Proof.
  intros Hb. unfold round_half_even.
  pose proof (Z.div_mod a b ltac:(lia)) as Hdm.
  pose proof (Z.mod_pos_bound a b Hb) as Hm.
  destruct (2 * (a mod b) <? b) eqn:H1; [apply Z.ltb_lt in H1; nia |].
  apply Z.ltb_ge in H1.
  destruct (b <? 2 * (a mod b)) eqn:H2; [apply Z.ltb_lt in H2; nia |].
  apply Z.ltb_ge in H2.
  destruct (Z.even (a / b)); nia.
Qed.

Lemma round_half_even_nonneg (a b : Z) :
  0 <= a -> 0 < b -> 0 <= round_half_even a b.
Proof.
  intros Ha Hb. unfold round_half_even.
  pose proof (Z.div_pos a b Ha Hb).
  repeat match goal with |- context [if ?c then _ else _] => destruct c end;
    lia.
Qed.

Lemma round_half_even_unit (a : Z) : round_half_even a 1 = a.
Proof.
  unfold round_half_even. by rewrite Z.mod_1_r, Z.div_1_r.
Qed.

(** The text of a non-negative amount with [places >= 6]. *)
Lemma format_f6_nonneg (c : Z) (places : nat) :
  0 <= c -> (6 <= places)%nat ->
  let n := round_half_even c (10 ^ Z.of_nat (places - 6)) in
  format_f 6 (NDec (mkDecimal c places))
  = str_of_int (n / 10 ^ 6) +:+ "." +:+ fixed_digits 6 (n mod 10 ^ 6).
Proof.
  intros Hc Hp n. unfold format_f, quantize. cbn [dec_coef dec_places].
  rewrite (proj2 (Nat.leb_le _ _) Hp), (proj2 (Z.ltb_ge _ _) Hc).
  fold n. rewrite Z.abs_eq; [reflexivity |].
  apply round_half_even_nonneg; [done | by apply Z.pow_pos_nonneg; lia].
Qed.

End PriceFacts.

Lemma sorted_NoDup (l : list Z) : StronglySorted Z.lt l -> NoDup l.
Proof.
  induction 1 as [| x l _ IH Hx]; constructor; [| exact IH].
  intros Hin. rewrite Forall_forall in Hx. specialize (Hx _ Hin). lia.
Qed.

(** ** The classifier, log by log *)

Section ClassifierSteps.

Variable env : Env.
Variable self : HyperEVMNFTTracker.

(** The lists that the loop starts from are only prefixed to its result. *)
Lemma extract_loop_acc (logs : list Log) (ids : list value)
    (events : list (string * gmap string value)) :
  extract_loop env self logs ids events
  = (ids ++ fst (extract_loop env self logs [] []),
     events ++ snd (extract_loop env self logs [] [])).
Proof.
  revert ids events. induction logs as [| l logs IH]; intros ids events.
  - cbn. by rewrite !app_nil_r.
  - cbn [extract_loop].
    destruct (classify_log env self l) as [[i e] |].
    + rewrite (IH (ids ++ i) (events ++ e)), (IH ([] ++ i) ([] ++ e)).
      cbn [fst snd app]. by rewrite !app_assoc.
    + cbn. by rewrite !app_nil_r.
Qed.

Lemma extract_cons (l : Log) (logs : list Log) :
  extract_token_ids_from_logs env self (l :: logs)
  = match classify_log env self l with
    | Ok (i, e) =>
        (i ++ fst (extract_token_ids_from_logs env self logs),
         e ++ snd (extract_token_ids_from_logs env self logs))
    | Raise _ => ([], [])
    end.
Proof.
  unfold extract_token_ids_from_logs. cbn [extract_loop].
  destruct (classify_log env self l) as [[i e] |]; [| reflexivity].
  by rewrite extract_loop_acc.
Qed.

(** A log whose classification raises ends the loop. *)
Lemma extract_loop_abort (pre post : list Log) (bad : Log) (e : exn)
    (ids : list value) (events : list (string * gmap string value)) :
  classify_log env self bad = Raise e ->
  extract_loop env self (pre ++ bad :: post) ids events
  = extract_loop env self pre ids events.
Proof.
  intros Hbad. revert ids events.
  induction pre as [| l pre IH]; intros ids events.
  - cbn [app extract_loop]. by rewrite Hbad.
  - cbn [app extract_loop].
    destruct (classify_log env self l) as [[i ev] |]; [apply IH | reflexivity].
Qed.

Lemma classify_no_topics (log : Log) :
  log_topics log = [] -> classify_log env self log = Raise IndexError.
Proof.
  intros H. unfold classify_log, is_transfer, classify_event.
  by rewrite H.
Qed.

Lemma decode_item_sold_token_id (log : Log) (d : gmap string value) :
  decode_item_sold_event log = Some d ->
  exists z : Z, d !! "tokenId" = Some (VInt z).
Proof.
  unfold decode_item_sold_event.
  destruct (6 <=? _)%nat; [| done].
  rewrite !optional_topic. cbn [Py.bind].
  repeat match goal with
         | |- context [Py.bind ?m _] =>
             destruct m; cbn [Py.bind try_or_none]; [| done]
         end.
  intros [= <-]. eexists. apply lookup_insert_eq.
Qed.

(** What one decoded dictionary appends. *)
Lemma record_event_some (name : string) (d : gmap string value) (z : Z) :
  d !! "tokenId" = Some (VInt z) ->
  record_event name (Some d) = Ok ([VInt z], [(name, d)]).
Proof.
  intros H. unfold record_event, has_token_id, getitem.
  assert (Hne : d <> ∅) by (intros ->; by rewrite lookup_empty in H).
  assert (Hsome : is_Some (d !! "tokenId")) by eauto.
  rewrite (bool_decide_eq_false_2 _ Hne), (bool_decide_eq_true_2 _ Hsome).
  by rewrite H.
Qed.

(** The three things a pass of the loop body can append. *)
Lemma classify_log_cases (log : Log) (i : list value)
    (e : list (string * gmap string value)) :
  classify_log env self log = Ok (i, e) ->
  (exists z : Z, i = [VInt z] /\ e = [])
  \/ (i = [] /\ e = [])
  \/ (exists (d : gmap string value) (z : Z),
         d !! "tokenId" = Some (VInt z) /\ i = [VInt z]
         /\ (e = [("BidAccepted", d)] /\ decode_bid_accepted_event log = Some d
             \/ e = [("ItemSold", d)] /\ decode_item_sold_event log = Some d)).
Proof.
  unfold classify_log.
  destruct (is_transfer env self log) as [[|] |]; cbn [Py.bind]; [| | done].
  - destruct (index (log_topics log) 3); cbn [Py.bind]; [| done].
    destruct (int16 _); cbn [Py.bind]; [| done].
    intros [= <- <-]. left. eauto.
  - unfold classify_event.
    destruct (index (log_topics log) 0) as [t0 |]; cbn [Py.bind]; [| done].
    destruct (String.eqb (hex t0) bid_accepted_topic).
    + destruct (decode_bid_accepted_event log) as [d |] eqn:Hd.
      * destruct (decode_bid_accepted_token_id log d Hd) as [z Hz].
        rewrite (record_event_some _ d z Hz). intros [= <- <-].
        right. right. exists d, z. eauto.
      * intros [= <- <-]. right. left. done.
    + destruct (String.eqb (hex t0) item_sold_topic).
      * destruct (decode_item_sold_event log) as [d |] eqn:Hd.
        -- destruct (decode_item_sold_token_id log d Hd) as [z Hz].
           rewrite (record_event_some _ d z Hz). intros [= <- <-].
           right. right. exists d, z. eauto.
        -- intros [= <- <-]. right. left. done.
      * intros [= <- <-]. right. left. done.
Qed.

(** A log that matches none of the three signatures, or a Transfer log
    that fails the test of the first branch, appends nothing. *)
Lemma classify_unrecognised (log : Log) (t0 : list byte) :
  log_topics log !! 0%nat = Some t0 ->
  hex t0 <> bid_accepted_topic -> hex t0 <> item_sold_topic ->
  is_transfer env self log = Ok false ->
  classify_log env self log = Ok ([], []).
Proof.
  intros Ht0 Hb Hi Htr. unfold classify_log. rewrite Htr. cbn [Py.bind].
  unfold classify_event. rewrite (index_lookup _ _ _ Ht0). cbn [Py.bind].
  apply String.eqb_neq in Hb, Hi. by rewrite Hb, Hi.
Qed.

Lemma is_transfer_false (log : Log) (t0 : list byte) :
  log_topics log !! 0%nat = Some t0 ->
  (length (log_topics log) < 4)%nat
  \/ hex t0 <> transfer_topic env
  \/ lower (log_address log) <> contract_address self ->
  is_transfer env self log = Ok false.
Proof.
  intros Ht0 H. unfold is_transfer.
  destruct (4 <=? length (log_topics log))%nat eqn:Hlen; [| reflexivity].
  apply Nat.leb_le in Hlen.
  rewrite (index_lookup _ _ _ Ht0). cbn [Py.bind].
  destruct (String.eqb (hex t0) (transfer_topic env)) eqn:Heq;
    [| reflexivity].
  apply String.eqb_eq in Heq.
  destruct H as [H | [H | H]]; [lia | done |].
  apply String.eqb_neq in H. by rewrite H.
Qed.

Lemma classify_contract_transfer (log : Log) :
  is_contract_transfer env self log ->
  classify_log env self log = Ok ([VInt (transfer_token_id log)], []).
Proof.
  intros (t0 & t3 & Ht0 & Heq & Ht3 & Hne & Ha).
  unfold transfer_token_id. rewrite Ht3. cbn [default from_option].
  apply classify_transfer; [| done | done].
  apply is_transfer_true. split; [| eauto].
  apply lookup_lt_Some in Ht3. lia.
Qed.

(** Away from the Transfer signature the emitting address is not read. *)
Lemma classify_emitted_by (a : string) (log : Log) :
  (forall t0, log_topics log !! 0%nat = Some t0 ->
              hex t0 <> transfer_topic env) ->
  classify_log env self (emitted_by a log) = classify_log env self log.
Proof.
  intros H.
  assert (Htr : forall l : Log,
             log_topics l = log_topics log ->
             is_transfer env self l = Ok false
             \/ exists e, is_transfer env self l = Raise e).
  { intros l Hl. unfold is_transfer. rewrite Hl.
    destruct (4 <=? _)%nat; [| by left].
    unfold index. destruct (log_topics log !! 0%nat) as [t0 |] eqn:Ht0;
      cbn [Py.bind]; [| right; eauto].
    specialize (H t0 eq_refl). apply String.eqb_neq in H. rewrite H.
    by left. }
  unfold classify_log.
  assert (is_transfer env self (emitted_by a log) = is_transfer env self log)
    as ->.
  { unfold is_transfer. cbn [emitted_by log_topics log_address].
    destruct (4 <=? _)%nat; [| reflexivity].
    unfold index. destruct (log_topics log !! 0%nat) as [t0 |] eqn:Ht0;
      cbn [Py.bind]; [| reflexivity].
    specialize (H t0 eq_refl). apply String.eqb_neq in H. by rewrite H. }
  destruct (Htr log eq_refl) as [-> | [e ->]]; reflexivity.
Qed.

End ClassifierSteps.

(** ** The classifier over a receipt *)

Section ClassifierRuns.

Variable env : Env.
Variable self : HyperEVMNFTTracker.

Lemma extract_transfers (logs : list Log) :
  Forall (is_contract_transfer env self) logs ->
  extract_token_ids_from_logs env self logs
  = (map (fun l => VInt (transfer_token_id l)) logs, []).
Proof.
  induction 1 as [| l logs Hl _ IH]; [reflexivity |].
  rewrite extract_cons, (classify_contract_transfer env self l Hl), IH.
  reflexivity.
Qed.

Lemma typed_event_weaken (ids ids' : list value)
    (ev : string * gmap string value) :
  typed_event ids ev -> typed_event (ids' ++ ids) ev.
Proof.
  intros [Hn (z & Hz & Hin)]. split; [exact Hn |].
  exists z. split; [exact Hz |]. apply elem_of_app. by right.
Qed.

(** The invariant of the two lists that the classifier returns. *)
Lemma extract_invariant (logs : list Log) :
  Forall (typed_event (fst (extract_token_ids_from_logs env self logs)))
         (snd (extract_token_ids_from_logs env self logs))
  /\ (length (snd (extract_token_ids_from_logs env self logs))
      <= length (fst (extract_token_ids_from_logs env self logs)))%nat
  /\ Forall (fun v => exists z : Z, v = VInt z)
            (fst (extract_token_ids_from_logs env self logs)).
Proof.
  induction logs as [| l logs (IHe & IHl & IHi)];
    [by repeat split; try constructor |].
  rewrite extract_cons.
  destruct (classify_log env self l) as [[i e] |] eqn:Hc;
    [| by repeat split; try constructor].
  cbn [fst snd].
  assert (Hrest : Forall (typed_event
                    (i ++ fst (extract_token_ids_from_logs env self logs)))
                    (snd (extract_token_ids_from_logs env self logs))).
  { eapply Forall_impl; [exact IHe |]. intros ev. apply typed_event_weaken. }
  destruct (classify_log_cases env self l i e Hc)
    as [(z & -> & ->) | [[-> ->] | (d & z & Hz & -> & He)]].
  - repeat split; [exact Hrest | cbn; lia |].
    constructor; [eauto | exact IHi].
  - by repeat split.
  - assert (Hev : e = [("BidAccepted", d)] \/ e = [("ItemSold", d)])
      by (destruct He as [[-> _] | [-> _]]; eauto).
    assert (Hty : Forall (typed_event ([VInt z]
                     ++ fst (extract_token_ids_from_logs env self logs))) e).
    { destruct He as [[-> Hd] | [-> Hd]]; apply Forall_singleton.
      - split; [by right |]. exists z. split; [exact Hz | constructor].
      - split; [left; split; [done |]
               | exists z; split; [exact Hz | constructor]].
        by apply (decode_item_sold_no_bidder l). }
    repeat split.
    + apply Forall_app. by split.
    + destruct Hev as [-> | ->]; cbn; lia.
    + constructor; [eauto | exact IHi].
Qed.

(** Every log contributes what is expected of it. *)
Lemma classify_contribution (log : Log)
    (r : list value * list (string * gmap string value)) :
  contribution env self log r -> classify_log env self log = Ok r.
Proof.
  intros [Htr | name d z (Htr & t0 & Ht0 & Hdec) Hz | Hfail
          | t0 Htr Ht0 Hb Hi].
  - by apply classify_contract_transfer.
  - unfold classify_log. rewrite Htr. cbn [Py.bind].
    unfold classify_event. rewrite (index_lookup _ _ _ Ht0). cbn [Py.bind].
    destruct Hdec as [(Hb & -> & Hd) | (Hi & -> & Hd)].
    + rewrite Hb, String.eqb_refl, Hd. by apply record_event_some.
    + rewrite Hi.
      change (String.eqb item_sold_topic bid_accepted_topic) with false.
      cbn iota. rewrite String.eqb_refl, Hd. by apply record_event_some.
  - by apply classify_decode_fails.
  - by apply (classify_unrecognised env self log t0).
Qed.

Lemma extract_contributions (logs : list Log)
    (parts : list (list value * list (string * gmap string value))) :
  Forall2 (contribution env self) logs parts ->
  extract_token_ids_from_logs env self logs
  = (concat (map fst parts), concat (map snd parts)).
Proof.
  induction 1 as [| l r logs parts Hl _ IH]; [reflexivity |].
  rewrite extract_cons, (classify_contribution l r Hl), IH.
  by destruct r.
Qed.

End ClassifierRuns.

(** * The properties of the specification, C1 to C10 *)

(** C1.  Every typed event (ItemSold or BidAccepted) should lead to exactly
    one message handed to the bot.  It does not: the sender of an ItemSold
    event never reaches the bot, whatever log the event was decoded from
    (it reads the key [bidder], which a sale does not have), and neither
    does the sender of a BidAccepted event with a token id other than 0
    ([map(str, ...)] over the integer token id).  On a receipt that yields
    one event of each kind the handler hands over no message at all. *)
Theorem typed_events_not_notified :
  (forall (env : Env) (log : Log) (d : gmap string value) (h : string)
          (g : Z) (c : number) (b : Z),
      decode_item_sold_event log = Some d ->
      send_item_sold_notification env d h g c b = [])
  /\ (forall (env : Env) (log : Log) (d : gmap string value) (h : string)
             (g : Z) (c : number) (b : Z),
        decode_bid_accepted_event log = Some d ->
        d !! "tokenId" <> Some (VInt 0) ->
        send_bid_accepted_notification env d h g c b = [])
  /\ map fst (snd (extract_token_ids_from_logs Sample.env Sample.self
                     (receipt_logs Sample.receipt_sales)))
     = ["ItemSold"; "BidAccepted"]
  /\ handle_nft_transaction Sample.env Sample.self Sample.tx_sales
       Sample.receipt_sales 11 = [].
Proof.
  split; [intros env log d h g c b; apply item_sold_never_notified |].
  split.
  - intros env log d h g c b Hd Hz.
    destruct (decode_bid_accepted_token_id log d Hd) as [z Hid].
    apply (send_bid_accepted_silent env d z); [exact Hid |].
    intros ->. by apply Hz.
  - split; vm_compute; reflexivity.
Qed.

Lemma typed_events_not_notified_witness :
  exists d d' : gmap string value,
    decode_item_sold_event Sample.item_sold_text = Some d
    /\ d !! "tokenId" = Some (VInt 42)
    /\ send_item_sold_notification Sample.env d "0x" 90000 (NInt 0) 11 = []
    /\ decode_bid_accepted_event Sample.bid_accepted_text = Some d'
    /\ d' !! "tokenId" = Some (VInt 7)
    /\ send_bid_accepted_notification Sample.env d' "0x" 90000 (NInt 0) 11
       = [].
Proof.
  destruct (decode_item_sold_text Sample.item_sold_text Sample.sale_words
              2000000000000000000 1 42)
    as (d & Hd & _ & _ & Ht & _);
    try reflexivity; try (cbn; lia); try (unfold uint256; lia).
  destruct (decode_bid_accepted_text Sample.bid_accepted_text
              Sample.bid_words 1 1500000000000000000 1 7
              (address_topic Sample.buyer) (address_topic Sample.nft))
    as (d' & Hd' & _ & _ & _ & Ht' & _);
    try reflexivity; try (unfold uint256; lia).
  exists d, d'.
  assert (Hz : d' !! "tokenId" <> Some (VInt 0))
    by (rewrite Ht'; discriminate).
  exact (conj Hd (conj Ht
           (conj (proj1 typed_events_not_notified Sample.env
                    Sample.item_sold_text d "0x" 90000 (NInt 0) 11 Hd)
              (conj Hd' (conj Ht'
                 (proj1 (proj2 typed_events_not_notified) Sample.env
                    Sample.bid_accepted_text d' "0x" 90000 (NInt 0) 11
                    Hd' Hz)))))).
Defined.

(** C2.  Decoding the well-formed ItemSold log of the specification should
    yield token id 42.  It yields nothing, and so does every payload made
    of at most 10 words of 32 bytes, and every longer one whose first word,
    the price, is below [2 ^ 232]: the payload arrives as bytes, so
    [log.data[2:]] drops two bytes of the first word, a chunk holds 64
    bytes, 10 words make fewer than the 6 chunks that the guard asks for,
    and the first chunk, which starts with a zero byte, is no numeral. *)
Theorem item_sold_words_not_decoded (log : Log) (ws : list Z) :
  log_data log = abi_data ws ->
  (length ws <= 10)%nat
  \/ (forall p : Z, ws !! 0%nat = Some p -> 0 <= p < 2 ^ 232) ->
  decode_item_sold_event log = None.
Proof. apply decode_item_sold_words. Qed.

Lemma item_sold_words_not_decoded_witness :
  log_data Sample.item_sold_3 = abi_data [2000000000000000000; 1; 42]
  /\ length (log_topics Sample.item_sold_3) = 4%nat
  /\ payload_chunks Sample.item_sold_3 = 2%nat
  /\ decode_item_sold_event Sample.item_sold_3 = None
  /\ payload_chunks Sample.item_sold_12 = 6%nat
  /\ decode_item_sold_event Sample.item_sold_12 = None.
Proof.
  assert (H : forall l : list Z,
             forall p : Z, (2000000000000000000 :: l) !! 0%nat = Some p ->
                           0 <= p < 2 ^ 232)
    by (intros l p [= <-]; split; [lia | reflexivity]).
  split; [reflexivity |]. split; [reflexivity |].
  split; [vm_compute; reflexivity |].
  assert (H3 : (length [2000000000000000000%Z; 1%Z; 42%Z] <= 10)%nat)
    by (cbn; lia).
  split; [exact (item_sold_words_not_decoded Sample.item_sold_3
                   [2000000000000000000; 1; 42] eq_refl (or_introl H3)) |].
  split; [vm_compute; reflexivity |].
  exact (item_sold_words_not_decoded Sample.item_sold_12 _ eq_refl
           (or_intror (H _))).
Defined.

(** C3 does not hold as the specification states it: a head read below the
    cursor moves the cursor back, and the heights above it are processed a
    second time.  Started at height 8, reading the heads 10, 8 and 10
    processes 9 and 10 twice. *)
Lemma cursor_moves_back :
  let envs := [Sample.env_at (Ok 10); Sample.env_at (Ok 8);
               Sample.env_at (Ok 10)] in
  last_processed_block
    (snd (track_transactions (take 2 envs) (init 8)))
  < last_processed_block
      (snd (track_transactions (take 1 envs) (init 8)))
  /\ heights (fst (track_transactions envs (init 8))) = [9; 10; 9; 10]
  /\ ~ NoDup (heights (fst (track_transactions envs (init 8)))).
Proof.
  split; [vm_compute; reflexivity |].
  split; [vm_compute; reflexivity |].
  intros H. change (NoDup [9; 10; 9; 10]) in H.
  apply NoDup_cons_1_1 in H. apply H. set_solver.
Qed.

(** C3, as the code has it.  If the observed head H is below the cursor C,
    the cycle reads no block and raises no error, and the cursor is set to
    H.  Over any number of cycles in which every observed head is at or
    above the cursor it meets, the cursor never decreases and the heights
    are processed in strictly ascending order, so none is processed
    twice. *)
Theorem cursor_follows_observed_head :
  (forall (env : Env) (self : HyperEVMNFTTracker) (h : Z),
      block_number env = Ok h -> h < last_processed_block self ->
      poll_cycle env self
      = ([BlockNumber; Sleep 5],
         {| contract_address := contract_address self;
            last_processed_block := h |}))
  /\ (forall (envs : list Env) (self : HyperEVMNFTTracker),
        heads_ascend envs (last_processed_block self) ->
        StronglySorted Z.lt (heights (fst (track_transactions envs self)))
        /\ NoDup (heights (fst (track_transactions envs self)))
        /\ last_processed_block self
           <= last_processed_block (snd (track_transactions envs self))).
Proof.
  split.
  - intros env self h Hh Hlt. rewrite (poll_cycle_ok env self h Hh).
    unfold range. rewrite seqZ_nil by lia. reflexivity.
  - intros envs self Hasc.
    destruct (track_ascending envs self Hasc) as (Hs & _ & Hc).
    repeat split; [exact Hs | by apply sorted_NoDup | exact Hc].
Qed.

Lemma cursor_follows_observed_head_witness :
  poll_cycle (Sample.env_at (Ok 8)) (init 10)
  = ([BlockNumber; Sleep 5],
     {| contract_address := lower CONTRACT_ADDRESS;
        last_processed_block := 8 |})
  /\ (let envs := [Sample.env_at (Ok 10);
                   Sample.env_at (Raise ConnectionError);
                   Sample.env_at (Ok 12)] in
      heads_ascend envs 8
      /\ NoDup (heights (fst (track_transactions envs (init 8))))
      /\ 8 <= last_processed_block (snd (track_transactions envs (init 8)))).
Proof.
  split.
  - apply (proj1 cursor_follows_observed_head (Sample.env_at (Ok 8))
             (init 10) 8); [reflexivity | cbn; lia].
  - assert (H : heads_ascend [Sample.env_at (Ok 10);
                              Sample.env_at (Raise ConnectionError);
                              Sample.env_at (Ok 12)] 8)
      by (cbn; lia).
    split; [exact H |].
    exact (proj2 (proj2 cursor_follows_observed_head _ (init 8) H)).
Defined.

(** C4.  Decoding a BidAccepted log with 8 words and 4 topics should yield
    its fields.  It yields nothing, and so does every payload made of at
    most 14 words of 32 bytes, and every longer one whose first word, the
    bid type, is below [2 ^ 232]: the 8 words are 4 chunks of 64 bytes,
    fewer than the 8 that the guard asks for, and the first chunk of a
    longer payload, which starts with a zero byte, is no numeral. *)
Theorem bid_accepted_words_not_decoded (log : Log) (ws : list Z) :
  log_data log = abi_data ws ->
  (length ws <= 14)%nat
  \/ (forall w : Z, ws !! 0%nat = Some w -> 0 <= w < 2 ^ 232) ->
  decode_bid_accepted_event log = None.
Proof. apply decode_bid_accepted_words. Qed.

Lemma bid_accepted_words_not_decoded_witness :
  log_data Sample.bid_accepted_8 = abi_data Sample.bid_words
  /\ length Sample.bid_words = 8%nat
  /\ length (log_topics Sample.bid_accepted_8) = 4%nat
  /\ payload_chunks Sample.bid_accepted_8 = 4%nat
  /\ decode_bid_accepted_event Sample.bid_accepted_8 = None
  /\ payload_chunks More.bid_accepted_16 = 8%nat
  /\ decode_bid_accepted_event More.bid_accepted_16 = None.
Proof.
  assert (H : forall l : list Z,
             forall w : Z, (1 :: l) !! 0%nat = Some w -> 0 <= w < 2 ^ 232)
    by (intros l w [= <-]; split; [lia | reflexivity]).
  split; [reflexivity |]. split; [reflexivity |]. split; [reflexivity |].
  split; [vm_compute; reflexivity |].
  assert (H8 : (length Sample.bid_words <= 14)%nat) by (cbn; lia).
  split; [exact (bid_accepted_words_not_decoded Sample.bid_accepted_8
                   Sample.bid_words eq_refl (or_introl H8)) |].
  split; [vm_compute; reflexivity |].
  exact (bid_accepted_words_not_decoded More.bid_accepted_16 _ eq_refl
           (or_intror (H _))).
Defined.

(** C5 does not hold as the specification states it: a log whose topics
    are malformed, in that it has none, ends the classification of its
    receipt, and the Transfer of token 9 after it is not classified. *)
Lemma sibling_after_topicless_log_unclassified :
  log_topics More.anonymous = []
  /\ extract_token_ids_from_logs Sample.env Sample.self
       [Sample.transfer_7; More.transfer_9]
     = ([VInt 7; VInt 9], [])
  /\ extract_token_ids_from_logs Sample.env Sample.self
       [Sample.transfer_7; More.anonymous; More.transfer_9]
     = ([VInt 7], []).
Proof. split; [reflexivity |]. split; vm_compute; reflexivity. Qed.

(** C5, as the code has it.  A log that reaches a decoder which fails is
    skipped, and its siblings are classified as if it were absent: each
    Transfer of the tracked contract before or after it still contributes
    the integer of its fourth topic, each typed log whose decoder succeeds
    its token id and its dictionary, and each other log whose decoder
    fails or whose first topic is no known signature nothing, in log
    order. *)
Theorem failed_decode_is_skipped (env : Env) (self : HyperEVMNFTTracker)
    (pre post : list Log) (bad : Log)
    (before after : list (list value * list (string * gmap string value))) :
  decode_fails env self bad ->
  Forall2 (contribution env self) pre before ->
  Forall2 (contribution env self) post after ->
  extract_token_ids_from_logs env self (pre ++ bad :: post)
  = (concat (map fst (before ++ after)), concat (map snd (before ++ after))).
Proof.
  intros Hbad Hpre Hpost.
  rewrite (extract_contributions env self (pre ++ bad :: post)
             (before ++ ([], []) :: after)).
  - rewrite !map_app, !concat_app. reflexivity.
  - apply Forall2_app; [exact Hpre |].
    constructor; [by apply contributes_nothing | exact Hpost].
Qed.

Lemma failed_decode_is_skipped_witness :
  decode_fails Sample.env Sample.self Sample.bid_accepted_7
  /\ exists d : gmap string value,
       decode_item_sold_event Sample.item_sold_text = Some d
       /\ extract_token_ids_from_logs Sample.env Sample.self
            ([Sample.transfer_7]
             ++ Sample.bid_accepted_7
             :: [Sample.item_sold_text; More.transfer_9])
          = ([VInt 7; VInt 42; VInt 9], [("ItemSold", d)]).
Proof.
  assert (H : decode_fails Sample.env Sample.self Sample.bid_accepted_7).
  { split; [vm_compute; reflexivity |].
    exists Sample.bid_accepted_digest. split; [reflexivity |].
    left. split; [vm_compute; reflexivity |].
    apply decode_bid_accepted_short. left. vm_compute. lia. }
  split; [exact H |].
  destruct (decode_item_sold_text Sample.item_sold_text Sample.sale_words
              2000000000000000000 1 42)
    as (d & Hd & _ & _ & Ht & _);
    try reflexivity; try (cbn; lia); try (unfold uint256; lia).
  exists d. split; [exact Hd |].
  assert (H7 : is_contract_transfer Sample.env Sample.self Sample.transfer_7)
    by (exists Sample.transfer_digest, (word 7); by repeat split).
  assert (H9 : is_contract_transfer Sample.env Sample.self More.transfer_9)
    by (exists Sample.transfer_digest, (word 9); by repeat split).
  assert (Hs : decoded_as Sample.env Sample.self Sample.item_sold_text
                 "ItemSold" d).
  { split; [vm_compute; reflexivity |].
    exists Sample.item_sold_digest. split; [reflexivity |].
    right. split; [vm_compute; reflexivity |].
    split; [reflexivity | exact Hd]. }
  assert (Hpre : Forall2 (contribution Sample.env Sample.self)
                    [Sample.transfer_7] [([VInt 7], [])]).
  { constructor; [| constructor].
    exact (contributes_transfer _ _ _ H7). }
  assert (Hpost : Forall2 (contribution Sample.env Sample.self)
                    [Sample.item_sold_text; More.transfer_9]
                    [([VInt 42], [("ItemSold", d)]); ([VInt 9], [])]).
  { constructor; [| constructor; [| constructor]].
    - exact (contributes_event _ _ _ "ItemSold" d 42 Hs Ht).
    - exact (contributes_transfer _ _ _ H9). }
  exact (failed_decode_is_skipped Sample.env Sample.self _ _ _ _ _
           H Hpre Hpost).
Defined.

(** C6.  When the classification of a receipt yields no typed event and at
    least one bare token id, the handler hands the bot exactly one message,
    the generic one: the token ids, the transaction's value in native units
    as the price, its sender as seller and its recipient as buyer. *)
Theorem generic_transfer_notification (env : Env) (self : HyperEVMNFTTracker)
    (tx : Transaction) (receipt : Receipt) (b : Z) (ids : list value) :
  extract_token_ids_from_logs env self (receipt_logs receipt) = (ids, []) ->
  ids <> [] ->
  0 <= receipt_gasUsed receipt * tx_gasPrice tx <= MAX_WEI ->
  0 <= tx_value tx <= MAX_WEI ->
  handle_nft_transaction env self tx receipt b
  = [SendMessage (CHAT_ID env)
       ("
PiP & Friends " +:+ join ", " (map str ids) +:+ " was bought for "
        +:+ format_f 6 (NDec (mkDecimal (tx_value tx) 18)) +:+ " HYPE

from: '" +:+ tx_from tx +:+ "'
to: '" +:+ str_opt (tx_to tx) +:+ "'
            ")
       "Markdown"].
Proof. apply handle_generic. Qed.

Lemma generic_transfer_notification_witness :
  extract_token_ids_from_logs Sample.env Sample.self
    (receipt_logs Sample.receipt_transfer) = ([VInt 7], [])
  /\ tx_value Sample.tx_transfer = 1500000000000000000
  /\ tx_from Sample.tx_transfer
     = "0x1111111111111111111111111111111111111111"
  /\ tx_to Sample.tx_transfer
     = Some "0xb6c73F6c09f850651DCb6D62a4D3A7F25e0016C4"
  /\ handle_nft_transaction Sample.env Sample.self
       Sample.tx_transfer Sample.receipt_transfer 11
     = [SendMessage "-1001234567890"
          "
PiP & Friends 7 was bought for 1.500000 HYPE

from: '0x1111111111111111111111111111111111111111'
to: '0xb6c73F6c09f850651DCb6D62a4D3A7F25e0016C4'
            "
          "Markdown"].
Proof.
  assert (H : extract_token_ids_from_logs Sample.env Sample.self
                (receipt_logs Sample.receipt_transfer) = ([VInt 7], []))
    by (vm_compute; reflexivity).
  split; [exact H |]. split; [reflexivity |]. split; [reflexivity |].
  split; [reflexivity |].
  assert (Hmax : 1500000000000000000 <= MAX_WEI)
    by (vm_compute; discriminate).
  etransitivity;
    [exact (generic_transfer_notification Sample.env Sample.self
              Sample.tx_transfer Sample.receipt_transfer 11 [VInt 7] H
              ltac:(discriminate)
              ltac:(cbn; lia) ltac:(cbn; lia))
    | vm_compute; reflexivity].
Defined.

(** C7.  In a cycle that observes the head H at or above the cursor C, the
    tracker, still holding the cursor C, processes the heights C+1 .. H,
    each once and in ascending order, and then sets the cursor to H. *)
Theorem poll_cycle_visits_range (env : Env) (self : HyperEVMNFTTracker)
    (h : Z) :
  block_number env = Ok h ->
  last_processed_block self <= h ->
  fst (poll_cycle env self)
  = BlockNumber
      :: concat (map (process_block env self)
                     (range (last_processed_block self + 1) (h + 1)))
      ++ [Sleep 5]
  /\ heights (fst (poll_cycle env self))
     = range (last_processed_block self + 1) (h + 1)
  /\ (forall b : Z, b ∈ heights (fst (poll_cycle env self))
                    <-> last_processed_block self < b <= h)
  /\ StronglySorted Z.lt (heights (fst (poll_cycle env self)))
  /\ NoDup (heights (fst (poll_cycle env self)))
  /\ last_processed_block (snd (poll_cycle env self)) = h.
Proof.
  intros Hh Hle. pose proof (heights_poll_cycle env self) as Hv.
  rewrite Hh in Hv. rewrite Hv.
  rewrite (poll_cycle_ok env self h Hh). cbn [fst snd last_processed_block].
  split; [reflexivity |]. split; [reflexivity |].
  split; [intros b; rewrite elem_of_range; lia |].
  split; [apply range_sorted |].
  split; [apply sorted_NoDup, range_sorted | reflexivity].
Qed.

Lemma poll_cycle_visits_range_witness :
  block_number Sample.env = Ok 12
  /\ last_processed_block Sample.self <= 12
  /\ heights (fst (poll_cycle Sample.env Sample.self)) = [11; 12]
  /\ last_processed_block (snd (poll_cycle Sample.env Sample.self)) = 12.
Proof.
  assert (H1 : block_number Sample.env = Ok 12) by reflexivity.
  assert (H2 : last_processed_block Sample.self <= 12) by (cbn; lia).
  destruct (poll_cycle_visits_range Sample.env Sample.self 12 H1 H2)
    as (_ & Hv & _ & _ & _ & Hc).
  exact (conj H1 (conj H2 (conj Hv Hc))).
Defined.

(** C8.  In a processed block the transactions analyzed are, in order,
    exactly those whose to-address, lower-cased, equals the tracked
    contract address; and a transaction whose receipt is missing or not a
    success is fetched and produces no notification. *)
Theorem only_addressed_successful_analyzed (env : Env)
    (self : HyperEVMNFTTracker) (b : Z) (txs : list Transaction) :
  get_block env b = Ok txs ->
  process_block env self b
  = GetBlock b
      :: concat (map (fun tx => analyze_transaction env self tx b)
                     (List.filter (addressed_to_contract self) txs))
  /\ (forall tx : Transaction,
        In tx (List.filter (addressed_to_contract self) txs) ->
        In tx txs
        /\ exists a : string,
             tx_to tx = Some a /\ lower a = contract_address self)
  /\ (forall tx : Transaction,
        (forall r : Receipt,
            get_transaction_receipt env (tx_hash tx) = Ok r ->
            receipt_status r <> 1) ->
        analyze_transaction env self tx b = [GetReceipt (tx_hash tx)]
        /\ notifications (analyze_transaction env self tx b) = []).
Proof.
  intros Hb. split; [by apply process_block_calls |]. split.
  - intros tx [Hin Ha]%filter_In. split; [exact Hin |].
    by apply addressed_to_contract_true.
  - intros tx Hr. rewrite (analyze_not_success env self tx b Hr). by split.
Qed.

Lemma only_addressed_successful_analyzed_witness :
  get_block Sample.env 11
  = Ok [Sample.tx_other; Sample.tx_failed; Sample.tx_short;
        Sample.tx_transfer]
  /\ analyzed (process_block Sample.env Sample.self 11)
     = [tx_hash Sample.tx_failed; tx_hash Sample.tx_short;
        tx_hash Sample.tx_transfer]
  /\ notifications
       (analyze_transaction Sample.env Sample.self Sample.tx_failed 11) = [].
Proof.
  assert (H : get_block Sample.env 11
              = Ok [Sample.tx_other; Sample.tx_failed; Sample.tx_short;
                    Sample.tx_transfer]) by reflexivity.
  destruct (only_addressed_successful_analyzed Sample.env Sample.self 11 _ H)
    as (Hp & _ & Hf).
  split; [exact H |]. split.
  - rewrite Hp. vm_compute. reflexivity.
  - apply (Hf Sample.tx_failed). intros r [= <-]. cbn. lia.
Defined.

(** C9.  A transaction whose input is shorter than 10 bytes, the length
    that the guard asks for, is fetched and not classified: whatever its
    receipt holds, no notification is produced. *)
Theorem short_input_not_classified (env : Env) (self : HyperEVMNFTTracker)
    (tx : Transaction) (b : Z) :
  (length (tx_input tx) < 10)%nat ->
  analyze_transaction env self tx b = [GetReceipt (tx_hash tx)]
  /\ notifications (analyze_transaction env self tx b) = [].
Proof.
  intros H. rewrite (analyze_short_input env self tx b H). by split.
Qed.

Lemma short_input_not_classified_witness :
  (length (tx_input Sample.tx_short) < 10)%nat
  /\ get_transaction_receipt Sample.env (tx_hash Sample.tx_short)
     = Ok Sample.receipt_transfer
  /\ notifications
       (analyze_transaction Sample.env Sample.self Sample.tx_short 11) = [].
Proof.
  assert (H : (length (tx_input Sample.tx_short) < 10)%nat)
    by (cbn; lia).
  split; [exact H |]. split; [reflexivity |].
  exact (proj2 (short_input_not_classified Sample.env Sample.self
                  Sample.tx_short 11 H)).
Defined.

(** C10.  A displayed price is the raw amount over [10 ^ 18] rendered with
    6 fractional digits (the nearest such decimal, ties to even); reading
    the text back and rendering it again gives the same text; the raw
    amount 1500000000000000000 is rendered as 1.500000. *)
Theorem price_display_six_digits (raw : Z) :
  0 <= raw <= MAX_WEI ->
  exists (x : number) (n : Z),
    from_wei raw = Ok x
    /\ 2 * Z.abs (raw - n * 10 ^ 12) <= 10 ^ 12
    /\ format_f 6 x
       = str_of_int (n / 10 ^ 6) +:+ "." +:+ fixed_digits 6 (n mod 10 ^ 6)
    /\ decimal_of_string (format_f 6 x) = Some (mkDecimal n 6)
    /\ format_f 6 (NDec (mkDecimal n 6)) = format_f 6 x
    /\ (raw = 1500000000000000000 -> format_f 6 x = "1.500000").
Proof.
  intros Hraw.
  destruct (from_wei_range raw Hraw) as (x & Hx & Hfmt).
  exists x, (round_half_even raw (10 ^ 12)).
  pose proof (round_half_even_nonneg raw (10 ^ 12) ltac:(lia) ltac:(lia))
    as Hn.
  pose proof (format_f6_nonneg raw 18 ltac:(lia) ltac:(lia)) as Hf.
  change (10 ^ Z.of_nat (18 - 6)) with (10 ^ 12) in Hf. cbn zeta in Hf.
  set (n := round_half_even raw (10 ^ 12)) in *.
  assert (Hq : 0 <= n / 10 ^ 6) by (apply Z.div_pos; lia).
  repeat split.
  - exact Hx.
  - apply round_half_even_nearest. lia.
  - by rewrite Hfmt.
  - rewrite Hfmt, Hf, (decimal_of_fixed _ _ 6 Hq).
    change (Z.of_nat 6) with 6. rewrite Z.mod_mod by lia.
    do 2 f_equal. pose proof (Z.div_mod n (10 ^ 6) ltac:(lia)). lia.
  - rewrite Hfmt, Hf.
    pose proof (format_f6_nonneg n 6 Hn ltac:(lia)) as Hf6.
    change (10 ^ Z.of_nat (6 - 6)) with 1 in Hf6. cbn zeta in Hf6.
    by rewrite round_half_even_unit in Hf6.
  - intros ->. rewrite Hfmt. vm_compute. reflexivity.
Qed.

Lemma price_display_six_digits_witness :
  0 <= 1500000000000000000 <= MAX_WEI
  /\ exists x : number,
       from_wei 1500000000000000000 = Ok x
       /\ format_f 6 x = "1.500000"
       /\ decimal_of_string (format_f 6 x) = Some (mkDecimal 1500000 6)
       /\ format_f 6 (NDec (mkDecimal 1500000 6)) = "1.500000".
Proof.
  assert (H : 0 <= 1500000000000000000 <= MAX_WEI)
    by (unfold MAX_WEI; lia).
  split; [exact H |].
  destruct (price_display_six_digits 1500000000000000000 H)
    as (x & n & Hx & _ & _ & _ & _ & Hs).
  exists x. specialize (Hs eq_refl).
  split; [exact Hx |]. split; [exact Hs |].
  rewrite Hs. split; vm_compute; reflexivity.
Defined.

(** * Further properties *)

(** X1.  A receipt made of Transfer logs of the tracked contract (at least
    4 topics, the Transfer signature first, the emitting address equal to
    the contract up to case) yields one bare token id per log, in log
    order, each the big-endian integer of the fourth topic, and no typed
    event. *)
Theorem transfers_yield_token_ids (env : Env) (self : HyperEVMNFTTracker)
    (logs : list Log) :
  Forall (is_contract_transfer env self) logs ->
  extract_token_ids_from_logs env self logs
  = (map (fun l => VInt (transfer_token_id l)) logs, []).
Proof. apply extract_transfers. Qed.

Lemma sample_transfers :
  Forall (is_contract_transfer Sample.env Sample.self)
         [Sample.transfer_7; More.transfer_9].
Proof.
  repeat constructor.
  - exists Sample.transfer_digest, (word 7). by repeat split.
  - exists Sample.transfer_digest, (word 9). by repeat split.
Defined.

Lemma transfers_yield_token_ids_witness :
  Forall (is_contract_transfer Sample.env Sample.self)
         [Sample.transfer_7; More.transfer_9]
  /\ extract_token_ids_from_logs Sample.env Sample.self
       [Sample.transfer_7; More.transfer_9]
     = ([VInt 7; VInt 9], []).
Proof.
  split; [exact sample_transfers |].
  exact (transfers_yield_token_ids Sample.env Sample.self _ sample_transfers).
Defined.

(** X2.  A log without any topic ends the classification of its receipt:
    the result is that of the logs before it, and the logs after it are
    not looked at. *)
Theorem topicless_log_ends_classification (env : Env)
    (self : HyperEVMNFTTracker) (pre post : list Log) (bad : Log) :
  log_topics bad = [] ->
  extract_token_ids_from_logs env self (pre ++ bad :: post)
  = extract_token_ids_from_logs env self pre.
Proof.
  intros H. unfold extract_token_ids_from_logs.
  eapply extract_loop_abort. by apply classify_no_topics.
Qed.

Lemma topicless_log_ends_classification_witness :
  log_topics More.anonymous = []
  /\ extract_token_ids_from_logs Sample.env Sample.self
       [Sample.transfer_7; More.anonymous; More.transfer_9]
     = ([VInt 7], []).
Proof.
  split; [reflexivity |].
  etransitivity;
    [exact (topicless_log_ends_classification Sample.env Sample.self
              [Sample.transfer_7] [More.transfer_9] More.anonymous eq_refl)
    | vm_compute; reflexivity].
Defined.

(** X3.  A log whose first topic is none of the three signatures, or is the
    Transfer signature on a log with fewer than 4 topics or from another
    address, is ignored: the receipt is classified as if it were absent. *)
Theorem foreign_log_is_ignored (env : Env) (self : HyperEVMNFTTracker)
    (pre post : list Log) (log : Log) (t0 : list byte) :
  log_topics log !! 0%nat = Some t0 ->
  hex t0 <> bid_accepted_topic -> hex t0 <> item_sold_topic ->
  (length (log_topics log) < 4)%nat
  \/ hex t0 <> transfer_topic env
  \/ lower (log_address log) <> contract_address self ->
  extract_token_ids_from_logs env self (pre ++ log :: post)
  = extract_token_ids_from_logs env self (pre ++ post).
Proof.
  intros Ht0 Hb Hi Htr. unfold extract_token_ids_from_logs.
  apply extract_loop_skip.
  apply (classify_unrecognised env self log t0 Ht0 Hb Hi).
  by apply (is_transfer_false env self log t0).
Qed.

Lemma foreign_log_is_ignored_witness :
  lower (log_address More.foreign_transfer) <> contract_address Sample.self
  /\ extract_token_ids_from_logs Sample.env Sample.self
       [Sample.transfer_7; More.foreign_transfer; More.transfer_9]
     = ([VInt 7; VInt 9], []).
Proof.
  assert (H : lower (log_address More.foreign_transfer)
              <> contract_address Sample.self) by (vm_compute; discriminate).
  split; [exact H |].
  assert (Hb : hex Sample.transfer_digest <> bid_accepted_topic)
    by (vm_compute; discriminate).
  assert (Hi : hex Sample.transfer_digest <> item_sold_topic)
    by (vm_compute; discriminate).
  etransitivity;
    [exact (foreign_log_is_ignored Sample.env Sample.self
              [Sample.transfer_7] [More.transfer_9] More.foreign_transfer
              Sample.transfer_digest eq_refl Hb Hi
              (or_intror (or_intror H)))
    | vm_compute; reflexivity].
Defined.

(** X4.  Whatever the logs, every entry of [event_details] is named
    ItemSold or BidAccepted and carries an integer token id that is also in
    [token_ids] (an ItemSold entry has no key [bidder]); [event_details] is
    never longer than [token_ids]; and every token id is an integer. *)
Theorem classifier_invariant (env : Env) (self : HyperEVMNFTTracker)
    (logs : list Log) :
  Forall (typed_event (fst (extract_token_ids_from_logs env self logs)))
         (snd (extract_token_ids_from_logs env self logs))
  /\ (length (snd (extract_token_ids_from_logs env self logs))
      <= length (fst (extract_token_ids_from_logs env self logs)))%nat
  /\ Forall (fun v => exists z : Z, v = VInt z)
            (fst (extract_token_ids_from_logs env self logs)).
Proof. apply extract_invariant. Qed.

(** X5.  The emitting address is read only on the Transfer branch: logs
    whose first topic is not the Transfer signature are classified alike
    whichever address emitted them, so ItemSold and BidAccepted logs of any
    contract are reported. *)
Theorem typed_events_from_any_emitter (env : Env) (self : HyperEVMNFTTracker)
    (a : string) (logs : list Log) :
  Forall (fun l => forall t0, log_topics l !! 0%nat = Some t0 ->
                              hex t0 <> transfer_topic env) logs ->
  extract_token_ids_from_logs env self (map (emitted_by a) logs)
  = extract_token_ids_from_logs env self logs.
Proof.
  induction 1 as [| l logs Hl _ IH]; [reflexivity |].
  cbn [map]. rewrite !extract_cons, IH.
  by rewrite (classify_emitted_by env self a l Hl).
Qed.

Lemma typed_events_from_any_emitter_witness :
  Forall (fun l => forall t0, log_topics l !! 0%nat = Some t0 ->
                              hex t0 <> transfer_topic Sample.env)
         [Sample.item_sold_text; Sample.bid_accepted_text]
  /\ extract_token_ids_from_logs Sample.env Sample.self
       (map (emitted_by "0x000000000000000000000000000000000000dEaD")
            [Sample.item_sold_text; Sample.bid_accepted_text])
     = extract_token_ids_from_logs Sample.env Sample.self
         [Sample.item_sold_text; Sample.bid_accepted_text].
Proof.
  assert (H : Forall (fun l => forall t0, log_topics l !! 0%nat = Some t0 ->
                                          hex t0 <> transfer_topic Sample.env)
                     [Sample.item_sold_text; Sample.bid_accepted_text]).
  { repeat constructor; intros t0 [= <-]; vm_compute; discriminate. }
  split; [exact H |].
  exact (typed_events_from_any_emitter Sample.env Sample.self _ _ H).
Defined.

Section ClassifierOrder.

Variable env : Env.
Variable self : HyperEVMNFTTracker.

Lemma record_event_ok (name : string) (r : option (gmap string value)) :
  exists x, record_event name r = Ok x.
Proof.
  destruct r as [d |]; [| by eexists].
  unfold record_event. destruct (has_token_id (Some d)) eqn:H; [| by eexists].
  unfold has_token_id in H. apply andb_true_iff in H as [_ H].
  apply bool_decide_eq_true_1 in H as [v Hv].
  unfold getitem. rewrite Hv. by eexists.
Qed.

(** With a first topic, and no empty topic, the loop body does not raise. *)
Lemma classify_log_ok (log : Log) :
  log_topics log <> [] -> Forall (fun t => t <> []) (log_topics log) ->
  exists r, classify_log env self log = Ok r.
Proof.
  intros Hne Hall. unfold classify_log.
  destruct (log_topics log) as [| t0 ts] eqn:Ht; [done |].
  assert (Htr : exists b, is_transfer env self log = Ok b).
  { unfold is_transfer. rewrite Ht. destruct (4 <=? _)%nat; [| by eexists].
    cbn [index lookup list_lookup Py.bind].
    destruct (String.eqb _ _); by eexists. }
  destruct Htr as [[|] Htr]; rewrite Htr; cbn [Py.bind].
  - apply is_transfer_true in Htr as (Hlen & _).
    rewrite Ht in *.
    destruct ((t0 :: ts) !! 3%nat) as [t3 |] eqn:H3;
      [| apply lookup_ge_None in H3; lia].
    rewrite (index_lookup _ _ _ H3). cbn [Py.bind]. rewrite int16_hex.
    rewrite Forall_forall in Hall.
    assert (t3 <> []) by (apply Hall; by eapply list_elem_of_lookup_2).
    destruct t3; [done | by eexists].
  - unfold classify_event. rewrite Ht.
    cbn [index lookup list_lookup Py.bind].
    destruct (String.eqb _ _); [apply record_event_ok |].
    destruct (String.eqb _ _); [apply record_event_ok | by eexists].
Qed.

End ClassifierOrder.

(** X6.  Classification follows log order: when every log of a first
    part of a receipt has a first topic and no empty topic, the token ids
    and the events of the whole receipt are those of the first part
    followed by those of the rest. *)
Theorem classification_follows_log_order (env : Env)
    (self : HyperEVMNFTTracker) (l1 l2 : list Log) :
  Forall (fun l => log_topics l <> []
                   /\ Forall (fun t => t <> []) (log_topics l)) l1 ->
  extract_token_ids_from_logs env self (l1 ++ l2)
  = (fst (extract_token_ids_from_logs env self l1)
       ++ fst (extract_token_ids_from_logs env self l2),
     snd (extract_token_ids_from_logs env self l1)
       ++ snd (extract_token_ids_from_logs env self l2)).
Proof.
  induction 1 as [| l l1 [Hne Hall] _ IH].
  - cbn [app]. by destruct (extract_token_ids_from_logs env self l2).
  - cbn [app]. rewrite !extract_cons, IH.
    destruct (classify_log_ok env self l Hne Hall) as [[i e] ->].
    cbn [fst snd]. by rewrite !app_assoc.
Qed.

Lemma classification_follows_log_order_witness :
  Forall (fun l => log_topics l <> []
                   /\ Forall (fun t => t <> []) (log_topics l))
         [Sample.transfer_7; Sample.bid_accepted_7]
  /\ fst (extract_token_ids_from_logs Sample.env Sample.self
            ([Sample.transfer_7; Sample.bid_accepted_7] ++ [More.transfer_9]))
     = [VInt 7; VInt 9].
Proof.
  assert (H : Forall (fun l => log_topics l <> []
                               /\ Forall (fun t => t <> []) (log_topics l))
                     [Sample.transfer_7; Sample.bid_accepted_7])
    by (repeat constructor; discriminate).
  split; [exact H |].
  rewrite (classification_follows_log_order Sample.env Sample.self _ _ H).
  vm_compute. reflexivity.
Defined.

(** ** The handler and the senders *)

Section HandlerFacts.

Variable env : Env.

Lemma for_each_silent {A : Type} (l : list A) (body : A -> eff unit) :
  Forall (fun x => body x = ([], Ok tt)) l -> for_each l body = ([], Ok tt).
Proof.
  induction 1 as [| x l Hx _ IH]; [reflexivity |].
  cbn [for_each]. by rewrite Hx, IH.
Qed.

(** A typed event with a non-zero token id, or any ItemSold event, makes
    its sender raise before the bot is called. *)
Lemma typed_event_silent (ids : list value)
    (ev : string * gmap string value) (h : string) (g : Z) (c : number)
    (b : Z) :
  typed_event ids ev ->
  (fst ev = "BidAccepted" -> snd ev !! "tokenId" <> Some (VInt 0)) ->
  (let (event_type, event_data) := ev in
   if String.eqb event_type "ItemSold"
   then await (send_item_sold_notification env event_data h g c b)
   else if String.eqb event_type "BidAccepted"
   then await (send_bid_accepted_notification env event_data h g c b)
   else eret tt)
  = ([], Ok tt).
Proof.
  destruct ev as [name d]. unfold typed_event. cbn [fst snd].
  intros [[[-> Hb] | ->] (z & Hz & _)] Hnz.
  - cbn [String.eqb Ascii.eqb Bool.eqb]. cbn.
    by rewrite (send_item_sold_silent env d h g c b Hb).
  - change (String.eqb "BidAccepted" "ItemSold") with false.
    change (String.eqb "BidAccepted" "BidAccepted") with true. cbn iota.
    rewrite (send_bid_accepted_silent env d z h g c b Hz); [reflexivity |].
    intros ->. by apply Hnz.
Qed.

End HandlerFacts.

(** X7.  When the classification of a receipt yields at least one typed
    event and no BidAccepted event has token id 0, the handler hands the
    bot nothing at all: every sender raises while building its text, and
    the generic notification is not sent because typed events exist. *)
Theorem typed_events_silence_transaction (env : Env)
    (self : HyperEVMNFTTracker) (tx : Transaction) (receipt : Receipt)
    (b : Z) :
  snd (extract_token_ids_from_logs env self (receipt_logs receipt)) <> [] ->
  Forall (fun ev => fst ev = "BidAccepted" ->
                    snd ev !! "tokenId" <> Some (VInt 0))
         (snd (extract_token_ids_from_logs env self (receipt_logs receipt))) ->
  handle_nft_transaction env self tx receipt b = [].
Proof.
  intros Hne Hnz. unfold handle_nft_transaction, attempt.
  rewrite attempt_lift. destruct (from_wei _) as [gas |]; [| reflexivity].
  destruct (extract_invariant env self (receipt_logs receipt)) as (Hty & _).
  destruct (extract_token_ids_from_logs env self (receipt_logs receipt))
    as [ids events].
  cbn [fst snd] in *.
  rewrite attempt_lift.
  destruct (if 0 <? tx_value tx then _ else _) as [price |]; [| reflexivity].
  rewrite for_each_silent.
  - destruct events; [done | reflexivity].
  - apply Forall_forall. intros ev Hev.
    rewrite Forall_forall in Hty, Hnz.
    apply (typed_event_silent env ids ev); [by apply Hty | by apply Hnz].
Qed.

Lemma typed_events_silence_transaction_witness :
  map fst (snd (extract_token_ids_from_logs Sample.env Sample.self
                  (receipt_logs Sample.receipt_sales)))
  = ["ItemSold"; "BidAccepted"]
  /\ handle_nft_transaction Sample.env Sample.self Sample.tx_sales
       Sample.receipt_sales 11 = [].
Proof.
  split; [vm_compute; reflexivity |].
  apply typed_events_silence_transaction.
  - intros H. apply (f_equal (@length _)) in H. vm_compute in H.
    discriminate H.
  - apply Forall_forall. intros ev Hev.
    apply list_elem_of_In in Hev.
    assert (Hall : forallb (fun ev : string * gmap string value =>
                     negb (String.eqb (fst ev) "BidAccepted")
                     || match snd ev !! "tokenId" with
                        | Some (VInt 0) => false
                        | _ => true
                        end)
                     (snd (extract_token_ids_from_logs Sample.env Sample.self
                             (receipt_logs Sample.receipt_sales))) = true)
      by (vm_compute; reflexivity).
    rewrite forallb_forall in Hall. specialize (Hall ev Hev).
    intros Hname Hz. rewrite Hname, Hz in Hall. discriminate Hall.
Defined.

(** X8.  A BidAccepted event whose decoded token id is 0 is announced, with
    the token shown as Unknown: its sender hands the bot one message with
    the decoded price over [10 ^ 18], the seller of topic 3 (or the
    sentinel) and the bidder of topic 1. *)
Theorem zero_token_bid_is_unknown (env : Env) (log : Log)
    (d : gmap string value) (p : Z) (h : string) (g : Z) (c : number)
    (b : Z) :
  decode_bid_accepted_event log = Some d ->
  d !! "tokenId" = Some (VInt 0) ->
  d !! "pricePerItem" = Some (VInt p) ->
  0 <= p <= MAX_WEI ->
  exists t1 : list byte,
    log_topics log !! 1%nat = Some t1
    /\ send_bid_accepted_notification env d h g c b
       = [SendMessage (CHAT_ID env)
            ("
PiP & Friends Unknown was bought for "
             +:+ format_f 6 (NDec (mkDecimal p 18)) +:+ " HYPE

from: '" +:+ topic_address (log_topics log !! 3%nat) +:+ "'
to: '" +:+ hex (drop 12 t1) +:+ "'
            ")
            "Markdown"].
Proof.
  intros Hdec Hid Hp Hr.
  destruct (decode_bid_accepted_inv log d Hdec)
    as (w2 & w7 & t1 & Ht1 & _ & _ & Hbidder & Hseller).
  exists t1. split; [exact Ht1 |].
  destruct (from_wei_range p Hr) as (x & Hx & Hfmt).
  unfold send_bid_accepted_notification, attempt.
  rewrite attempt_lift. unfold getitem at 1. rewrite Hp.
  rewrite attempt_lift. cbn [from_wei_value]. rewrite Hx.
  rewrite attempt_lift, (token_id_field_int d 0 Hid). cbn [Z.eqb].
  rewrite attempt_lift. unfold getitem at 1. rewrite Hseller.
  rewrite attempt_lift. unfold getitem at 1. rewrite Hbidder.
  cbn [bot_send perform fst Py.str]. by rewrite Hfmt.
Qed.

Lemma zero_token_bid_is_unknown_witness :
  exists d : gmap string value,
    decode_bid_accepted_event More.bid_accepted_0 = Some d
    /\ d !! "tokenId" = Some (VInt 0)
    /\ d !! "pricePerItem" = Some (VInt 1500000000000000000)
    /\ send_bid_accepted_notification Sample.env d "0x" 0 (NInt 0) 11
       = [SendMessage "-1001234567890"
            "
PiP & Friends Unknown was bought for 1.500000 HYPE

from: '0xcccccccccccccccccccccccccccccccccccccccc'
to: '0xaaaaaaaaaaaaaaaaaaaaaaaaaaaaaaaaaaaaaaaa'
            "
            "Markdown"].
Proof.
  destruct (decode_bid_accepted_text More.bid_accepted_0
              More.bid_words_0 1 1500000000000000000 1 0
              (address_topic Sample.buyer) (address_topic Sample.nft))
    as (d & Hd & _ & Hp & _ & Hid & _);
    try reflexivity; try (unfold uint256; lia).
  exists d. split; [exact Hd |]. split; [exact Hid |]. split; [exact Hp |].
  assert (Hmax : 1500000000000000000 <= MAX_WEI)
    by (vm_compute; discriminate).
  destruct (zero_token_bid_is_unknown Sample.env More.bid_accepted_0 d
              1500000000000000000 "0x" 0 (NInt 0) 11 Hd Hid Hp
              ltac:(lia))
    as (t1 & Ht1 & Hs).
  injection Ht1 as <-. rewrite Hs. vm_compute. reflexivity.
Defined.

(** X9.  A transaction whose receipt holds only Transfer logs of the
    tracked contract, at least one, is announced by exactly one message
    that lists all the token ids in log order, separated by a comma and a
    space, with the transaction's value as price, its sender as seller and
    its recipient as buyer. *)
Theorem transfers_announced_together (env : Env) (self : HyperEVMNFTTracker)
    (tx : Transaction) (receipt : Receipt) (b : Z) :
  receipt_logs receipt <> [] ->
  Forall (is_contract_transfer env self) (receipt_logs receipt) ->
  0 <= receipt_gasUsed receipt * tx_gasPrice tx <= MAX_WEI ->
  0 <= tx_value tx <= MAX_WEI ->
  handle_nft_transaction env self tx receipt b
  = [SendMessage (CHAT_ID env)
       ("
PiP & Friends "
        +:+ join ", " (map (fun l => str_of_int (transfer_token_id l))
                           (receipt_logs receipt))
        +:+ " was bought for "
        +:+ format_f 6 (NDec (mkDecimal (tx_value tx) 18)) +:+ " HYPE

from: '" +:+ tx_from tx +:+ "'
to: '" +:+ str_opt (tx_to tx) +:+ "'
            ")
       "Markdown"].
Proof.
  intros Hne Htr Hgas Hval.
  rewrite (handle_generic env self tx receipt b _
             (extract_transfers env self _ Htr)); [| | done | done].
  - by rewrite map_map.
  - destruct (receipt_logs receipt); done.
Qed.

Lemma transfers_announced_together_witness :
  Forall (is_contract_transfer Sample.env Sample.self)
         (receipt_logs More.receipt_two_transfers)
  /\ handle_nft_transaction Sample.env Sample.self More.tx_two_transfers
       More.receipt_two_transfers 11
     = [SendMessage "-1001234567890"
          "
PiP & Friends 7, 9 was bought for 2.500000 HYPE

from: '0x1111111111111111111111111111111111111111'
to: '0xb6c73F6c09f850651DCb6D62a4D3A7F25e0016C4'
            "
          "Markdown"].
Proof.
  split; [exact sample_transfers |].
  assert (Hmax : 2500000000000000000 <= MAX_WEI)
    by (vm_compute; discriminate).
  etransitivity;
    [exact (transfers_announced_together Sample.env Sample.self
              More.tx_two_transfers More.receipt_two_transfers 11
              ltac:(discriminate) sample_transfers
              ltac:(cbn; lia) ltac:(cbn; lia))
    | vm_compute; reflexivity].
Defined.

(** X10.  The guard of [decode_bid_accepted_event] counts a partial last
    chunk: a payload of 2 bytes, 7 chunks of 64 bytes and 1 to 64 more
    bytes has 8 chunks, and when chunks 0, 2 and 3 and the trailing bytes
    are numerals it is decoded, the token id being the numeral that the
    trailing bytes alone spell. *)
Theorem partial_last_chunk_is_read (log : Log) (head : list byte)
    (cs : list (list byte)) (tail c0 c2 c3 : list byte)
    (w0 w2 w3 w7 : Z) (t1 t2 : list byte) :
  log_data log = head ++ concat cs ++ tail ->
  length head = 2%nat -> length cs = 7%nat ->
  Forall (fun c => length c = 64%nat) cs ->
  tail <> [] -> (length tail <= 64)%nat ->
  cs !! 0%nat = Some c0 -> cs !! 2%nat = Some c2 -> cs !! 3%nat = Some c3 ->
  int16_bytes c0 = Ok w0 -> int16_bytes c2 = Ok w2 ->
  int16_bytes c3 = Ok w3 -> int16_bytes tail = Ok w7 ->
  log_topics log !! 1%nat = Some t1 -> log_topics log !! 2%nat = Some t2 ->
  payload_chunks log = 8%nat
  /\ exists d : gmap string value,
       decode_bid_accepted_event log = Some d
       /\ d !! "tokenId" = Some (VInt w7)
       /\ d !! "bidType" = Some (VInt w0)
       /\ d !! "pricePerItem" = Some (VInt w2)
       /\ d !! "quantity" = Some (VInt w3).
Proof.
  intros Hd Hhead Hlen Hcs Hne Htail H0 H2 H3 I0 I2 I3 I7 Ht1 Ht2.
  assert (Hch : Py.chunks (drop 2 (log_data log)) = cs ++ [tail]).
  { rewrite Hd, drop_app_length' by done.
    rewrite (chunks_concat cs tail Hcs Htail). by destruct tail. }
  split; [unfold payload_chunks; rewrite Hch, length_app, Hlen; reflexivity |].
  destruct (decode_bid_accepted_chunks log c0 c2 c3 tail w0 w2 w3 w7 t1 t2)
    as (d & Hdec & Hb & Hp & Hq & Hid & _); try done;
    try (rewrite Hch; by apply lookup_app_l_Some).
  - rewrite Hch, lookup_app_r by lia. by rewrite Hlen.
  - exists d. by repeat split.
Qed.

Lemma partial_last_chunk_is_read_witness :
  log_data More.bid_accepted_partial
  = list_byte_of_string "0x"
    ++ concat (map numeral (take 7 Sample.bid_words))
    ++ list_byte_of_string "2a"
  /\ payload_chunks More.bid_accepted_partial = 8%nat
  /\ exists d : gmap string value,
       decode_bid_accepted_event More.bid_accepted_partial = Some d
       /\ d !! "tokenId" = Some (VInt 42).
Proof.
  assert (Hd : log_data More.bid_accepted_partial
               = list_byte_of_string "0x"
                 ++ concat (map numeral (take 7 Sample.bid_words))
                 ++ list_byte_of_string "2a")
    by (vm_compute; reflexivity).
  split; [exact Hd |].
  assert (Hcs : Forall (fun c : list byte => length c = 64%nat)
                       (map numeral (take 7 Sample.bid_words)))
    by (repeat constructor).
  destruct (partial_last_chunk_is_read More.bid_accepted_partial
              (list_byte_of_string "0x")
              (map numeral (take 7 Sample.bid_words))
              (list_byte_of_string "2a")
              (numeral 1) (numeral 1500000000000000000) (numeral 1)
              1 1500000000000000000 1 42
              (address_topic Sample.buyer) (address_topic Sample.nft)
              Hd eq_refl eq_refl Hcs ltac:(discriminate) ltac:(cbn; lia)
              eq_refl eq_refl eq_refl
              ltac:(vm_compute; reflexivity) ltac:(vm_compute; reflexivity)
              ltac:(vm_compute; reflexivity) ltac:(vm_compute; reflexivity)
              eq_refl eq_refl)
    as (Hn & d & Hdec & Hid & _).
  split; [exact Hn |]. exists d. split; [exact Hdec | exact Hid].
Defined.

(** X11.  A dictionary returned by a decoder always has the same keys:
    the 8 keys of a bid, or the 7 keys of a sale, which has [buyer] and no
    [bidder]; and its payment token is always the literal WHYPE. *)
Theorem decoded_event_keys (log : Log) (d : gmap string value) :
  (decode_bid_accepted_event log = Some d ->
   dom d = bid_accepted_keys /\ d !! "paymentToken" = Some (VStr "WHYPE"))
  /\ (decode_item_sold_event log = Some d ->
      dom d = item_sold_keys /\ d !! "paymentToken" = Some (VStr "WHYPE")).
Proof.
  split.
  - unfold decode_bid_accepted_event.
    destruct (8 <=? _)%nat; [| done].
    repeat match goal with
           | |- context [Py.bind ?m _] =>
               destruct m; cbn [Py.bind try_or_none]; [| done]
           end.
    intros [= <-]. split.
    + rewrite !dom_insert_L, dom_empty_L. unfold bid_accepted_keys.
      set_solver.
    + repeat (rewrite lookup_insert_ne by done). by rewrite lookup_insert_eq.
  - unfold decode_item_sold_event.
    destruct (6 <=? _)%nat; [| done].
    rewrite !optional_topic. cbn [Py.bind].
    repeat match goal with
           | |- context [Py.bind ?m _] =>
               destruct m; cbn [Py.bind try_or_none]; [| done]
           end.
    intros [= <-]. split.
    + rewrite !dom_insert_L, dom_empty_L. unfold item_sold_keys.
      set_solver.
    + repeat (rewrite lookup_insert_ne by done). by rewrite lookup_insert_eq.
Qed.

Lemma decoded_event_keys_witness :
  exists d d' : gmap string value,
    decode_bid_accepted_event Sample.bid_accepted_text = Some d
    /\ dom d = bid_accepted_keys
    /\ decode_item_sold_event Sample.item_sold_text = Some d'
    /\ dom d' = item_sold_keys.
Proof.
  destruct (decode_bid_accepted_text Sample.bid_accepted_text
              Sample.bid_words 1 1500000000000000000 1 7
              (address_topic Sample.buyer) (address_topic Sample.nft))
    as (d & Hd & _);
    try reflexivity; try (unfold uint256; lia).
  destruct (decode_item_sold_text Sample.item_sold_text
              Sample.sale_words 2000000000000000000 1 42)
    as (d' & Hd' & _);
    try reflexivity; try (cbn; lia); try (unfold uint256; lia).
  exists d, d'.
  exact (conj Hd
           (conj (proj1 (proj1 (decoded_event_keys Sample.bid_accepted_text d)
                           Hd))
              (conj Hd'
                 (proj1 (proj2 (decoded_event_keys Sample.item_sold_text d')
                           Hd'))))).
Defined.

(** X12.  A decoder returns nothing when one of the chunks it reads is not
    a hexadecimal numeral: chunks 0, 2, 3 and 7 for a bid, chunks 0, 1 and
    2 for a sale. *)
Theorem malformed_word_is_rejected (log : Log) (k : nat) (c : list byte)
    (e : exn) :
  Py.chunks (drop 2 (log_data log)) !! k = Some c ->
  int16_bytes c = Raise e ->
  (k = 0%nat \/ k = 2%nat \/ k = 3%nat \/ k = 7%nat ->
   decode_bid_accepted_event log = None)
  /\ (k = 0%nat \/ k = 1%nat \/ k = 2%nat ->
      decode_item_sold_event log = None).
Proof.
  intros Hk Hi.
  assert (Hidx : index (Py.chunks (drop 2 (log_data log))) k = Ok c)
    by (by apply index_lookup).
  split; intros Hcase.
  - unfold decode_bid_accepted_event.
    destruct (8 <=? _)%nat; [| reflexivity].
    destruct Hcase as [-> | [-> | [-> | ->]]];
      repeat first
        [ rewrite Hidx; cbn [Py.bind]; rewrite Hi; reflexivity
        | match goal with
          | |- context [Py.bind (index ?l ?i) _] =>
              destruct (index l i); cbn [Py.bind try_or_none];
              [| reflexivity]
          end
        | match goal with
          | |- context [Py.bind (int16_bytes ?s) _] =>
              destruct (int16_bytes s); cbn [Py.bind try_or_none];
              [| reflexivity]
          end ].
  - unfold decode_item_sold_event.
    destruct (6 <=? _)%nat; [| reflexivity].
    rewrite !optional_topic. cbn [Py.bind].
    destruct Hcase as [-> | [-> | ->]];
      repeat first
        [ rewrite Hidx; cbn [Py.bind]; rewrite Hi; reflexivity
        | match goal with
          | |- context [Py.bind (index ?l ?i) _] =>
              destruct (index l i); cbn [Py.bind try_or_none];
              [| reflexivity]
          end
        | match goal with
          | |- context [Py.bind (int16_bytes ?s) _] =>
              destruct (int16_bytes s); cbn [Py.bind try_or_none];
              [| reflexivity]
          end ].
Qed.

Lemma malformed_word_is_rejected_witness :
  int16_bytes (list_byte_of_string More.not_hex) = Raise ValueError
  /\ payload_chunks More.bid_accepted_not_hex = 8%nat
  /\ decode_bid_accepted_event More.bid_accepted_not_hex = None.
Proof.
  assert (Hi : int16_bytes (list_byte_of_string More.not_hex)
               = Raise ValueError)
    by (vm_compute; reflexivity).
  assert (Hk : Py.chunks (drop 2 (log_data More.bid_accepted_not_hex))
               !! 2%nat = Some (list_byte_of_string More.not_hex))
    by (vm_compute; reflexivity).
  split; [exact Hi |]. split; [vm_compute; reflexivity |].
  exact (proj1 (malformed_word_is_rejected More.bid_accepted_not_hex 2
                  (list_byte_of_string More.not_hex) ValueError Hk Hi)
           (or_intror (or_introl eq_refl))).
Defined.

(** ** The polling loop *)

Lemma range_app (a b c : Z) :
  a <= b <= c -> range a b ++ range b c = range a c.
Proof.
  intros H. unfold range.
  replace (c - a) with ((b - a) + (c - b)) by lia.
  rewrite seqZ_app by lia. do 2 f_equal. lia.
Qed.

Lemma track_cons (env : Env) (envs : list Env) (self : HyperEVMNFTTracker) :
  track_transactions (env :: envs) self
  = (fst (poll_cycle env self)
       ++ fst (track_transactions envs (snd (poll_cycle env self))),
     snd (track_transactions envs (snd (poll_cycle env self)))).
Proof.
  cbn [track_transactions]. destruct (poll_cycle env self) as [t s].
  cbn [fst snd]. by destruct (track_transactions envs s).
Qed.

Lemma track_contiguous (envs : list Env) (self : HyperEVMNFTTracker) :
  heads_ascend envs (last_processed_block self) ->
  last_processed_block self
  <= last_processed_block (snd (track_transactions envs self))
  /\ heights (fst (track_transactions envs self))
     = range (last_processed_block self + 1)
             (last_processed_block (snd (track_transactions envs self)) + 1).
Proof.
  revert self. induction envs as [| env envs IH]; intros self Hasc.
  - cbn [track_transactions fst snd heights omap]. split; [lia |].
    unfold range. by rewrite seqZ_nil by lia.
  - rewrite track_cons. cbn [fst snd]. rewrite heights_app.
    rewrite heights_poll_cycle. cbn [heads_ascend] in Hasc.
    destruct (block_number env) as [h | e] eqn:Hb.
    + destruct Hasc as [Hle Hasc].
      rewrite (poll_cycle_ok env self h Hb). cbn [snd].
      destruct (IH {| contract_address := contract_address self;
                      last_processed_block := h |} Hasc) as [Hc Hh].
      cbn [last_processed_block] in Hc, Hh. rewrite Hh.
      split; [lia |]. apply range_app. lia.
    + rewrite (poll_cycle_error env self e Hb). cbn [snd app].
      by apply IH.
Qed.

Lemma no_backfill (envs : list Env) (self : HyperEVMNFTTracker) :
  heads_ascend envs (last_processed_block self) ->
  heights (fst (track_transactions envs self))
  = range (last_processed_block self + 1)
          (last_processed_block (snd (track_transactions envs self)) + 1).
Proof. intros H. by apply track_contiguous. Qed.

(** X13.  Over any number of cycles in which every observed head is at or
    above the cursor it meets, failed head readings included, the heights
    on which a block is read are exactly those from the starting cursor
    plus one to the final cursor, in order: none is skipped, none
    repeated. *)
Theorem no_height_skipped (envs : list Env) (self : HyperEVMNFTTracker) :
  heads_ascend envs (last_processed_block self) ->
  heights (fst (track_transactions envs self))
  = range (last_processed_block self + 1)
          (last_processed_block (snd (track_transactions envs self)) + 1).
Proof. intros H. by apply track_contiguous. Qed.

Lemma no_height_skipped_witness :
  let envs := [Sample.env_at (Ok 10); Sample.env_at (Raise ConnectionError);
               Sample.env_at (Ok 10); Sample.env_at (Ok 13)] in
  heads_ascend envs 8
  /\ heights (fst (track_transactions envs (init 8))) = [9; 10; 11; 12; 13].
Proof.
  assert (H : heads_ascend
                [Sample.env_at (Ok 10); Sample.env_at (Raise ConnectionError);
                 Sample.env_at (Ok 10); Sample.env_at (Ok 13)] 8)
    by (cbn; lia).
  split; [exact H |].
  etransitivity; [exact (no_height_skipped _ (init 8) H) |].
  vm_compute. reflexivity.
Defined.

Section CallFacts.

Variable env : Env.
Variable self : HyperEVMNFTTracker.

Lemma sleeps_app (t t' : list call) : sleeps (t ++ t') = sleeps t ++ sleeps t'.
Proof. apply omap_app. Qed.

Lemma sleeps_notifications (t : list call) :
  Forall is_notification t -> sleeps t = [].
Proof.
  induction 1 as [| c t Hc _ IH]; [reflexivity |]. destruct c; done.
Qed.

Lemma sleeps_analyze (tx : Transaction) (b : Z) :
  sleeps (analyze_transaction env self tx b) = [].
Proof.
  destruct (analyze_calls env self tx b) as (rest & -> & Hrest).
  change (sleeps (GetReceipt (tx_hash tx) :: rest)) with (sleeps rest).
  by apply sleeps_notifications.
Qed.

Lemma sleeps_process_block (b : Z) : sleeps (process_block env self b) = [].
Proof.
  destruct (get_block env b) as [txs | e] eqn:Hb.
  - rewrite (process_block_calls _ _ _ _ Hb).
    change (sleeps (GetBlock b :: ?t)) with (sleeps t).
    induction (List.filter (addressed_to_contract self) txs) as [| tx l IH];
      [reflexivity |].
    cbn [map concat]. by rewrite sleeps_app, IH, sleeps_analyze.
  - by rewrite (process_block_error _ _ _ _ Hb).
Qed.

Lemma sleeps_blocks (l : list Z) :
  sleeps (concat (map (process_block env self) l)) = [].
Proof.
  induction l as [| b l IH]; [reflexivity |].
  cbn [map concat]. by rewrite sleeps_app, IH, sleeps_process_block.
Qed.

Lemma sleeps_poll_cycle :
  sleeps (fst (poll_cycle env self))
  = [match block_number env with Ok _ => 5 | Raise _ => 15 end].
Proof.
  destruct (block_number env) as [h | e] eqn:H.
  - rewrite (poll_cycle_ok _ _ _ H). cbn [fst].
    change (sleeps (BlockNumber :: ?t)) with (sleeps t).
    by rewrite sleeps_app, sleeps_blocks.
  - by rewrite (poll_cycle_error _ _ _ H).
Qed.

(** The fetched receipts of one analysis. *)
Lemma analyzed_analyze (tx : Transaction) (b : Z) :
  analyzed (analyze_transaction env self tx b) = [tx_hash tx].
Proof.
  destruct (analyze_calls env self tx b) as (rest & -> & Hrest).
  change (analyzed (GetReceipt (tx_hash tx) :: rest))
    with (tx_hash tx :: analyzed rest).
  f_equal. induction Hrest as [| c t Hc _ IH]; [reflexivity |].
  destruct c; done.
Qed.

Lemma analyzed_app (t t' : list call) :
  analyzed (t ++ t') = analyzed t ++ analyzed t'.
Proof. apply omap_app. Qed.

(** Where the messages go. *)
Lemma sent_to_bind {A B : Type} (m : eff A) (f : A -> eff B) :
  Forall (sent_to (CHAT_ID env)) (fst m) ->
  (forall a, Forall (sent_to (CHAT_ID env)) (fst (f a))) ->
  Forall (sent_to (CHAT_ID env)) (fst (ebind m f)).
Proof. apply Forall_ebind. Qed.

Lemma sent_to_item_sold d h g c b :
  Forall (sent_to (CHAT_ID env)) (send_item_sold_notification env d h g c b).
Proof.
  unfold send_item_sold_notification, attempt.
  repeat (apply sent_to_bind; [constructor | intros ?]).
  by repeat constructor.
Qed.

Lemma sent_to_bid_accepted d h g c b :
  Forall (sent_to (CHAT_ID env))
         (send_bid_accepted_notification env d h g c b).
Proof.
  unfold send_bid_accepted_notification, attempt.
  repeat (apply sent_to_bind; [constructor | intros ?]).
  by repeat constructor.
Qed.

Lemma sent_to_handle (tx : Transaction) (receipt : Receipt) (b : Z) :
  Forall (sent_to (CHAT_ID env)) (handle_nft_transaction env self tx receipt b).
Proof.
  unfold handle_nft_transaction, attempt.
  apply sent_to_bind; [constructor | intros gas].
  destruct (extract_token_ids_from_logs env self (receipt_logs receipt))
    as [ids events].
  apply sent_to_bind; [constructor | intros price].
  apply sent_to_bind.
  - apply Forall_for_each. intros [name d].
    destruct (String.eqb name "ItemSold"); [apply sent_to_item_sold |].
    destruct (String.eqb name "BidAccepted");
      [apply sent_to_bid_accepted | constructor].
  - intros _. destruct events; [| constructor].
    destruct ids; [constructor |].
    cbn [await fst]. rewrite send_generic_notification_calls.
    by repeat constructor.
Qed.

Lemma sent_to_analyze (tx : Transaction) (b : Z) :
  Forall (sent_to (CHAT_ID env)) (analyze_transaction env self tx b).
Proof.
  unfold analyze_transaction, attempt.
  apply sent_to_bind; [by repeat constructor | intros r].
  destruct (negb _); [constructor |].
  destruct (_ && _); [apply sent_to_handle | constructor].
Qed.

Lemma sent_to_process_block (b : Z) :
  Forall (sent_to (CHAT_ID env)) (process_block env self b).
Proof.
  unfold process_block, attempt.
  apply sent_to_bind; [by repeat constructor | intros txs].
  apply Forall_for_each. intros tx.
  destruct (addressed_to_contract self tx);
    [apply sent_to_analyze | constructor].
Qed.

End CallFacts.

(** X14.  Every iteration of the loop ends with exactly one pause: 5
    seconds after a cycle that read the head, 15 seconds after one that
    could not; nothing else in a cycle sleeps. *)
Theorem one_pause_per_cycle (envs : list Env) (self : HyperEVMNFTTracker) :
  sleeps (fst (track_transactions envs self))
  = map (fun env => match block_number env with
                    | Ok _ => 5
                    | Raise _ => 15
                    end) envs.
Proof.
  revert self. induction envs as [| env envs IH]; intros self; [reflexivity |].
  rewrite track_cons. cbn [fst map].
  by rewrite sleeps_app, sleeps_poll_cycle, IH.
Qed.

(** X15.  Every message of a cycle is handed to the bot for the configured
    [CHAT_ID] and as Markdown: no other destination is ever used. *)
Theorem messages_go_to_chat_id (env : Env) (self : HyperEVMNFTTracker) :
  Forall (sent_to (CHAT_ID env)) (fst (poll_cycle env self)).
Proof.
  destruct (block_number env) as [h | e] eqn:H.
  - rewrite (poll_cycle_ok _ _ _ H). cbn [fst].
    constructor; [done |]. apply Forall_app. split; [| by repeat constructor].
    induction (range _ _) as [| b l IH]; [constructor |].
    cbn [map concat]. apply Forall_app. split; [| exact IH].
    apply sent_to_process_block.
  - rewrite (poll_cycle_error _ _ _ H). by repeat constructor.
Qed.

(** X16.  In a block that could be read, the receipt of every transaction
    addressed to the contract is fetched once, in block order, whatever
    happened to the transactions before it; in a block that could not be
    read, none is. *)
Theorem every_addressed_receipt_fetched (env : Env)
    (self : HyperEVMNFTTracker) (b : Z) :
  analyzed (process_block env self b)
  = match get_block env b with
    | Ok txs => map tx_hash (List.filter (addressed_to_contract self) txs)
    | Raise _ => []
    end.
Proof.
  destruct (get_block env b) as [txs | e] eqn:Hb.
  - rewrite (process_block_calls _ _ _ _ Hb).
    change (analyzed (GetBlock b :: ?t)) with (analyzed t).
    induction (List.filter (addressed_to_contract self) txs) as [| tx l IH];
      [reflexivity |].
    cbn [map concat]. by rewrite analyzed_app, IH, analyzed_analyze.
  - by rewrite (process_block_error _ _ _ _ Hb).
Qed.

Lemma lower_length (s : string) : String.length (lower s) = String.length s.
Proof.
  induction s as [| c s IH]; [reflexivity |].
  cbn [lower String.length]. by rewrite IH.
Qed.

(** X17.  The match on the to-address ignores case: two transactions whose
    to-addresses are equal once lower-cased are both analyzed or both left
    out, and any casing of [CONTRACT_ADDRESS] qualifies for a tracker
    built by [__init__]. *)
Theorem addressing_ignores_case (self : HyperEVMNFTTracker)
    (tx tx' : Transaction) (a a' : string) :
  tx_to tx = Some a -> tx_to tx' = Some a' -> lower a = lower a' ->
  addressed_to_contract self tx = addressed_to_contract self tx'
  /\ (lower a = lower CONTRACT_ADDRESS ->
      forall head : Z, addressed_to_contract (init head) tx = true).
Proof.
  intros Ht Ht' Heq. unfold addressed_to_contract. rewrite Ht, Ht'.
  split.
  - rewrite Heq. by rewrite <- (lower_length a), <- (lower_length a'), Heq.
  - intros Hc head. cbn [init contract_address].
    rewrite Hc, String.eqb_refl, <- (lower_length a), Hc. reflexivity.
Qed.

Lemma addressing_ignores_case_witness :
  lower "0XB6C73F6C09F850651DCB6D62A4D3A7F25E0016C4" = lower CONTRACT_ADDRESS
  /\ addressed_to_contract Sample.self More.tx_upper
     = addressed_to_contract Sample.self Sample.tx_transfer
  /\ addressed_to_contract (init 10) More.tx_upper = true.
Proof.
  assert (H : lower "0XB6C73F6C09F850651DCB6D62A4D3A7F25E0016C4"
              = lower CONTRACT_ADDRESS) by (vm_compute; reflexivity).
  destruct (addressing_ignores_case Sample.self More.tx_upper
              Sample.tx_transfer _ _ eq_refl eq_refl H) as [H1 H2].
  exact (conj H (conj H1 (H2 H 10))).
Defined.

(** ** The transaction type and the startup *)

Lemma kind_of_events_cases (events : list (string * gmap string value)) :
  kind_of_events events = None
  \/ kind_of_events events = Some "buyItems"
  \/ kind_of_events events = Some "acceptBids".
Proof.
  induction events as [| [name d] events IH]; [by left |].
  cbn [kind_of_events].
  destruct (String.eqb name "ItemSold"); [by right; left |].
  destruct (String.eqb name "BidAccepted"); [by right; right | exact IH].
Qed.

(** X18.  [determine_transaction_type] answers buyItems or acceptBids for
    every transaction, receipt and list of events: the default unknown is
    never returned. *)
Theorem transaction_type_is_decided (tx : Transaction) (receipt : Receipt)
    (event_details : option (list (string * gmap string value))) :
  determine_transaction_type tx receipt event_details = "buyItems"
  \/ determine_transaction_type tx receipt event_details = "acceptBids".
Proof.
  unfold determine_transaction_type.
  assert (Hsel : kind_of_selector tx = None
                 \/ kind_of_selector tx = Some "buyItems"
                 \/ kind_of_selector tx = Some "acceptBids").
  { unfold kind_of_selector.
    repeat match goal with
           | |- context [if ?c then _ else _] => destruct c
           end; auto. }
  assert (Hrest : match kind_of_selector tx with
                  | Some kind => kind
                  | None => if 0 <? tx_value tx then "buyItems"
                            else "acceptBids"
                  end = "buyItems"
                  \/ match kind_of_selector tx with
                     | Some kind => kind
                     | None => if 0 <? tx_value tx then "buyItems"
                               else "acceptBids"
                     end = "acceptBids").
  { destruct Hsel as [-> | [-> | ->]]; [| by left | by right].
    destruct (0 <? tx_value tx); [by left | by right]. }
  assert (Hflat : forall o : option string,
             match match o with
                   | Some kind => Ok kind
                   | None =>
                       match kind_of_selector tx with
                       | Some kind => Ok kind
                       | None => if 0 <? tx_value tx then Ok "buyItems"
                                 else Ok "acceptBids"
                       end
                   end with
             | Ok kind => kind
             | Raise _ => "unknown"
             end
             = match o with
               | Some kind => kind
               | None => match kind_of_selector tx with
                         | Some kind => kind
                         | None => if 0 <? tx_value tx then "buyItems"
                                   else "acceptBids"
                         end
               end).
  { intros [kind |]; [reflexivity |].
    destruct (kind_of_selector tx); [reflexivity |].
    by destruct (0 <? tx_value tx). }
  rewrite Hflat.
  destruct event_details as [[| e l] |]; try exact Hrest.
  destruct (kind_of_events_cases (e :: l)) as [-> | [-> | ->]];
    [exact Hrest | by left | by right].
Qed.

(** X19.  Given the events that the classifier returned, when there is at
    least one, [determine_transaction_type] answers by the first of them
    alone: buyItems for an ItemSold, acceptBids for a BidAccepted; the
    selector and the value are not consulted. *)
Theorem transaction_type_follows_first_event (env : Env)
    (self : HyperEVMNFTTracker) (tx : Transaction) (receipt : Receipt)
    (name : string) (d : gmap string value)
    (events : list (string * gmap string value)) :
  snd (extract_token_ids_from_logs env self (receipt_logs receipt))
  = (name, d) :: events ->
  (name = "ItemSold" \/ name = "BidAccepted")
  /\ determine_transaction_type tx receipt (Some ((name, d) :: events))
     = if String.eqb name "ItemSold" then "buyItems" else "acceptBids".
Proof.
  intros H.
  destruct (extract_invariant env self (receipt_logs receipt)) as (Hty & _).
  rewrite H in Hty. apply Forall_cons_1 in Hty as [[Hn _] _].
  cbn [fst snd] in Hn.
  assert (Hname : name = "ItemSold" \/ name = "BidAccepted")
    by (destruct Hn as [[-> _] | ->]; eauto).
  split; [exact Hname |].
  unfold determine_transaction_type. cbn [kind_of_events].
  destruct Hname as [-> | ->]; reflexivity.
Qed.

Lemma transaction_type_follows_first_event_witness :
  let events := snd (extract_token_ids_from_logs Sample.env Sample.self
                       (receipt_logs Sample.receipt_sales)) in
  let d := match events with (_, d) :: _ => d | [] => ∅ end in
  events = ("ItemSold", d) :: tail events
  /\ determine_transaction_type Sample.tx_sales Sample.receipt_sales
       (Some (("ItemSold", d) :: tail events)) = "buyItems".
Proof.
  intros events d.
  assert (H : events = ("ItemSold", d) :: tail events)
    by exact (eq_refl events <: events = ("ItemSold", d) :: tail events).
  split; [exact H |].
  exact (proj2 (transaction_type_follows_first_event Sample.env Sample.self
                  Sample.tx_sales Sample.receipt_sales "ItemSold" d
                  (tail events) H)).
Defined.

(** X20.  [main] tracks only after a successful probe, and then reads only
    new blocks: when it reaches the loop, the node answered that it is
    connected and gave a chain id (whichever: it is not compared with
    [CHAIN_ID]) and a head; the tracker starts from the head that
    [__init__] read; and while the observed heads do not fall below the
    cursor, the blocks read are exactly those above that starting head. *)
Theorem main_reads_only_new_blocks (node : Node) (envs : list Env)
    (t : list call) (self : HyperEVMNFTTracker) :
  main node envs = Tracking t self ->
  is_connected node = Ok true
  /\ (exists c : Z, chain_id node = Ok c)
  /\ (exists h : Z, latest_block node = Ok h)
  /\ exists h0 : Z,
       startup_block node = Ok h0
       /\ track_transactions envs (init h0) = (t, self)
       /\ (heads_ascend envs h0 ->
           heights t = range (h0 + 1) (last_processed_block self + 1)).
Proof.
  unfold main, verify_hyperevm_connection.
  destruct (is_connected node) as [[|] |]; cbn [Py.bind negb]; try done.
  destruct (chain_id node) as [c |]; cbn [Py.bind negb]; [| done].
  destruct (latest_block node) as [h |]; cbn [Py.bind negb]; [| done].
  destruct (startup_block node) as [h0 |]; [| done].
  destruct (track_transactions envs (init h0)) as [t' self'] eqn:Hrun.
  intros [= <- <-].
  split; [reflexivity |]. split; [eauto |]. split; [eauto |].
  exists h0. split; [reflexivity |]. split; [exact Hrun |].
  intros Hasc. pose proof (no_backfill envs (init h0) Hasc) as Hh.
  by rewrite Hrun in Hh.
Qed.

Lemma main_reads_only_new_blocks_witness :
  exists (t : list call) (self : HyperEVMNFTTracker),
    main More.node [Sample.env_at (Ok 10); Sample.env_at (Ok 12)]
    = Tracking t self
    /\ heights t = [11; 12]
    /\ main More.node_down [Sample.env_at (Ok 12)] = Returned.
Proof.
  destruct (main More.node [Sample.env_at (Ok 10); Sample.env_at (Ok 12)])
    as [| e | t self] eqn:H;
    [vm_compute in H; discriminate H | vm_compute in H; discriminate H |].
  exists t, self. split; [reflexivity |].
  destruct (main_reads_only_new_blocks More.node _ t self H)
    as (_ & _ & _ & h0 & Hh0 & Hrun & Hheights).
  injection Hh0 as <-.
  split; [| reflexivity].
  rewrite Hheights by (cbn; lia).
  apply (f_equal snd) in Hrun. cbn [snd] in Hrun. rewrite <- Hrun.
  vm_compute. reflexivity.
Defined.

(** X21.  An amount of at most half a millionth of the native unit is
    displayed as zero: up to 500000000000 raw units included, the tie going
    to the even digit, the price text is 0.000000. *)
Theorem dust_is_displayed_as_zero (raw : Z) :
  0 <= raw <= 500000000000 ->
  exists x : number, from_wei raw = Ok x /\ format_f 6 x = "0.000000".
Proof.
  intros H.
  assert (Hmax : 500000000000 <= MAX_WEI) by (vm_compute; discriminate).
  destruct (from_wei_range raw) as (x & Hx & Hfmt); [lia |].
  exists x. split; [exact Hx |]. rewrite Hfmt.
  pose proof (format_f6_nonneg raw 18 ltac:(lia) ltac:(lia)) as Hf.
  cbn zeta in Hf. rewrite Hf.
  change (10 ^ Z.of_nat (18 - 6)) with 1000000000000.
  assert (Hn : round_half_even raw 1000000000000 = 0).
  { unfold round_half_even.
    rewrite Z.div_small, Z.mod_small by lia.
    destruct (2 * raw <? 1000000000000); [reflexivity |].
    destruct (1000000000000 <? 2 * raw) eqn:Hlt; [| reflexivity].
    apply Z.ltb_lt in Hlt. lia. }
  rewrite Hn. reflexivity.
Qed.

Lemma dust_is_displayed_as_zero_witness :
  0 <= 500000000000 <= 500000000000
  /\ exists x : number,
       from_wei 500000000000 = Ok x /\ format_f 6 x = "0.000000".
Proof.
  assert (H : 0 <= 500000000000 <= 500000000000) by lia.
  split; [exact H |]. exact (dust_is_displayed_as_zero 500000000000 H).
Defined.

(** ** The payloads that the decoders accept *)

(** X22.  What [decode_bid_accepted_event] accepts is a payload written
    out as text: when the payload is the bytes of the text [0x] followed
    by 64 hexadecimal digits per word, with at least 8 words and 3 topics,
    it yields bidType from word 0, pricePerItem from word 2, quantity from
    word 3, tokenId from word 7, bidder and nftAddress from topics 1 and
    2, and the seller from topic 3, or the sentinel when the log has only
    3 topics; with fewer than 8 chunks or fewer than 3 topics it yields
    nothing. *)
Theorem bid_accepted_text_layout (log : Log) :
  ((payload_chunks log < 8)%nat \/ (length (log_topics log) < 3)%nat ->
   decode_bid_accepted_event log = None)
  /\ (forall (ws : list Z) (w0 w2 w3 w7 : Z) (t1 t2 : list byte),
        log_data log = text_data ws ->
        ws !! 0%nat = Some w0 -> ws !! 2%nat = Some w2 ->
        ws !! 3%nat = Some w3 -> ws !! 7%nat = Some w7 ->
        uint256 w0 -> uint256 w2 -> uint256 w3 -> uint256 w7 ->
        log_topics log !! 1%nat = Some t1 ->
        log_topics log !! 2%nat = Some t2 ->
        exists d : gmap string value,
          decode_bid_accepted_event log = Some d
          /\ d !! "bidType" = Some (VInt w0)
          /\ d !! "pricePerItem" = Some (VInt w2)
          /\ d !! "quantity" = Some (VInt w3)
          /\ d !! "tokenId" = Some (VInt w7)
          /\ d !! "bidder" = Some (VStr (hex (drop 12 t1)))
          /\ d !! "nftAddress" = Some (VStr (hex (drop 12 t2)))
          /\ d !! "seller"
             = Some (VStr (topic_address (log_topics log !! 3%nat)))).
Proof.
  split; [apply decode_bid_accepted_short |].
  intros ws w0 w2 w3 w7 t1 t2. apply decode_bid_accepted_text.
Qed.

Lemma bid_accepted_text_layout_witness :
  log_data Sample.bid_accepted_text
  = list_byte_of_string
      ("0x"
       +:+ "0000000000000000000000000000000000000000000000000000000000000001"
       +:+ "0000000000000000000000000000000000000000000000000000000000000000"
       +:+ "00000000000000000000000000000000000000000000000014d1120d7b160000"
       +:+ "0000000000000000000000000000000000000000000000000000000000000001"
       +:+ "0000000000000000000000000000000000000000000000000000000000000000"
       +:+ "0000000000000000000000000000000000000000000000000000000000000000"
       +:+ "0000000000000000000000000000000000000000000000000000000000000000"
       +:+ "0000000000000000000000000000000000000000000000000000000000000007")
  /\ (((payload_chunks Sample.bid_accepted_7 < 8)%nat
       \/ (length (log_topics Sample.bid_accepted_7) < 3)%nat)
      /\ decode_bid_accepted_event Sample.bid_accepted_7 = None)
  /\ exists d : gmap string value,
       decode_bid_accepted_event Sample.bid_accepted_text = Some d
       /\ d !! "bidType" = Some (VInt 1)
       /\ d !! "pricePerItem" = Some (VInt 1500000000000000000)
       /\ d !! "quantity" = Some (VInt 1)
       /\ d !! "tokenId" = Some (VInt 7)
       /\ d !! "bidder" = Some (VStr (hex Sample.buyer))
       /\ d !! "nftAddress" = Some (VStr (hex Sample.nft))
       /\ d !! "seller" = Some (VStr (hex Sample.seller)).
Proof.
  split; [vm_compute; reflexivity |]. split.
  - assert (H : (payload_chunks Sample.bid_accepted_7 < 8)%nat
                \/ (length (log_topics Sample.bid_accepted_7) < 3)%nat)
      by (left; vm_compute; lia).
    split; [exact H |].
    exact (proj1 (bid_accepted_text_layout Sample.bid_accepted_7) H).
  - apply (proj2 (bid_accepted_text_layout Sample.bid_accepted_text)
             Sample.bid_words 1 1500000000000000000 1 7
             (address_topic Sample.buyer) (address_topic Sample.nft));
      try reflexivity; unfold uint256; lia.
Defined.

(** X23.  What [decode_item_sold_event] accepts is a payload written out
    as text: when the payload is the bytes of the text [0x] followed by 64
    hexadecimal digits per word, with at least 6 words, it yields
    pricePerItem, quantity and tokenId from words 0 to 2 and the buyer,
    nftAddress and seller from topics 1 to 3 (the sentinel for a missing
    topic); with fewer than 6 chunks it yields nothing. *)
Theorem item_sold_text_layout (log : Log) :
  ((payload_chunks log < 6)%nat -> decode_item_sold_event log = None)
  /\ (forall (ws : list Z) (p q t : Z),
        log_data log = text_data ws ->
        (6 <= length ws)%nat ->
        ws !! 0%nat = Some p -> ws !! 1%nat = Some q -> ws !! 2%nat = Some t ->
        uint256 p -> uint256 q -> uint256 t ->
        exists d : gmap string value,
          decode_item_sold_event log = Some d
          /\ d !! "pricePerItem" = Some (VInt p)
          /\ d !! "quantity" = Some (VInt q)
          /\ d !! "tokenId" = Some (VInt t)
          /\ d !! "buyer"
             = Some (VStr (topic_address (log_topics log !! 1%nat)))
          /\ d !! "nftAddress"
             = Some (VStr (topic_address (log_topics log !! 2%nat)))
          /\ d !! "seller"
             = Some (VStr (topic_address (log_topics log !! 3%nat)))).
Proof.
  split; [apply decode_item_sold_short |].
  intros ws p q t Hd Hlen H0 H1 H2 U0 U1 U2.
  destruct (decode_item_sold_text log ws p q t Hd Hlen H0 H1 H2 U0 U1 U2)
    as (d & ? & ? & ? & ? & ? & ? & ? & _).
  exists d. by repeat split.
Qed.

Lemma item_sold_text_layout_witness :
  ((payload_chunks Sample.item_sold_3 < 6)%nat
   /\ decode_item_sold_event Sample.item_sold_3 = None)
  /\ exists d : gmap string value,
       decode_item_sold_event Sample.item_sold_text = Some d
       /\ d !! "pricePerItem" = Some (VInt 2000000000000000000)
       /\ d !! "quantity" = Some (VInt 1)
       /\ d !! "tokenId" = Some (VInt 42)
       /\ d !! "buyer" = Some (VStr (hex Sample.buyer))
       /\ d !! "nftAddress" = Some (VStr (hex Sample.nft))
       /\ d !! "seller" = Some (VStr (hex Sample.seller)).
Proof.
  split.
  - assert (H : (payload_chunks Sample.item_sold_3 < 6)%nat)
      by (vm_compute; lia).
    split; [exact H |].
    exact (proj1 (item_sold_text_layout Sample.item_sold_3) H).
  - apply (proj2 (item_sold_text_layout Sample.item_sold_text)
             Sample.sale_words 2000000000000000000 1 42);
      try reflexivity; try (cbn; lia); unfold uint256; lia.
Defined.
